(** * Weekly Focus planner: calendar engine, session timer, archive synchroniser

    A shallow embedding of the planner's logic (App.tsx, HistoryModal, the
    constants module) and the properties its specification states about it.

    Modelling conventions.
    - A JavaScript [Date] is its time value: an integer number of
      milliseconds since the epoch, interpreted through the ECMAScript
      abstract operations ([Day], [YearFromTime], [MakeDay], ...), which are
      transcribed below over [Z].  The model has no Invalid Date and no
      +-8.64e15 range limit.
    - Local time is UTC plus a constant offset [LocalTZA] (no daylight-saving
      transitions).
    - Arithmetic that the source performs with [/], [Math.ceil] and
      [Math.floor] is carried out over exact rationals ([Q]); all operands
      are integers far below 2^53, where the double results agree.
    - A method that mutates its receiver ([setDate], [setHours]) returns the
      new time value; React state setters become an explicit state record
      passed through the handlers.
    - Clock readings ([Date.now()], [new Date()]) and [generateId()] results
      are inputs of the handler that performs them. *)

From Stdlib Require Import ZArith Lia QArith Qround Ascii.
From stdpp Require Import base option list strings gmap pretty sorting.

Local Open Scope Z_scope.

(** ** ECMAScript time-value arithmetic *)

Definition msPerDay : Z := 86400000.
Definition msPerHour : Z := 3600000.
Definition msPerMinute : Z := 60000.
Definition msPerSecond : Z := 1000.

Definition Day (t : Z) : Z := t / msPerDay.
Definition TimeWithinDay (t : Z) : Z := t mod msPerDay.

Definition DaysInYear (y : Z) : Z :=
  if negb (y mod 4 =? 0) then 365
  else if negb (y mod 100 =? 0) then 366
  else if negb (y mod 400 =? 0) then 365
  else 366.

Definition DayFromYear (y : Z) : Z :=
  365 * (y - 1970) + (y - 1969) / 4 - (y - 1901) / 100 + (y - 1601) / 400.

Definition TimeFromYear (y : Z) : Z := msPerDay * DayFromYear y.

(** The largest [y] with [DayFromYear y <= d], found from an estimate that
    is off by at most one year (see [YearFromDay_spec]). *)
Definition YearFromDay (d : Z) : Z :=
  let y := 1970 + (400 * d) / 146097 in
  if DayFromYear (y + 1) <=? d then y + 1
  else if DayFromYear y <=? d then y
  else y - 1.

Definition YearFromTime (t : Z) : Z := YearFromDay (Day t).
Definition InLeapYear (t : Z) : Z := DaysInYear (YearFromTime t) - 365.
Definition DayWithinYear (t : Z) : Z := Day t - DayFromYear (YearFromTime t).

(** Number of days of the year that precede month [m] (0 = January). *)
Definition DaysBeforeMonth (m leap : Z) : Z :=
  match m with
  | 0 => 0
  | 1 => 31
  | 2 => 59 + leap
  | 3 => 90 + leap
  | 4 => 120 + leap
  | 5 => 151 + leap
  | 6 => 181 + leap
  | 7 => 212 + leap
  | 8 => 243 + leap
  | 9 => 273 + leap
  | 10 => 304 + leap
  | _ => 334 + leap
  end.

Definition MonthFromDay (d leap : Z) : Z :=
  if d <? 31 then 0
  else if d <? 59 + leap then 1
  else if d <? 90 + leap then 2
  else if d <? 120 + leap then 3
  else if d <? 151 + leap then 4
  else if d <? 181 + leap then 5
  else if d <? 212 + leap then 6
  else if d <? 243 + leap then 7
  else if d <? 273 + leap then 8
  else if d <? 304 + leap then 9
  else if d <? 334 + leap then 10
  else 11.

Definition MonthFromTime (t : Z) : Z :=
  MonthFromDay (DayWithinYear t) (InLeapYear t).

Definition DateFromTime (t : Z) : Z :=
  DayWithinYear t - DaysBeforeMonth (MonthFromTime t) (InLeapYear t) + 1.

Definition WeekDay (t : Z) : Z := (Day t + 4) mod 7.
Definition HourFromTime (t : Z) : Z := (t / msPerHour) mod 24.
Definition MinFromTime (t : Z) : Z := (t / msPerMinute) mod 60.
Definition SecFromTime (t : Z) : Z := (t / msPerSecond) mod 60.
Definition msFromTime (t : Z) : Z := t mod msPerSecond.

Definition MakeTime (hour min sec ms : Z) : Z :=
  hour * msPerHour + min * msPerMinute + sec * msPerSecond + ms.

(** [MakeDay]: the day number of the first of month [month] of [year]
    (months outside 0..11 carry into the year), plus [date - 1]. *)
Definition MakeDay (year month date : Z) : Z :=
  let ym := year + month / 12 in
  let mn := month mod 12 in
  DayFromYear ym + DaysBeforeMonth mn (DaysInYear ym - 365) + date - 1.

Definition MakeDate (day time : Z) : Z := day * msPerDay + time.

(** Two-digit years given to the [Date] constructor mean 19xx. *)
Definition MakeFullYear (y : Z) : Z :=
  if (0 <=? y) && (y <=? 99) then 1900 + y else y.

(** ** Numbers and strings *)

Definition Math_ceil (x : Q) : Z := Qceiling x.
Definition Math_floor (x : Q) : Z := Qfloor x.

(** [String(n)] / template interpolation of an integer. *)
Definition toString (n : Z) : string := pretty n.

Fixpoint repeatChar (n : nat) (c : ascii) : string :=
  match n with
  | O => EmptyString
  | S n' => String c (repeatChar n' c)
  end.

(** [s.padStart(targetLength, c)] for a one-character filler. *)
Definition padStart (targetLength : nat) (c : ascii) (s : string) : string :=
  repeatChar (targetLength - String.length s) c +:+ s.

(** [s.split(c)[0]]: the part of [s] before the first [c]. *)
Fixpoint splitHead (c : ascii) (s : string) : string :=
  match s with
  | EmptyString => EmptyString
  | String a s' => if Ascii.eqb a c then EmptyString else String a (splitHead c s')
  end.

(** [s.startsWith(p)]. *)
Definition startsWith (s p : string) : bool := String.prefix p s.

(** White space and line terminators of the 7-bit range, as removed by
    [trim]. *)
Definition isTrimmable (a : ascii) : bool :=
  match Ascii.N_of_ascii a with
  | 9%N | 10%N | 11%N | 12%N | 13%N | 32%N => true
  | _ => false
  end.

Fixpoint trimStart (s : string) : string :=
  match s with
  | EmptyString => EmptyString
  | String a s' => if isTrimmable a then trimStart s' else s
  end.

Definition trimEnd (s : string) : string :=
  String.rev (trimStart (String.rev s)).

Definition trim (s : string) : string := trimEnd (trimStart s).

(** ** The [Date] methods the planner uses *)

Section LocalTime.

(** Offset of local time from UTC, in milliseconds. *)
Variable LocalTZA : Z.

Definition LocalTime (t : Z) : Z := t + LocalTZA.
Definition UTC (t : Z) : Z := t - LocalTZA.

Definition getTime (d : Z) : Z := d.
Definition getFullYear (d : Z) : Z := YearFromTime (LocalTime d).
Definition getMonth (d : Z) : Z := MonthFromTime (LocalTime d).
Definition getDate (d : Z) : Z := DateFromTime (LocalTime d).
Definition getDay (d : Z) : Z := WeekDay (LocalTime d).
Definition getHours (d : Z) : Z := HourFromTime (LocalTime d).
Definition getMinutes (d : Z) : Z := MinFromTime (LocalTime d).

(** [d.setDate(dt)]: the new time value of [d]. *)
Definition setDate (d dt : Z) : Z :=
  let t := LocalTime d in
  UTC (MakeDate (MakeDay (YearFromTime t) (MonthFromTime t) dt)
                (TimeWithinDay t)).

(** [d.setHours(h, m, s, ms)]: the new time value of [d]. *)
Definition setHours (d h m s ms : Z) : Z :=
  let t := LocalTime d in
  UTC (MakeDate (Day t) (MakeTime h m s ms)).

(** [new Date(year, month, date)]. *)
Definition newDate (year month date : Z) : Z :=
  UTC (MakeDate (MakeDay (MakeFullYear year) month date) (MakeTime 0 0 0 0)).

(** *** App.tsx helpers *)

Definition getMonday (d : Z) : Z :=
  let date := d in
  let day := getDay date in
  let diff := getDate date - day + (if day =? 0 then -6 else 1) in
  let newDate := setDate date diff in
  setHours newDate 0 0 0 0.

Definition formatDate (date : Z) : string :=
  let year := getFullYear date in
  let month := padStart 2 "0" (toString (getMonth date + 1)) in
  let day := padStart 2 "0" (toString (getDate date)) in
  toString year +:+ "-" +:+ month +:+ "-" +:+ day.

Definition getWeekNumber (d : Z) : Z :=
  let onejan := newDate (getFullYear d) 0 1 in
  let millisecsInDay := 86400000 in
  Math_ceil (((inject_Z (getTime d - getTime onejan) / inject_Z millisecsInDay)
              + inject_Z (getDay onejan) + 1) / 7)%Q.

Definition generateWeekLabel (d : Z) : string :=
  toString (getFullYear d) +:+ " - Week " +:+ toString (getWeekNumber d).

Definition getCurrentDayIndex (now : Z) : Z :=
  Z.rem (getDay now + 6) 7.

End LocalTime.

(** ** Data model *)

(** Run-time values held by the properties of a task object. *)
Inductive JSVal : Type :=
  | VUndefined
  | VNull
  | VBool (b : bool)
  | VNum (n : Z)
  | VStr (s : string).

Global Instance JSVal_eq_dec : EqDecision JSVal.
Proof. solve_decision. Defined.

(** Truthiness, as tested by [if (v)] and [v || w]. *)
Definition truthy (v : JSVal) : bool :=
  match v with
  | VUndefined | VNull => false
  | VBool b => b
  | VNum n => negb (n =? 0)
  | VStr s => negb (String.eqb s "")
  end.

(** [a === b]. *)
Definition strictEq (a b : JSVal) : bool := bool_decide (a = b).

(** Modelled from the spec: the type [Task] of types.ts, which is not
    among the sources.  A task has an identifier, a title, an optional
    description, a [dayIndex] (0 = Monday .. 6 = Sunday, or absent), a
    [startTime] ("HH:MM", or absent), a [duration] in minutes, a completion
    flag and a colour tag.  Since the handlers merge tasks with partial
    tasks by object spread, a [Task] (and a [Partial<Task>]) is kept as it
    is at run time: an object, that is a finite map from property names
    (id, title, description, dayIndex, startTime, duration, isCompleted,
    color) to values. *)
Abbreviation Task := (gmap string JSVal).

(** [o.k]: reading an absent property gives [undefined]. *)
Definition prop (o : Task) (k : string) : JSVal := default VUndefined (o !! k).

(** [{...a, ...b}]: the properties of [b] override those of [a]. *)
Definition spread (a b : Task) : Task := b ∪ a.

(** Modelled from the spec: the type [Goal] of types.ts, which is not
    among the sources: identifier, text, completion flag and colour tag,
    all of which the handlers read as strings or booleans. *)
Module Goal.
Record t : Type := mk {
  id : string;
  text : string;
  isCompleted : bool;
  color : string
}.
End Goal.

(** Modelled from the spec: the [dailyThoughts] field of a persisted
    record, whose declaration in types.ts is not among the sources: absent
    (or [null]), a single string (legacy shape), or a map from day label to
    note. *)
Inductive Thoughts : Type :=
  | NoThoughts
  | LegacyThoughts (s : string)
  | ThoughtsMap (m : gmap string string).

(** Modelled from the spec: the type [WeeklyArchive] of types.ts, which
    is not among the sources: identifier, week start date (the date-only
    key of the week's Monday), week label, and the tasks, goals and notes of
    the week. *)
Module Archive.
Record t : Type := mk {
  id : string;
  weekStartDate : string;
  weekLabel : string;
  tasks : list Task;
  goals : list Goal.t;
  dailyThoughts : Thoughts
}.
End Archive.

Record TimerState : Type := mkTimerState {
  goalId : string;
  startTime : Z;
  accumulated : Z;
  isRunning : bool
}.

(** The current-view record as found in storage: every field may be
    missing, and [dailyThoughts] may have the legacy shape. *)
Record SavedData : Type := mkSavedData {
  saved_tasks : option (list Task);
  saved_goals : option (list Goal.t);
  saved_dailyThoughts : Thoughts;
  saved_currentWeekStartDate : option string;
  saved_weekLabel : option string
}.

(** [localStorage], restricted to the two keys of the planner; JSON
    encoding and decoding are left implicit. *)
Record Storage : Type := mkStorage {
  weekly_planner_data_v1 : option SavedData;
  weekly_planner_history_v1 : option (list Archive.t)
}.

(** The component state of [App] (one field per [useState]). *)
Record AppState : Type := mkAppState {
  tasks : list Task;
  goals : list Goal.t;
  dailyThoughts : gmap string string;
  archives : list Archive.t;
  newGoalText : string;
  currentWeekStartDate : string;
  isSidebarOpen : bool;
  isHistoryOpen : bool;
  isTaskModalOpen : bool;
  editingTask : option Task;
  expandedDay : option string;
  currentWeekLabel : string;
  notificationsEnabled : bool;
  currentTimeLineTop : option Q;
  isLoaded : bool;
  activeTimer : option TimerState;
  timerDisplay : Z
}.

Definition setTasks (v : list Task) (st : AppState) : AppState :=
  mkAppState
    v (goals st) (dailyThoughts st) (archives st) (newGoalText st)
    (currentWeekStartDate st) (isSidebarOpen st) (isHistoryOpen st)
    (isTaskModalOpen st) (editingTask st) (expandedDay st)
    (currentWeekLabel st) (notificationsEnabled st) (currentTimeLineTop st)
    (isLoaded st) (activeTimer st) (timerDisplay st).

Definition setGoals (v : list Goal.t) (st : AppState) : AppState :=
  mkAppState
    (tasks st) v (dailyThoughts st) (archives st) (newGoalText st)
    (currentWeekStartDate st) (isSidebarOpen st) (isHistoryOpen st)
    (isTaskModalOpen st) (editingTask st) (expandedDay st)
    (currentWeekLabel st) (notificationsEnabled st) (currentTimeLineTop st)
    (isLoaded st) (activeTimer st) (timerDisplay st).

Definition setDailyThoughts (v : gmap string string) (st : AppState) : AppState :=
  mkAppState
    (tasks st) (goals st) v (archives st) (newGoalText st)
    (currentWeekStartDate st) (isSidebarOpen st) (isHistoryOpen st)
    (isTaskModalOpen st) (editingTask st) (expandedDay st)
    (currentWeekLabel st) (notificationsEnabled st) (currentTimeLineTop st)
    (isLoaded st) (activeTimer st) (timerDisplay st).

Definition setArchives (v : list Archive.t) (st : AppState) : AppState :=
  mkAppState
    (tasks st) (goals st) (dailyThoughts st) v (newGoalText st)
    (currentWeekStartDate st) (isSidebarOpen st) (isHistoryOpen st)
    (isTaskModalOpen st) (editingTask st) (expandedDay st)
    (currentWeekLabel st) (notificationsEnabled st) (currentTimeLineTop st)
    (isLoaded st) (activeTimer st) (timerDisplay st).

Definition setCurrentWeekStartDate (v : string) (st : AppState) : AppState :=
  mkAppState
    (tasks st) (goals st) (dailyThoughts st) (archives st) (newGoalText st) v
    (isSidebarOpen st) (isHistoryOpen st) (isTaskModalOpen st)
    (editingTask st) (expandedDay st) (currentWeekLabel st)
    (notificationsEnabled st) (currentTimeLineTop st) (isLoaded st)
    (activeTimer st) (timerDisplay st).

Definition setIsHistoryOpen (v : bool) (st : AppState) : AppState :=
  mkAppState
    (tasks st) (goals st) (dailyThoughts st) (archives st) (newGoalText st)
    (currentWeekStartDate st) (isSidebarOpen st) v (isTaskModalOpen st)
    (editingTask st) (expandedDay st) (currentWeekLabel st)
    (notificationsEnabled st) (currentTimeLineTop st) (isLoaded st)
    (activeTimer st) (timerDisplay st).

Definition setExpandedDay (v : option string) (st : AppState) : AppState :=
  mkAppState
    (tasks st) (goals st) (dailyThoughts st) (archives st) (newGoalText st)
    (currentWeekStartDate st) (isSidebarOpen st) (isHistoryOpen st)
    (isTaskModalOpen st) (editingTask st) v (currentWeekLabel st)
    (notificationsEnabled st) (currentTimeLineTop st) (isLoaded st)
    (activeTimer st) (timerDisplay st).

Definition setCurrentWeekLabel (v : string) (st : AppState) : AppState :=
  mkAppState
    (tasks st) (goals st) (dailyThoughts st) (archives st) (newGoalText st)
    (currentWeekStartDate st) (isSidebarOpen st) (isHistoryOpen st)
    (isTaskModalOpen st) (editingTask st) (expandedDay st) v
    (notificationsEnabled st) (currentTimeLineTop st) (isLoaded st)
    (activeTimer st) (timerDisplay st).

Definition setIsLoaded (v : bool) (st : AppState) : AppState :=
  mkAppState
    (tasks st) (goals st) (dailyThoughts st) (archives st) (newGoalText st)
    (currentWeekStartDate st) (isSidebarOpen st) (isHistoryOpen st)
    (isTaskModalOpen st) (editingTask st) (expandedDay st)
    (currentWeekLabel st) (notificationsEnabled st) (currentTimeLineTop st) v
    (activeTimer st) (timerDisplay st).

Definition setActiveTimer (v : option TimerState) (st : AppState) : AppState :=
  mkAppState
    (tasks st) (goals st) (dailyThoughts st) (archives st) (newGoalText st)
    (currentWeekStartDate st) (isSidebarOpen st) (isHistoryOpen st)
    (isTaskModalOpen st) (editingTask st) (expandedDay st)
    (currentWeekLabel st) (notificationsEnabled st) (currentTimeLineTop st)
    (isLoaded st) v (timerDisplay st).

Definition setTimerDisplay (v : Z) (st : AppState) : AppState :=
  mkAppState
    (tasks st) (goals st) (dailyThoughts st) (archives st) (newGoalText st)
    (currentWeekStartDate st) (isSidebarOpen st) (isHistoryOpen st)
    (isTaskModalOpen st) (editingTask st) (expandedDay st)
    (currentWeekLabel st) (notificationsEnabled st) (currentTimeLineTop st)
    (isLoaded st) (activeTimer st) v.

(** ** Constants (constants.ts) *)

Definition DAYS_OF_WEEK : list string :=
  ["Mon"; "Tue"; "Wed"; "Thu"; "Fri"; "Sat"; "Sun"].

Definition START_HOUR : Z := 6.
Definition END_HOUR : Z := 23.

Definition TASK_COLORS : list string :=
  ["bg-blue-100 border-blue-300 text-blue-800";
   "bg-green-100 border-green-300 text-green-800";
   "bg-purple-100 border-purple-300 text-purple-800";
   "bg-orange-100 border-orange-300 text-orange-800";
   "bg-rose-100 border-rose-300 text-rose-800"].

(** [xs[i]] on an array of strings, stringified as a template or a
    computed key does: an index out of range reads [undefined]. *)
Definition stringAt (xs : list string) (i : Z) : string :=
  if i <? 0 then "undefined" else default "undefined" (xs !! Z.to_nat i).

(** [s || d] on strings: the empty string is falsy. *)
Definition strOr (s : option string) (d : string) : string :=
  match s with
  | Some (String a s') => String a s'
  | _ => d
  end.

(** [Object.values(m)]. *)
Definition Object_values (m : gmap string string) : list string :=
  (map_to_list m).*2.

(** ** Handlers and effects of [App] *)

Section App.

Variable LocalTZA : Z.

(** [new Date(s)] for a string [s]: the host's date parser. *)
Variable parseDate : string → Z.

(** The state of the first render ([useState] initial values); [now] is
    the [new Date()] of the initialiser of [currentWeekStartDate]. *)
Definition initialState (now : Z) : AppState :=
  {| tasks := [];
     goals := [];
     dailyThoughts := ∅;
     archives := [];
     newGoalText := "";
     currentWeekStartDate := formatDate LocalTZA (getMonday LocalTZA now);
     isSidebarOpen := false;
     isHistoryOpen := false;
     isTaskModalOpen := false;
     editingTask := None;
     expandedDay := None;
     currentWeekLabel := "";
     notificationsEnabled := false;
     currentTimeLineTop := None;
     isLoaded := false;
     activeTimer := None;
     timerDisplay := 0 |}.

(** *** Session timer *)

(** [now] is the reading of [Date.now()] made by the branch taken. *)
Definition toggleTimer (now : Z) (goalId' : string) (st : AppState) : AppState :=
  let startNew :=
    setTimerDisplay 0
      (setActiveTimer
         (Some {| goalId := goalId'; startTime := now; accumulated := 0;
                  isRunning := true |}) st) in
  match activeTimer st with
  | Some timer =>
      if bool_decide (goalId timer = goalId') then
        if isRunning timer then
          (* Pause *)
          let diffInSeconds :=
            Math_floor (inject_Z (now - startTime timer) / 1000)%Q in
          setActiveTimer
            (Some {| goalId := goalId timer; startTime := startTime timer;
                     accumulated := accumulated timer + diffInSeconds;
                     isRunning := false |}) st
        else
          (* Resume *)
          setActiveTimer
            (Some {| goalId := goalId timer; startTime := now;
                     accumulated := accumulated timer;
                     isRunning := true |}) st
      else startNew
  | None => startNew
  end.

(** [createTaskFromGoal(text, dayIndex, startTime, color, duration = 30,
    isCompleted = false)]; [newId] is the result of [generateId()]. *)
Definition createTaskFromGoal (newId : string) (text : string) (dayIndex : Z)
    (startTime' : string) (color : string) (duration : option Z)
    (isCompleted : option bool) (st : AppState) : AppState :=
  let newTask : Task :=
    {[ "id" := VStr newId;
       "title" := VStr text;
       "dayIndex" := VNum dayIndex;
       "startTime" := VStr startTime';
       "duration" := VNum (default 30 duration);
       "isCompleted" := VBool (default false isCompleted);
       "color" := VStr color ]} in
  setTasks (tasks st ++ [newTask]) st.

(** [nowMs] is the reading of [Date.now()] (made only while the timer
    runs), [now] the [new Date()] of the handler and [today] the
    [new Date()] of [getCurrentDayIndex]. *)
Definition stopTimer (nowMs now today : Z) (newId : string)
    (goalId' : string) (st : AppState) : AppState :=
  match activeTimer st with
  | Some timer =>
      if bool_decide (goalId timer = goalId') then
        (* Calculate final time *)
        let totalSeconds :=
          if isRunning timer
          then accumulated timer
               + Math_floor (inject_Z (nowMs - startTime timer) / 1000)%Q
          else accumulated timer in
        (* Reset timer *)
        let st := setTimerDisplay 0 (setActiveTimer None st) in
        if 0 <? totalSeconds then
          let minutes := Math_ceil (inject_Z totalSeconds / 60)%Q in
          let roundedDuration :=
            Z.max 15 (Math_ceil (inject_Z minutes / 15)%Q * 15) in
          let goal :=
            List.find (λ g, bool_decide (Goal.id g = goalId')) (goals st) in
          let startTime' := getTime now - totalSeconds * 1000 in
          let h := getHours LocalTZA startTime' in
          let m := getMinutes LocalTZA startTime' in
          (* Clamp to grid *)
          let h := if h <? START_HOUR then START_HOUR else h in
          let timeString :=
            padStart 2 "0" (toString h) +:+ ":"
            +:+ (if m <? 30 then "00" else "30") in
          let todayIndex := getCurrentDayIndex LocalTZA today in
          createTaskFromGoal newId
            (strOr (Goal.text <$> goal) "Focus Session" +:+ " (Timer)")
            todayIndex
            timeString
            (strOr (Goal.color <$> goal) (stringAt TASK_COLORS 2))
            (Some roundedDuration)
            (Some true)
            st
        else st
      else st
  | None => st
  end.

(** *** Task editing *)

Definition handleSaveTask (newId : string) (taskData : Task)
    (st : AppState) : AppState :=
  if truthy (prop taskData "id") then
    setTasks
      (map (λ t, if strictEq (prop t "id") (prop taskData "id")
                 then spread t taskData else t) (tasks st)) st
  else
    let newTask : Task :=
      <["isCompleted" := VBool false]> (<["id" := VStr newId]> taskData) in
    setTasks (tasks st ++ [newTask]) st.

Definition handleDeleteTask (taskId : JSVal) (st : AppState) : AppState :=
  setTasks
    (List.filter (λ t, negb (strictEq (prop t "id") taskId)) (tasks st)) st.

(** *** Week navigation *)

Definition handleSelectWeek (startDate : string) (st : AppState) : AppState :=
  let targetDateStr := splitHead "T" startDate in
  let existingArchive :=
    List.find (λ a, startsWith (Archive.weekStartDate a) targetDateStr)
              (archives st) in
  let st :=
    match existingArchive with
    | Some a =>
        let st := setTasks (Archive.tasks a) st in
        let st := setGoals (Archive.goals a) st in
        let st :=
          match Archive.dailyThoughts a with
          | NoThoughts | LegacyThoughts EmptyString => setDailyThoughts ∅ st
          | LegacyThoughts s => setDailyThoughts {[ "Mon" := s ]} st
          | ThoughtsMap m => setDailyThoughts m st
          end in
        setCurrentWeekLabel (Archive.weekLabel a) st
    | None =>
        let st := setTasks [] st in
        let st := setGoals [] st in
        let st := setDailyThoughts ∅ st in
        let d := parseDate startDate in
        setCurrentWeekLabel (generateWeekLabel LocalTZA d) st
    end in
  let st := setCurrentWeekStartDate targetDateStr st in
  setIsHistoryOpen false st.

(** *** Data loading (mount effect)

    [now] is the [new Date()] that opens the effect, [now'] the one passed
    to [getMonday] when no week start date was saved.  (The
    notification-permission request resolves later and is not part of
    this step.) *)
Definition loadEffect (now now' : Z) (sto : Storage) (st : AppState) : AppState :=
  let d := now in
  let todayIndex := Z.rem (getDay LocalTZA d + 6) 7 in
  let st := setExpandedDay (DAYS_OF_WEEK !! Z.to_nat todayIndex) st in
  let freshWeek (st : AppState) :=
    let monday := getMonday LocalTZA now' in
    let st := setCurrentWeekStartDate (formatDate LocalTZA monday) st in
    setCurrentWeekLabel (generateWeekLabel LocalTZA monday) st in
  (* Load current state *)
  let st :=
    match weekly_planner_data_v1 sto with
    | Some parsed =>
        let st := setTasks (default [] (saved_tasks parsed)) st in
        let st := setGoals (default [] (saved_goals parsed)) st in
        let st :=
          match saved_dailyThoughts parsed with
          | LegacyThoughts s =>
              setDailyThoughts {[ stringAt DAYS_OF_WEEK todayIndex := s ]} st
          | ThoughtsMap m => setDailyThoughts m st
          | NoThoughts => setDailyThoughts ∅ st
          end in
        match saved_currentWeekStartDate parsed with
        | Some (String a s' as start) =>
            let st := setCurrentWeekStartDate start st in
            setCurrentWeekLabel
              (generateWeekLabel LocalTZA (parseDate start)) st
        | _ => freshWeek st
        end
    | None => freshWeek st
    end in
  (* Load History *)
  let st := setArchives (default [] (weekly_planner_history_v1 sto)) st in
  setIsLoaded true st.

(** *** Persistence effect (current view) *)
Definition persistEffect (st : AppState) (sto : Storage) : Storage :=
  if negb (isLoaded st) then sto
  else
    {| weekly_planner_data_v1 :=
         Some {| saved_tasks := Some (tasks st);
                 saved_goals := Some (goals st);
                 saved_dailyThoughts := ThoughtsMap (dailyThoughts st);
                 saved_currentWeekStartDate := Some (currentWeekStartDate st);
                 saved_weekLabel := Some (currentWeekLabel st) |};
       weekly_planner_history_v1 := weekly_planner_history_v1 sto |}.

(** *** Auto-sync to history effect *)

Definition hasContent (st : AppState) : bool :=
  (0 <? Z.of_nat (length (tasks st)))
  || (0 <? Z.of_nat (length (goals st)))
  || existsb (λ t, 0 <? Z.of_nat (String.length (trim t)))
             (Object_values (dailyThoughts st)).

(** The updater given to [setArchives]: the new archive list, and the
    list written under the history key ([None]: nothing is written).
    [findIndex] is [list_find], which also yields the entry found, that
    is [prevArchives[existingIndex]]; [None] stands for the index -1.
    [newId] is the result of [generateId()], called only when no entry
    exists. *)
Definition syncArchives (newId : string) (st : AppState)
    (prevArchives : list Archive.t) : list Archive.t * option (list Archive.t) :=
  let existing :=
    list_find
      (λ a, Archive.weekStartDate a = currentWeekStartDate st) prevArchives in
  if negb (hasContent st) then
    match existing with
    | Some (existingIndex, _) =>
        (* filter((_, idx) => idx !== existingIndex) *)
        let newArchives := delete existingIndex prevArchives in
        (newArchives, Some newArchives)
    | None => (prevArchives, None)
    end
  else
    let currentArchiveData :=
      {| Archive.id :=
           match existing with
           | Some (_, found) => Archive.id found
           | None => newId
           end;
         Archive.weekStartDate := currentWeekStartDate st;
         Archive.weekLabel := currentWeekLabel st;
         Archive.tasks := tasks st;
         Archive.goals := goals st;
         Archive.dailyThoughts := ThoughtsMap (dailyThoughts st) |} in
    let newArchives :=
      match existing with
      | Some (existingIndex, _) =>
          <[existingIndex := currentArchiveData]> prevArchives
      | None => currentArchiveData :: prevArchives
      end in
    (newArchives, Some newArchives).

Definition autoSyncEffect (newId : string) (w : AppState * Storage)
    : AppState * Storage :=
  let '(st, sto) := w in
  if negb (isLoaded st) || String.eqb (currentWeekStartDate st) "" then w
  else
    let '(newArchives, written) := syncArchives newId st (archives st) in
    (setArchives newArchives st,
     match written with
     | Some l =>
         {| weekly_planner_data_v1 := weekly_planner_data_v1 sto;
            weekly_planner_history_v1 := Some l |}
     | None => sto
     end).

End App.

(** ** History browser (HistoryModal) *)

(** Result of a computation with loops: a value, an exception, or a
    recursion budget that ran out before the loop ended. *)
Inductive Outcome (A : Type) : Type :=
  | Returns (a : A)
  | Throws
  | OutOfFuel.
Arguments Returns {A} a.
Arguments Throws {A}.
Arguments OutOfFuel {A}.

Global Instance Outcome_ret : MRet Outcome := λ A a, Returns a.
Global Instance Outcome_bind : MBind Outcome := λ A B f m,
  match m with
  | Returns a => f a
  | Throws => Throws
  | OutOfFuel => OutOfFuel
  end.

Record WeekBlock : Type := mkWeekBlock {
  startDate : string;
  dayLabel : Z;
  archive : option Archive.t
}.

Record MonthInfo : Type := mkMonthInfo {
  year : Z;
  monthIndex : Z
}.

Record CalendarData : Type := mkCalendarData {
  years : list Z;
  data : gmap Z (gmap Z (list WeekBlock))
}.

(** Year field of [toISOString]: four digits, or a sign and six digits. *)
Definition isoYear (y : Z) : string :=
  if (0 <=? y) && (y <=? 9999) then padStart 4 "0" (toString y)
  else (if y <? 0 then "-" else "+") +:+ padStart 6 "0" (toString (Z.abs y)).

(** [d.toISOString()]: the UTC fields of the time value. *)
Definition toISOString (d : Z) : string :=
  isoYear (YearFromTime d)
  +:+ "-" +:+ padStart 2 "0" (toString (MonthFromTime d + 1))
  +:+ "-" +:+ padStart 2 "0" (toString (DateFromTime d))
  +:+ "T" +:+ padStart 2 "0" (toString (HourFromTime d))
  +:+ ":" +:+ padStart 2 "0" (toString (MinFromTime d))
  +:+ ":" +:+ padStart 2 "0" (toString (SecFromTime d))
  +:+ "." +:+ padStart 3 "0" (toString (msFromTime d))
  +:+ "Z".

Section HistoryModal.

Variable LocalTZA : Z.
Variable parseDate : string → Z.

(** The year and month index where the majority of the week falls. *)
Definition getMajorityMonthInfo (date : Z) : MonthInfo :=
  let thursday := date in
  (* Move to Thursday of this week (Monday + 3 days) *)
  let thursday := setDate LocalTZA thursday (getDate LocalTZA date + 3) in
  {| year := getFullYear LocalTZA thursday;
     monthIndex := getMonth LocalTZA thursday |}.

Definition requestedRange : list Z := [2025; 2026; 2027; 2028; 2029; 2030].

(** [Array.from(new Set(xs)).sort((a, b) => a - b)]. *)
Definition uniqueSorted (xs : list Z) : list Z :=
  merge_sort Z.le (remove_dups xs).

Definition findArchive (archives : list Archive.t) (date : Z)
    : option Archive.t :=
  let dateStr := splitHead "T" (toISOString date) in
  List.find (λ a, startsWith (Archive.weekStartDate a) dateStr) archives.

(** [while (iterDate.getDay() !== 1) iterDate.setDate(iterDate.getDate() + 1)];
    the result is the final value of [iterDate]. *)
Fixpoint fastForward (fuel : nat) (iterDate : Z) : Outcome Z :=
  match fuel with
  | O => OutOfFuel
  | S fuel' =>
      if negb (getDay LocalTZA iterDate =? 1) then
        fastForward fuel'
          (setDate LocalTZA iterDate (getDate LocalTZA iterDate + 1))
      else Returns iterDate
  end.

(** [data[year][monthIndex].push(block)]; reading a property of
    [undefined] throws. *)
Definition pushBlock (year' monthIndex' : Z) (block : WeekBlock)
    (data' : gmap Z (gmap Z (list WeekBlock)))
    : Outcome (gmap Z (gmap Z (list WeekBlock))) :=
  match data' !! year' with
  | Some months =>
      match months !! monthIndex' with
      | Some weeks =>
          Returns (<[year' := <[monthIndex' := weeks ++ [block]]> months]> data')
      | None => Throws
      end
  | None => Throws
  end.

(** The [while (true)] loop over the weeks of one year. *)
Fixpoint scanWeeks (fuel : nat) (archives : list Archive.t) (year' : Z)
    (iterDate : Z) (data' : gmap Z (gmap Z (list WeekBlock)))
    : Outcome (gmap Z (gmap Z (list WeekBlock))) :=
  match fuel with
  | O => OutOfFuel
  | S fuel' =>
      let info := getMajorityMonthInfo iterDate in
      (* If we've moved past the target year, break *)
      if year' <? year info then Returns data'
      else
        (* If this week belongs to the target year, add it *)
        data' ←
          (if year info =? year' then
             pushBlock year' (monthIndex info)
               {| startDate := toISOString iterDate;
                  dayLabel := getDate LocalTZA iterDate;
                  archive := findArchive archives iterDate |} data'
           else Returns data');
        (* Move to next week *)
        scanWeeks fuel' archives year'
          (setDate LocalTZA iterDate (getDate LocalTZA iterDate + 7)) data'
  end.

(** The body of [uniqueYears.forEach]. *)
Definition buildYear (fuel : nat) (archives : list Archive.t) (year' : Z)
    (data' : gmap Z (gmap Z (list WeekBlock)))
    : Outcome (gmap Z (gmap Z (list WeekBlock))) :=
  let data' := <[year' := ∅]> data' in
  (* Initialize all months *)
  let data' :=
    foldl (λ acc i, alter (λ months, <[i := []]> months) year' acc)
          data' (seqZ 0 12) in
  let iterDate := newDate LocalTZA (year' - 1) 11 20 in
  (* Fast forward to first Monday *)
  iterDate ← fastForward fuel iterDate;
  scanWeeks fuel archives year' iterDate data'.

(** [calendarData] of the history browser (the version with the
    requested planning range). *)
Definition calendarData (fuel : nat) (archives : list Archive.t)
    : Outcome CalendarData :=
  let archiveYears :=
    map (λ a, year (getMajorityMonthInfo (parseDate (Archive.weekStartDate a))))
        archives in
  let uniqueYears := uniqueSorted (requestedRange ++ archiveYears) in
  data' ← foldl (λ acc year', data' ← acc; buildYear fuel archives year' data')
                (Returns ∅) uniqueYears;
  Returns {| years := uniqueYears; data := data' |}.

End HistoryModal.

(** ** Notions of the specification *)

(** Integer ceiling of [a / b], for a positive [b]. *)
Definition ceilDiv (a b : Z) : Z := - ((- a) / b).

(** Total seconds of a session that is stopped at clock reading [nowMs]:
    the accumulated seconds, plus the whole seconds of the running
    interval. *)
Definition totalSecondsAt (nowMs : Z) (timer : TimerState) : Z :=
  accumulated timer
  + (if isRunning timer then (nowMs - startTime timer) / 1000 else 0).

(** Duration of the task logged for a session, in minutes:
    max(15, ceil(ceil(totalSeconds / 60) / 15) * 15). *)
Definition roundedMinutes (totalSeconds : Z) : Z :=
  Z.max 15 (ceilDiv (ceilDiv totalSeconds 60) 15 * 15).

(** At most one archive entry per week start date. *)
Definition uniqueWeeks (l : list Archive.t) : Prop :=
  NoDup (Archive.weekStartDate <$> l).

Section SpecNotions.

Variable LocalTZA : Z.

(** Local calendar day number of a date. *)
Definition localDay (d : Z) : Z := Day (LocalTime LocalTZA d).

(** Monday resolution in the specification's words: the date minus
    [(weekday + 6) mod 7] days, with the time of day zeroed. *)
Definition mondayOf_spec (d : Z) : Z :=
  UTC LocalTZA ((localDay d - (getDay LocalTZA d + 6) mod 7) * msPerDay).

(** Both dates fall in the seven days that start at some Monday [m]
    (a day number whose week day is 1). *)
Definition sameWeek (d1 d2 : Z) : Prop :=
  ∃ m : Z, (m + 4) mod 7 = 1
           ∧ m ≤ localDay d1 < m + 7 ∧ m ≤ localDay d2 < m + 7.

(** ISO week-numbering year: the calendar year of the Thursday of the
    Monday-anchored week that contains the date. *)
Definition isoWeekYear (d : Z) : Z :=
  YearFromDay (localDay d - (getDay LocalTZA d + 6) mod 7 + 3).

(** The week label in the specification's words, with the ISO
    week-numbering year as its year component. *)
Definition weekLabel_spec (d : Z) : string :=
  toString (isoWeekYear d) +:+ " - Week "
  +:+ toString (getWeekNumber LocalTZA d).

End SpecNotions.

(** Notes of an archive entry as they appear in the active view once the
    week is selected. *)
Definition notesOf (th : Thoughts) : gmap string string :=
  match th with
  | ThoughtsMap m => m
  | LegacyThoughts s => if decide (s = "") then ∅ else {[ "Mon" := s ]}
  | NoThoughts => ∅
  end.

(** The snapshot of the active week stored under identifier [id']. *)
Definition snapshot (id' : string) (st : AppState) : Archive.t :=
  {| Archive.id := id';
     Archive.weekStartDate := currentWeekStartDate st;
     Archive.weekLabel := currentWeekLabel st;
     Archive.tasks := tasks st;
     Archive.goals := goals st;
     Archive.dailyThoughts := ThoughtsMap (dailyThoughts st) |}.

Global Instance MonthInfo_eq_dec : EqDecision MonthInfo.
Proof. solve_decision. Defined.

(** Value of a decimal digit character. *)
Definition digitValue (c : ascii) : Z := Z.of_N (N_of_ascii c) - 48.

(** Value of a string of decimal digits, continuing from [acc]. *)
Fixpoint decimalValue (acc : Z) (s : string) : Z :=
  match s with
  | EmptyString => acc
  | String c s' => decimalValue (acc * 10 + digitValue c) s'
  end.

(** ** Notions of the history grid *)

Section GridNotions.

Variable LocalTZA : Z.

(** The week entry pushed for the Monday [w]. *)
Definition weekBlock (archives : list Archive.t) (w : Z) : WeekBlock :=
  {| startDate := toISOString w;
     dayLabel := getDate LocalTZA w;
     archive := findArchive archives w |}.

(** The first Monday on or after December 20 of the year before [year']
    (built with [new Date(year' - 1, 11, 20)]). *)
Definition firstMonday (year' : Z) : Z :=
  let d := newDate LocalTZA (year' - 1) 11 20 in
  d + ((1 - getDay LocalTZA d) mod 7) * msPerDay.

(** [n] consecutive weeks from [d] on. *)
Definition weeksFrom (d : Z) (n : nat) : list Z :=
  (λ j : nat, d + Z.of_nat j * (7 * msPerDay)) <$> seq 0 n.

(** The Mondays whose week is assigned to month [m] of [year']: those among
    the 56 weeks from [firstMonday year'] whose Thursday lies in that month
    of that year. *)
Definition weeksIn (year' m : Z) : list Z :=
  filter (λ w, getMajorityMonthInfo LocalTZA w = {| year := year'; monthIndex := m |})
         (weeksFrom (firstMonday year') 56).

(** [data[y][m]], when both properties exist. *)
Definition bucket (data' : gmap Z (gmap Z (list WeekBlock))) (y m : Z)
    : option (list WeekBlock) :=
  data' !! y ≫= λ months, months !! m.

(** Some week from [d] on, within the first [n], has its Thursday after
    [year']: the scan from [d] breaks within [n] iterations. *)
Definition breaksWithin (year' d : Z) (n : nat) : Prop :=
  ∃ j : nat,
    (j < n)%nat
    ∧ year' < year (getMajorityMonthInfo LocalTZA (d + Z.of_nat j * (7 * msPerDay))).

(** The twelve month buckets of a year: bucket [m] holds the entries of
    the weeks assigned to month [m], in scan order. *)
Definition isYearGrid (archives : list Archive.t) (year' : Z)
    (months : gmap Z (list WeekBlock)) : Prop :=
  ∀ m, months !! m
       = if decide (0 ≤ m ≤ 11)
         then Some (weekBlock archives <$> weeksIn year' m)
         else None.

End GridNotions.

(** ** Events of the application *)

Section Steps.
Variable LocalTZA : Z.
Variable parseDate : string → Z.

(** One event of the application: a handler, or an effect that follows a
    state change. *)
Inductive step : AppState * Storage → AppState * Storage → Prop :=
  | step_load now now' st sto :
      step (st, sto) (loadEffect LocalTZA parseDate now now' sto st, sto)
  | step_persist st sto :
      step (st, sto) (st, persistEffect st sto)
  | step_sync newId w :
      step w (autoSyncEffect newId w)
  | step_toggle now goalId' st sto :
      step (st, sto) (toggleTimer now goalId' st, sto)
  | step_stop nowMs now today newId goalId' st sto :
      step (st, sto) (stopTimer LocalTZA nowMs now today newId goalId' st, sto)
  | step_save newId taskData st sto :
      step (st, sto) (handleSaveTask newId taskData st, sto)
  | step_delete taskId st sto :
      step (st, sto) (handleDeleteTask taskId st, sto)
  | step_select startDate st sto :
      step (st, sto) (handleSelectWeek LocalTZA parseDate startDate st, sto)
  | step_other st st' sto :
      (* the remaining handlers (goals, notes, drag and drop, modals) call
         neither [setArchives] nor [localStorage.setItem] *)
      archives st' = archives st →
      step (st, sto) (st', sto).

(** States reachable from the first render over a store whose history,
    if any, has one entry per week. *)
Inductive reachable : AppState * Storage → Prop :=
  | reachable_init now sto :
      (∀ l, weekly_planner_history_v1 sto = Some l → uniqueWeeks l) →
      reachable (initialState LocalTZA now, sto)
  | reachable_step w w' :
      reachable w → step w w' → reachable w'.
End Steps.

(** ** Sample data *)

(** A host parser for the date-only keys the planner writes: "YYYY-MM-DD"
    is midnight UTC of that day; any other string is read as the epoch. *)
Definition parseDateOnly (s : string) : Z :=
  match s with
  | String y1 (String y2 (String y3 (String y4 (String "-"
      (String m1 (String m2 (String "-"
        (String d1 (String d2 EmptyString))))))))) =>
      let y := decimalValue 0 (String y1 (String y2 (String y3 (String y4 EmptyString)))) in
      let m := decimalValue 0 (String m1 (String m2 EmptyString)) in
      let d := decimalValue 0 (String d1 (String d2 EmptyString)) in
      MakeDate (MakeDay y (m - 1) d) 0
  | _ => 0
  end.

(** A timer running for goal "g1" since the epoch. *)
Definition timer_g1 : TimerState :=
  {| goalId := "g1"; startTime := 0; accumulated := 0; isRunning := true |}.

Definition state_timing_g1 : AppState :=
  setActiveTimer (Some timer_g1)
    (setGoals [Goal.mk "g1" "Write report" false
                 "bg-blue-100 border-blue-300 text-blue-800"]
       (initialState 0 0)).

Definition task_a : Task :=
  {[ "id" := VStr "a"; "title" := VStr "Write"; "duration" := VNum 30;
     "isCompleted" := VBool true ]}.

Definition task_b : Task :=
  {[ "id" := VStr "b"; "title" := VStr "Read"; "duration" := VNum 45;
     "isCompleted" := VBool false ]}.

Definition state_two_tasks : AppState :=
  setTasks [task_a; task_b] (initialState 0 0).

(** An archived week in the legacy shape: its notes are a single string. *)
Definition archive_legacy (note : string) : Archive.t :=
  {| Archive.id := "w1";
     Archive.weekStartDate := "2025-12-29";
     Archive.weekLabel := "2025 - Week 53";
     Archive.tasks := [];
     Archive.goals := [];
     Archive.dailyThoughts := LegacyThoughts note |}.

(** An archived week of a year outside the requested range. *)
Definition archive_2031 : Archive.t :=
  {| Archive.id := "w2";
     Archive.weekStartDate := "2031-01-06";
     Archive.weekLabel := "2031 - Week 2";
     Archive.tasks := [task_a];
     Archive.goals := [];
     Archive.dailyThoughts := ThoughtsMap ∅ |}.

Definition state_with_archive (a : Archive.t) : AppState :=
  setArchives [a] (initialState 0 0).

(** A stored current-view record in the legacy shape. *)
Definition saved_legacy (note : string) : SavedData :=
  {| saved_tasks := None;
     saved_goals := None;
     saved_dailyThoughts := LegacyThoughts note;
     saved_currentWeekStartDate := Some "2025-12-29";
     saved_weekLabel := None |}.

Definition storage_legacy (note : string) : Storage :=
  {| weekly_planner_data_v1 := Some (saved_legacy note);
     weekly_planner_history_v1 := None |}.

(** The week of 2025-12-29 is selected and archived, and the only note left
    is blank. *)
Definition state_week_no_content : AppState :=
  setIsLoaded true
    (setCurrentWeekStartDate "2025-12-29"
       (setDailyThoughts {[ "Mon" := "   " ]}
          (state_with_archive (archive_legacy "note")))).

(** ** Further helpers of App.tsx *)

(** [s.split(c)] for a separator of one character. *)
Fixpoint splitOn (c : ascii) (s : string) : list string :=
  match s with
  | EmptyString => [EmptyString]
  | String a s' =>
      if Ascii.eqb a c then EmptyString :: splitOn c s'
      else match splitOn c s' with
           | piece :: pieces => String a piece :: pieces
           | [] => [String a EmptyString]
           end
  end.

Definition isDigit (a : ascii) : bool :=
  let n := Ascii.N_of_ascii a in (48 <=? n)%N && (n <=? 57)%N.

Fixpoint allDigits (s : string) : bool :=
  match s with
  | EmptyString => true
  | String a s' => isDigit a && allDigits s'
  end.

(** [Number(s)] on the strings the planner's date and time fields hold: a
    run of decimal digits is read in base ten, and the empty string is 0.
    Any other string is outside this fragment ([None]): the source gets
    [NaN] or the value of a numeric literal the planner never writes. *)
Definition StringToNumber (s : string) : option Z :=
  if allDigits s then Some (decimalValue 0 s)
  else None.

(** Format seconds to MM:SS. *)
Definition formatDuration (seconds : Z) : string :=
  let m := Math_floor (inject_Z seconds / 60)%Q in
  let s := Z.rem seconds 60 in
  padStart 2 "0" (toString m) +:+ ":" +:+ padStart 2 "0" (toString s).

Module Period.
Inductive t : Type := morning | afternoon | evening.
End Period.

Module PeriodInfo.
Record t : Type := mk {
  label : string;
  start : Z;
  end' : Z;
  bg : string
}.
End PeriodInfo.

(** [PERIODS] of constants.ts. *)
Definition PERIODS (p : Period.t) : PeriodInfo.t :=
  match p with
  | Period.morning =>
      {| PeriodInfo.label := "Morning"; PeriodInfo.start := 6;
         PeriodInfo.end' := 12; PeriodInfo.bg := "bg-amber-50/50" |}
  | Period.afternoon =>
      {| PeriodInfo.label := "Afternoon"; PeriodInfo.start := 12;
         PeriodInfo.end' := 18; PeriodInfo.bg := "bg-sky-50/50" |}
  | Period.evening =>
      {| PeriodInfo.label := "Evening"; PeriodInfo.start := 18;
         PeriodInfo.end' := 24; PeriodInfo.bg := "bg-indigo-50/50" |}
  end.

(** Helper to determine period based on hour. *)
Definition getPeriod (hour : Z) : Period.t :=
  if hour <? 12 then Period.morning
  else if hour <? 18 then Period.afternoon
  else Period.evening.

(** [xs[i]] for an integer [i]: [None] stands for [undefined]. *)
Definition arrayAt {A : Type} (xs : list A) (i : Z) : option A :=
  if i <? 0 then None else xs !! Z.to_nat i.

(** [TASK_COLORS[i]] as the value of a task property. *)
Definition colorAt (i : Z) : JSVal :=
  match arrayAt TASK_COLORS i with
  | Some c => VStr c
  | None => VUndefined
  end.

(** [a || b]. *)
Definition jsOr (a b : JSVal) : JSVal := if truthy a then a else b.

(** [`${h.toString().padStart(2, '0')}:${m.toString().padStart(2, '0')}`]. *)
Definition timeString (h m : Z) : string :=
  padStart 2 "0" (toString h) +:+ ":" +:+ padStart 2 "0" (toString m).

Definition setNewGoalText (v : string) (st : AppState) : AppState :=
  {| tasks := tasks st; goals := goals st; dailyThoughts := dailyThoughts st;
     archives := archives st; newGoalText := v;
     currentWeekStartDate := currentWeekStartDate st;
     isSidebarOpen := isSidebarOpen st; isHistoryOpen := isHistoryOpen st;
     isTaskModalOpen := isTaskModalOpen st; editingTask := editingTask st;
     expandedDay := expandedDay st; currentWeekLabel := currentWeekLabel st;
     notificationsEnabled := notificationsEnabled st;
     currentTimeLineTop := currentTimeLineTop st; isLoaded := isLoaded st;
     activeTimer := activeTimer st; timerDisplay := timerDisplay st |}.

Definition setIsSidebarOpen (v : bool) (st : AppState) : AppState :=
  {| tasks := tasks st; goals := goals st; dailyThoughts := dailyThoughts st;
     archives := archives st; newGoalText := newGoalText st;
     currentWeekStartDate := currentWeekStartDate st;
     isSidebarOpen := v; isHistoryOpen := isHistoryOpen st;
     isTaskModalOpen := isTaskModalOpen st; editingTask := editingTask st;
     expandedDay := expandedDay st; currentWeekLabel := currentWeekLabel st;
     notificationsEnabled := notificationsEnabled st;
     currentTimeLineTop := currentTimeLineTop st; isLoaded := isLoaded st;
     activeTimer := activeTimer st; timerDisplay := timerDisplay st |}.

Definition setIsTaskModalOpen (v : bool) (st : AppState) : AppState :=
  {| tasks := tasks st; goals := goals st; dailyThoughts := dailyThoughts st;
     archives := archives st; newGoalText := newGoalText st;
     currentWeekStartDate := currentWeekStartDate st;
     isSidebarOpen := isSidebarOpen st; isHistoryOpen := isHistoryOpen st;
     isTaskModalOpen := v; editingTask := editingTask st;
     expandedDay := expandedDay st; currentWeekLabel := currentWeekLabel st;
     notificationsEnabled := notificationsEnabled st;
     currentTimeLineTop := currentTimeLineTop st; isLoaded := isLoaded st;
     activeTimer := activeTimer st; timerDisplay := timerDisplay st |}.

Definition setEditingTask (v : option Task) (st : AppState) : AppState :=
  {| tasks := tasks st; goals := goals st; dailyThoughts := dailyThoughts st;
     archives := archives st; newGoalText := newGoalText st;
     currentWeekStartDate := currentWeekStartDate st;
     isSidebarOpen := isSidebarOpen st; isHistoryOpen := isHistoryOpen st;
     isTaskModalOpen := isTaskModalOpen st; editingTask := v;
     expandedDay := expandedDay st; currentWeekLabel := currentWeekLabel st;
     notificationsEnabled := notificationsEnabled st;
     currentTimeLineTop := currentTimeLineTop st; isLoaded := isLoaded st;
     activeTimer := activeTimer st; timerDisplay := timerDisplay st |}.

Definition setCurrentTimeLineTop (v : option Q) (st : AppState) : AppState :=
  {| tasks := tasks st; goals := goals st; dailyThoughts := dailyThoughts st;
     archives := archives st; newGoalText := newGoalText st;
     currentWeekStartDate := currentWeekStartDate st;
     isSidebarOpen := isSidebarOpen st; isHistoryOpen := isHistoryOpen st;
     isTaskModalOpen := isTaskModalOpen st; editingTask := editingTask st;
     expandedDay := expandedDay st; currentWeekLabel := currentWeekLabel st;
     notificationsEnabled := notificationsEnabled st;
     currentTimeLineTop := v; isLoaded := isLoaded st;
     activeTimer := activeTimer st; timerDisplay := timerDisplay st |}.

(** Grid configuration. *)
Definition SLOT_HEIGHT_REM : Z := 2.
Definition SLOT_HEIGHT_PX : Z := 32.

Module Slot.
Record t : Type := mk {
  h : Z;
  m : Z
}.
End Slot.

(** [renderTimeSlots()]: two slots for each hour from [START_HOUR] to
    [END_HOUR], both included. *)
Definition renderTimeSlots : list Slot.t :=
  flat_map (λ h, [ {| Slot.h := h; Slot.m := 0 |};
                   {| Slot.h := h; Slot.m := 30 |} ])
           (seqZ START_HOUR (END_HOUR + 1 - START_HOUR)).

Definition timeSlots : list Slot.t := renderTimeSlots.

(** The position of a task card in its day column, in rem: the offset of
    its top edge and its height.  [None]: the card is not drawn (the start
    time is falsy), or the task is outside the modelled fragment (its start
    time is not of the form digits:digits, or its duration is not a
    number).  The quotients are exact rationals; they are whole numbers
    for the half-hour values the planner writes. *)
Definition taskPlacement (task : Task) : option (Q * Q) :=
  match prop task "startTime", prop task "duration" with
  | VStr (String a s' as startTime'), VNum duration =>
      match StringToNumber <$> splitOn ":" startTime' with
      | Some h :: Some m :: _ =>
          let minutesFromStart := (h - START_HOUR) * 60 + m in
          let slotsFromStart := (inject_Z minutesFromStart / 30)%Q in
          let topPos := (slotsFromStart * inject_Z SLOT_HEIGHT_REM)%Q in
          let height := ((inject_Z duration / 30) * inject_Z SLOT_HEIGHT_REM)%Q in
          Some (topPos, height)
      | _ => None
      end
  | _, _ => None
  end.

(** The reference [dragItem]. *)
Inductive DragType : Type := TASK | GOAL.

Module DragItem.
Record t : Type := mk {
  id : JSVal;
  type : DragType
}.
End DragItem.

Module Direction.
Inductive t : Type := prev | next.
End Direction.

Section AppHandlers.

Variable LocalTZA : Z.
Variable parseDate : string → Z.

(** Parse YYYY-MM-DD to a local date.  [None]: some of the first three
    pieces is missing or is not a run of digits (see [StringToNumber]). *)
Definition getLocalDateFromStr (dateStr : string) : option Z :=
  match StringToNumber <$> splitOn "-" dateStr with
  | Some y :: Some m :: Some d :: _ => Some (newDate LocalTZA y (m - 1) d)
  | _ => None
  end.

(** *** Clock effect

    [updateTime], with [now] its [new Date()].  The offset of the time
    line is kept as an exact rational. *)
Definition updateTime (now : Z) (st : AppState) : AppState :=
  let viewingDate := parseDate (currentWeekStartDate st) in
  let currentMonday := getMonday LocalTZA now in
  let isViewingCurrentWeek := getTime viewingDate =? getTime currentMonday in
  if negb isViewingCurrentWeek then setCurrentTimeLineTop None st
  else
    let h := getHours LocalTZA now in
    let m := getMinutes LocalTZA now in
    if (START_HOUR <=? h) && (h <=? END_HOUR) then
      let totalMinutesFromStart := (h - START_HOUR) * 60 + m in
      let pixelsPerMinute := (inject_Z SLOT_HEIGHT_PX / 30)%Q in
      setCurrentTimeLineTop
        (Some (inject_Z totalMinutesFromStart * pixelsPerMinute)%Q) st
    else setCurrentTimeLineTop None st.

(** [isToday] of the column [i], as computed at each render: [today] is
    the [new Date()] of [getCurrentDayIndex], [now] the one given to
    [getMonday]. *)
Definition isToday (today now : Z) (i : Z) (st : AppState) : bool :=
  (i =? getCurrentDayIndex LocalTZA today)
  && (getTime (getMonday LocalTZA now)
      =? getTime (parseDate (currentWeekStartDate st))).

(** The time line is drawn in column [i]. *)
Definition timeLineShown (today now : Z) (i : Z) (st : AppState) : bool :=
  isToday today now i st
  && match currentTimeLineTop st with Some _ => true | None => false end.

(** *** Timer display

    The callback of the one-second interval, which exists only while a
    timer runs; [now] is its [Date.now()]. *)
Definition timerInterval (now : Z) (st : AppState) : AppState :=
  match activeTimer st with
  | Some timer =>
      if isRunning timer then
        let diffInSeconds :=
          Math_floor (inject_Z (now - startTime timer) / 1000)%Q in
        setTimerDisplay (accumulated timer + diffInSeconds) st
      else st
  | None => st
  end.

(** *** Manual save (the confirmation dialog is not modelled). *)
Definition handleManualSave (st : AppState) (sto : Storage) : Storage :=
  if negb (isLoaded st) then sto
  else
    {| weekly_planner_data_v1 :=
         Some {| saved_tasks := Some (tasks st);
                 saved_goals := Some (goals st);
                 saved_dailyThoughts := ThoughtsMap (dailyThoughts st);
                 saved_currentWeekStartDate := Some (currentWeekStartDate st);
                 saved_weekLabel := Some (currentWeekLabel st) |};
       weekly_planner_history_v1 := weekly_planner_history_v1 sto |}.

(** *** Drag and drop *)

Definition handleTaskDragStart (taskId : JSVal) : option DragItem.t :=
  Some {| DragItem.id := taskId; DragItem.type := TASK |}.

Definition handleGoalDragStart (goalId' : string) : option DragItem.t :=
  Some {| DragItem.id := VStr goalId'; DragItem.type := GOAL |}.

(** The state is paired with the content of [dragItem]; [newId] is the
    result of [generateId()]. *)
Definition handleDropOnGrid (newId : string) (dayIndex hour minute : Z)
    (w : AppState * option DragItem.t) : AppState * option DragItem.t :=
  let '(st, dragItem) := w in
  match dragItem with
  | None => w
  | Some item =>
      let timeString' := timeString hour minute in
      let st :=
        match DragItem.type item with
        | TASK =>
            let taskId := DragItem.id item in
            setTasks
              (map (λ t, if strictEq (prop t "id") taskId
                         then <["startTime" := VStr timeString']>
                                (<["dayIndex" := VNum dayIndex]> t)
                         else t) (tasks st)) st
        | GOAL =>
            match List.find (λ g, strictEq (VStr (Goal.id g)) (DragItem.id item))
                            (goals st) with
            | Some goal =>
                createTaskFromGoal newId (Goal.text goal) dayIndex timeString'
                                   (Goal.color goal) None None st
            | None => st
            end
        end in
      (setIsSidebarOpen false st, None)
  end.

(** *** Goals

    [pick] is the value of
    [Math.floor(Math.random() * TASK_COLORS.length)].  [None]: [pick] is
    not an index of [TASK_COLORS], which the range of [Math.random]
    excludes. *)
Definition addGoal (newId : string) (pick : Z) (st : AppState)
    : option AppState :=
  if String.eqb (trim (newGoalText st)) "" then Some st
  else
    color ← arrayAt TASK_COLORS pick;
    let newGoal :=
      {| Goal.id := newId; Goal.text := newGoalText st;
         Goal.isCompleted := false; Goal.color := color |} in
    Some (setNewGoalText "" (setGoals (goals st ++ [newGoal]) st)).

(** The completion button of a goal. *)
Definition toggleGoal (goalId' : string) (st : AppState) : AppState :=
  setGoals
    (map (λ g, if String.eqb (Goal.id g) goalId'
               then {| Goal.id := Goal.id g; Goal.text := Goal.text g;
                       Goal.isCompleted := negb (Goal.isCompleted g);
                       Goal.color := Goal.color g |}
               else g) (goals st)) st.

(** [today] is the [new Date()] of [getCurrentDayIndex], [now] the one
    of the handler. *)
Definition addTaskToToday (today now : Z) (newId : string) (goal : Goal.t)
    (st : AppState) : AppState :=
  let today' := getCurrentDayIndex LocalTZA today in
  let h := getHours LocalTZA now in
  let h := if h <? START_HOUR then START_HOUR else h in
  let h := if END_HOUR <=? h then START_HOUR else h in
  let m := if getMinutes LocalTZA now <? 30 then "00" else "30" in
  let st :=
    createTaskFromGoal newId (Goal.text goal) today'
      (padStart 2 "0" (toString h) +:+ ":" +:+ m) (Goal.color goal)
      None None st in
  setIsSidebarOpen false st.

(** *** Week arrows

    [None]: the week start date is outside the fragment of
    [getLocalDateFromStr]. *)
Definition handleWeekChange (direction : Direction.t) (st : AppState)
    : option AppState :=
  current ← getLocalDateFromStr (currentWeekStartDate st);
  let offset := match direction with Direction.next => 7 | Direction.prev => -7 end in
  let current := setDate LocalTZA current (getDate LocalTZA current + offset) in
  let newDateStr := formatDate LocalTZA current in
  Some (handleSelectWeek LocalTZA parseDate newDateStr st).

(** *** Modal and editing handlers *)

Definition handleGridClick (pick : Z) (dayIndex h m : Z) (st : AppState)
    : AppState :=
  let timeString' := timeString h m in
  let st :=
    setEditingTask
      (Some {[ "id" := VUndefined;
               "dayIndex" := VNum dayIndex;
               "startTime" := VStr timeString';
               "duration" := VNum 30;
               "title" := VStr "";
               "color" := colorAt pick ]}) st in
  setIsTaskModalOpen true st.

Definition handleTaskClick (task : Task) (st : AppState) : AppState :=
  setIsTaskModalOpen true (setEditingTask (Some task) st).

(** The callbacks given to a task card. *)
Definition onToggleComplete (id' : JSVal) (st : AppState) : AppState :=
  setTasks
    (map (λ t, if strictEq (prop t "id") id'
               then <["isCompleted" := VBool (negb (truthy (prop t "isCompleted")))]> t
               else t) (tasks st)) st.

Definition onDelete (id' : JSVal) (st : AppState) : AppState :=
  setTasks
    (List.filter (λ t, negb (strictEq (prop t "id") id')) (tasks st)) st.

(** *** Notes *)

(** The button of day [day]. *)
Definition toggleDay (day : string) (st : AppState) : AppState :=
  let isSelected := bool_decide (expandedDay st = Some day) in
  setExpandedDay (if isSelected then None else Some day) st.

(** The text area of the expanded day. *)
Definition editNote (value : string) (st : AppState) : AppState :=
  match expandedDay st with
  | Some (String a s' as day) =>
      setDailyThoughts (<[day := value]> (dailyThoughts st)) st
  | _ => st
  end.

End AppHandlers.

(** ** The header of the grid *)

Section GridHeader.

Variable LocalTZA : Z.

(** [weekStart], computed at each render.  [None]: the week start date
    is outside the fragment of [getLocalDateFromStr]. *)
Definition weekStart (st : AppState) : option Z :=
  getLocalDateFromStr LocalTZA (currentWeekStartDate st).

(** [colDate] of the column [i]. *)
Definition columnDate (i : Z) (st : AppState) : option Z :=
  weekStart' ← weekStart st;
  let colDate := weekStart' in
  Some (setDate LocalTZA colDate (getDate LocalTZA weekStart' + i)).

(** [dateStr] of the column [i]. *)
Definition columnDateStr (i : Z) (st : AppState) : option string :=
  colDate ← columnDate i st;
  Some (toString (getMonth LocalTZA colDate + 1) +:+ "."
        +:+ toString (getDate LocalTZA colDate)).

End GridHeader.

(** ** The task dialog (TaskModal), as [App] wires it *)

Module TaskModal.

(** The initial value of [formData]. *)
Definition initialFormData : Task :=
  {[ "title" := VStr "";
     "description" := VStr "";
     "startTime" := VStr "09:00";
     "duration" := VNum 30;
     "dayIndex" := VNum 0;
     "color" := colorAt 0 ]}.

(** The effect on [isOpen] and [initialData]: the new value of
    [formData]; [pick] as in [addGoal]. *)
Definition openEffect (pick : Z) (isOpen : bool) (initialData : option Task)
    (formData : Task) : Task :=
  match initialData with
  | Some initialData =>
      if isOpen then
        <["dayIndex" :=
            if negb (strictEq (prop initialData "dayIndex") VNull)
               && negb (strictEq (prop initialData "dayIndex") VUndefined)
            then prop initialData "dayIndex" else VNum 0]>
          (<["duration" := jsOr (prop initialData "duration") (VNum 30)]>
             (<["color" := jsOr (prop initialData "color") (colorAt pick)]>
                initialData))
      else formData
  | None => formData
  end.

Definition handleChange (field : string) (value : JSVal) (formData : Task)
    : Task :=
  <[field := value]> formData.

(** [onSave(formData); onClose()]. *)
Definition handleSubmit (newId : string) (formData : Task) (st : AppState)
    : AppState :=
  setIsTaskModalOpen false (handleSaveTask newId formData st).

(** The delete button: [onDelete(formData.id); onClose()]. *)
Definition deleteClick (formData : Task) (st : AppState) : AppState :=
  setIsTaskModalOpen false (handleDeleteTask (prop formData "id") st).

(** [isNew = !editingTask?.id]. *)
Definition isNew (st : AppState) : bool :=
  negb (truthy (default VUndefined ((λ t, prop t "id") <$> editingTask st))).

End TaskModal.

(** ** The history browser: default year and the older grid *)

Section HistoryModalMore.

Variable LocalTZA : Z.
Variable parseDate : string → Z.

(** The effect that sets the default year when the dialog opens; [now]
    is its [new Date()].  [None] stands for [undefined], the first
    element of an empty list of years. *)
Definition defaultYear (now : Z) (years' : list Z) : option Z :=
  let currentYear := getFullYear LocalTZA now in
  if bool_decide (currentYear ∈ years') then Some currentYear
  else years' !! 0%nat.

(** [calendarData.data[selectedYear]?.[mIndex] || []]. *)
Definition monthWeeks (cal : CalendarData) (selectedYear mIndex : Z)
    : list WeekBlock :=
  match data cal !! selectedYear with
  | Some months => default [] (months !! mIndex)
  | None => []
  end.

(** [Array.from(new Set(xs)).sort((a, b) => b - a)]. *)
Definition uniqueSortedDesc (xs : list Z) : list Z :=
  merge_sort (flip Z.le) (remove_dups xs).

(** [calendarData] of the older version of the history browser, whose
    years are the current year and the years of the archives, newest
    first; [now] is the [new Date()] of [currentYear]. *)
Definition calendarData_currentYear (now : Z) (fuel : nat)
    (archives : list Archive.t) : Outcome CalendarData :=
  let currentYear := getFullYear LocalTZA now in
  let archiveYears :=
    map (λ a, year (getMajorityMonthInfo LocalTZA
                      (parseDate (Archive.weekStartDate a))))
        archives in
  let uniqueYears := uniqueSortedDesc (currentYear :: archiveYears) in
  data' ← foldl (λ acc year',
                   data' ← acc; buildYear LocalTZA fuel archives year' data')
                (Returns ∅) uniqueYears;
  Returns {| years := uniqueYears; data := data' |}.

End HistoryModalMore.

(** ** Sample data for the further properties *)

Definition task_at_0730 : Task :=
  {[ "id" := VStr "k"; "title" := VStr "Plan"; "dayIndex" := VNum 2;
     "startTime" := VStr "07:30"; "duration" := VNum 45;
     "isCompleted" := VBool false ]}.

Definition state_goal_g1 : AppState :=
  {| tasks := [];
     goals := [ {| Goal.id := "g1"; Goal.text := "Write";
                   Goal.isCompleted := false;
                   Goal.color := "bg-blue-100 border-blue-300 text-blue-800" |} ];
     dailyThoughts := ∅; archives := []; newGoalText := "";
     currentWeekStartDate := "2025-12-29";
     isSidebarOpen := true; isHistoryOpen := false;
     isTaskModalOpen := false; editingTask := None; expandedDay := None;
     currentWeekLabel := "2025 - Week 53"; notificationsEnabled := false;
     currentTimeLineTop := None; isLoaded := true;
     activeTimer := None; timerDisplay := 0 |}.

Definition state_new_goal_text : AppState :=
  setNewGoalText " Ship it" state_two_tasks.

Definition state_week_2026_01_05 : AppState :=
  setCurrentWeekStartDate "2026-01-05" state_two_tasks.

Definition state_loaded_two_tasks : AppState :=
  setIsLoaded true (setCurrentWeekStartDate "2026-01-05" state_two_tasks).

Definition storage_empty : Storage :=
  {| weekly_planner_data_v1 := None; weekly_planner_history_v1 := None |}.

Definition state_note_open : AppState :=
  setExpandedDay (Some "Tue") (initialState 0 0).

(** * Properties *)

(** ** The embedding computes *)

Example newDate_epoch : newDate 0 1970 0 1 = 0.
Proof. reflexivity. Qed.

Example getDay_2025_12_29 : getDay 0 (newDate 0 2025 11 29) = 1.
Proof. reflexivity. Qed.

Example formatDate_getMonday_sunday :
  formatDate 0 (getMonday 0 (newDate 0 2026 0 4)) = "2025-12-29".
Proof. reflexivity. Qed.

Example toISOString_2025_12_29 :
  toISOString (newDate 0 2025 11 29) = "2025-12-29T00:00:00.000Z".
Proof. reflexivity. Qed.

Example generateWeekLabel_2026_01_05 :
  generateWeekLabel 0 (parseDateOnly "2026-01-05") = "2026 - Week 2".
Proof. reflexivity. Qed.

Example trim_blank : trim "   " = "" ∧ trim " a b " = "a b".
Proof. split; reflexivity. Qed.

Example findArchive_2025_12_29 :
  Archive.id <$> findArchive [archive_2031; archive_legacy "note"]
                   (newDate 0 2025 11 29)
  = Some "w1".
Proof. reflexivity. Qed.

(** ** Rational arithmetic of the source, in integer terms *)

Lemma Math_floor_div (a b : Z) :
  0 < b → Math_floor (inject_Z a / inject_Z b)%Q = a / b.
Proof.
  intros Hb. unfold Math_floor.
  destruct b as [|p|p]; try lia.
  assert (E : (inject_Z a / inject_Z (Z.pos p) == a # p)%Q).
  { unfold Qeq, Qdiv, Qmult, Qinv, inject_Z. simpl. lia. }
  rewrite (Qfloor_comp _ _ E). reflexivity.
Qed.

Lemma Math_ceil_div (a b : Z) :
  0 < b → Math_ceil (inject_Z a / inject_Z b)%Q = - ((- a) / b).
Proof.
  intros Hb. unfold Math_ceil.
  destruct b as [|p|p]; try lia.
  assert (E : (inject_Z a / inject_Z (Z.pos p) == a # p)%Q).
  { unfold Qeq, Qdiv, Qmult, Qinv, inject_Z. simpl. lia. }
  rewrite (Qceiling_comp _ _ E). reflexivity.
Qed.

Lemma DaysInYear_cases y : DaysInYear y = 365 ∨ DaysInYear y = 366.
Proof. unfold DaysInYear. repeat case_match; auto. Qed.

Lemma DayFromYear_succ y : DayFromYear (y + 1) = DayFromYear y + DaysInYear y.
Proof.
  unfold DayFromYear, DaysInYear.
  destruct (Z.eqb_spec (y mod 4) 0); destruct (Z.eqb_spec (y mod 100) 0);
    destruct (Z.eqb_spec (y mod 400) 0); cbn [negb];
    Z.to_euclidean_division_equations; lia.
Qed.

Lemma DayFromYear_mono a b : a < b → DayFromYear a < DayFromYear b.
Proof. unfold DayFromYear. intros. Z.to_euclidean_division_equations. lia. Qed.

Lemma YearFromDay_spec d :
  DayFromYear (YearFromDay d) ≤ d < DayFromYear (YearFromDay d + 1).
Proof.
  unfold YearFromDay.
  set (y := 1970 + 400 * d / 146097).
  assert (DayFromYear (y - 1) ≤ d < DayFromYear (y + 2)).
  { unfold DayFromYear, y. Z.to_euclidean_division_equations. lia. }
  destruct (Z.leb_spec (DayFromYear (y + 1)) d).
  - replace (y + 1 + 1) with (y + 2) by lia. lia.
  - destruct (Z.leb_spec (DayFromYear y) d); [lia|].
    replace (y - 1 + 1) with y by lia. lia.
Qed.

Lemma YearFromDay_unique d y :
  DayFromYear y ≤ d < DayFromYear (y + 1) → YearFromDay d = y.
Proof.
  intros H. pose proof (YearFromDay_spec d) as S.
  destruct (Z.lt_trichotomy (YearFromDay d) y) as [L|[E|L]]; [|done|].
  - assert (DayFromYear (YearFromDay d + 1) ≤ DayFromYear y).
    { destruct (Z.eq_dec (YearFromDay d + 1) y) as [->|]; [lia|].
      apply Z.lt_le_incl, DayFromYear_mono. lia. }
    lia.
  - assert (DayFromYear (y + 1) ≤ DayFromYear (YearFromDay d)).
    { destruct (Z.eq_dec (y + 1) (YearFromDay d)) as [->|]; [lia|].
      apply Z.lt_le_incl, DayFromYear_mono. lia. }
    lia.
Qed.

Lemma YearFromDay_mono d1 d2 : d1 ≤ d2 → YearFromDay d1 ≤ YearFromDay d2.
Proof.
  intros H. pose proof (YearFromDay_spec d1). pose proof (YearFromDay_spec d2).
  destruct (Z.le_gt_cases (YearFromDay d1) (YearFromDay d2)); [done|].
  assert (DayFromYear (YearFromDay d2 + 1) ≤ DayFromYear (YearFromDay d1)).
  { destruct (Z.eq_dec (YearFromDay d2 + 1) (YearFromDay d1)) as [->|]; [lia|].
    apply Z.lt_le_incl, DayFromYear_mono. lia. }
  lia.
Qed.

Lemma InLeapYear_cases t : InLeapYear t = 0 ∨ InLeapYear t = 1.
Proof. unfold InLeapYear. destruct (DaysInYear_cases (YearFromTime t)); lia. Qed.

Lemma DayWithinYear_range t : 0 ≤ DayWithinYear t < 365 + InLeapYear t.
Proof.
  unfold DayWithinYear, InLeapYear, YearFromTime.
  pose proof (YearFromDay_spec (Day t)) as S.
  rewrite DayFromYear_succ in S. lia.
Qed.

Lemma MonthFromDay_range d leap : 0 ≤ MonthFromDay d leap ≤ 11.
Proof. unfold MonthFromDay. repeat case_match; lia. Qed.

Lemma MonthFromTime_range t : 0 ≤ MonthFromTime t ≤ 11.
Proof. apply MonthFromDay_range. Qed.

Lemma Day_MakeDate day time :
  0 ≤ time < msPerDay → Day (MakeDate day time) = day.
Proof.
  unfold Day, MakeDate, msPerDay. intros. Z.to_euclidean_division_equations. lia.
Qed.

Lemma Day_add_days t k : Day (t + k * msPerDay) = Day t + k.
Proof. unfold Day, msPerDay. Z.to_euclidean_division_equations. lia. Qed.

Lemma TimeWithinDay_add_days t k : TimeWithinDay (t + k * msPerDay) = TimeWithinDay t.
Proof. unfold TimeWithinDay, msPerDay. Z.to_euclidean_division_equations. lia. Qed.

Lemma MakeDate_Day t : MakeDate (Day t) (TimeWithinDay t) = t.
Proof.
  unfold MakeDate, Day, TimeWithinDay, msPerDay.
  Z.to_euclidean_division_equations. lia.
Qed.

(** The calendar fields of a time value determine its day number. *)
Lemma MakeDay_fields t k :
  MakeDay (YearFromTime t) (MonthFromTime t) (DateFromTime t + k) = Day t + k.
Proof.
  pose proof (MonthFromTime_range t) as Hm.
  unfold MakeDay.
  replace (MonthFromTime t / 12) with 0 by (Z.to_euclidean_division_equations; lia).
  replace (MonthFromTime t mod 12) with (MonthFromTime t)
    by (Z.to_euclidean_division_equations; lia).
  rewrite Z.add_0_r. unfold DateFromTime.
  fold (InLeapYear t). unfold DayWithinYear. lia.
Qed.

Section DateLemmas.
Variable LocalTZA : Z.

Lemma setDate_getDate_add d k :
  setDate LocalTZA d (getDate LocalTZA d + k) = d + k * msPerDay.
Proof.
  unfold setDate, getDate. rewrite MakeDay_fields.
  unfold UTC, LocalTime, MakeDate.
  pose proof (MakeDate_Day (d + LocalTZA)) as E. unfold MakeDate in E. lia.
Qed.

Lemma getDay_add_days d k :
  getDay LocalTZA (d + k * msPerDay) = (getDay LocalTZA d + k) mod 7.
Proof.
  unfold getDay, WeekDay, LocalTime.
  replace (d + k * msPerDay + LocalTZA) with (d + LocalTZA + k * msPerDay) by lia.
  rewrite Day_add_days. Z.to_euclidean_division_equations. lia.
Qed.

Lemma getDay_range d : 0 ≤ getDay LocalTZA d < 7.
Proof. unfold getDay, WeekDay. apply Z.mod_pos_bound. lia. Qed.
End DateLemmas.

(** ** Week calendar engine *)

Section CalendarEngine.
Variable LocalTZA : Z.

Lemma getMonday_unfold d :
  getMonday LocalTZA d
  = UTC LocalTZA ((localDay LocalTZA d - (getDay LocalTZA d + 6) mod 7) * msPerDay).
Proof.
  unfold getMonday.
  pose proof (getDay_range LocalTZA d) as Hd.
  set (k := - ((getDay LocalTZA d + 6) mod 7)).
  replace (getDate LocalTZA d - getDay LocalTZA d
           + (if getDay LocalTZA d =? 0 then -6 else 1))
    with (getDate LocalTZA d + k).
  2:{ unfold k. destruct (Z.eqb_spec (getDay LocalTZA d) 0);
      Z.to_euclidean_division_equations; lia. }
  rewrite setDate_getDate_add.
  unfold setHours, UTC, LocalTime, MakeDate, MakeTime, localDay, LocalTime.
  replace (d + k * msPerDay + LocalTZA) with (d + LocalTZA + k * msPerDay) by lia.
  rewrite Day_add_days. unfold k. lia.
Qed.

Lemma localDay_getMonday d :
  localDay LocalTZA (getMonday LocalTZA d)
  = localDay LocalTZA d - (getDay LocalTZA d + 6) mod 7.
Proof.
  rewrite getMonday_unfold. unfold localDay at 1. unfold LocalTime, UTC.
  match goal with |- Day ?t = ?r => replace t with (MakeDate r 0) end.
  - apply Day_MakeDate. unfold msPerDay. lia.
  - unfold MakeDate. lia.
Qed.

Lemma getDay_localDay d : getDay LocalTZA d = (localDay LocalTZA d + 4) mod 7.
Proof. reflexivity. Qed.

Lemma getDay_getMonday d : getDay LocalTZA (getMonday LocalTZA d) = 1.
Proof.
  rewrite getDay_localDay, localDay_getMonday, getDay_localDay.
  Z.to_euclidean_division_equations. lia.
Qed.

(** C6. [getMonday] is the specification's Monday resolution: the date
    minus ((weekday + 6) mod 7) days with the time of day zeroed; it is
    idempotent, and it gives the same value for any two dates of the same
    Monday-anchored week. Being a function, it is deterministic. *)
Theorem getMonday_monday_of_week (d d' : Z) :
  getMonday LocalTZA d = mondayOf_spec LocalTZA d
  ∧ getDay LocalTZA (getMonday LocalTZA d) = 1
  ∧ TimeWithinDay (LocalTime LocalTZA (getMonday LocalTZA d)) = 0
  ∧ getMonday LocalTZA (getMonday LocalTZA d) = getMonday LocalTZA d
  ∧ (sameWeek LocalTZA d d' → getMonday LocalTZA d = getMonday LocalTZA d').
Proof.
  split; [apply getMonday_unfold|].
  split; [apply getDay_getMonday|].
  split.
  { rewrite getMonday_unfold. unfold TimeWithinDay, LocalTime, UTC, msPerDay.
    Z.to_euclidean_division_equations. lia. }
  split.
  { rewrite (getMonday_unfold (getMonday LocalTZA d)).
    rewrite getDay_getMonday, localDay_getMonday.
    rewrite getMonday_unfold. f_equal. f_equal.
    Z.to_euclidean_division_equations. lia. }
  intros (m & Hm & H1 & H2).
  rewrite !getMonday_unfold, !getDay_localDay. f_equal. f_equal.
  Z.to_euclidean_division_equations. lia.
Qed.
End CalendarEngine.

Lemma getMonday_monday_of_week_witness :
  sameWeek 0 (newDate 0 2025 11 31) (newDate 0 2026 0 4 + 1)
  ∧ getMonday 0 (newDate 0 2025 11 31) = getMonday 0 (newDate 0 2026 0 4 + 1).
Proof.
  assert (W : sameWeek 0 (newDate 0 2025 11 31) (newDate 0 2026 0 4 + 1)).
  { exists 20451. vm_compute. repeat split; discriminate. }
  split; [exact W|].
  exact (proj2 (proj2 (proj2 (proj2
    (getMonday_monday_of_week 0 (newDate 0 2025 11 31) (newDate 0 2026 0 4 + 1))))) W).
Defined.

Section MajorityMonth.
Variable LocalTZA : Z.

Lemma getMajorityMonthInfo_unfold date :
  getMajorityMonthInfo LocalTZA date
  = {| year := getFullYear LocalTZA (date + 3 * msPerDay);
       monthIndex := getMonth LocalTZA (date + 3 * msPerDay) |}.
Proof. unfold getMajorityMonthInfo. by rewrite setDate_getDate_add. Qed.

(** Day number of a local date, from its calendar fields. *)
Lemma localDay_fields d :
  localDay LocalTZA d
  = DayFromYear (getFullYear LocalTZA d)
    + DaysBeforeMonth (getMonth LocalTZA d)
                      (DaysInYear (getFullYear LocalTZA d) - 365)
    + getDate LocalTZA d - 1.
Proof.
  unfold localDay, getFullYear, getMonth, getDate, DateFromTime, DayWithinYear.
  fold (InLeapYear (LocalTime LocalTZA d)). lia.
Qed.

Lemma localDay_add_days d k :
  localDay LocalTZA (d + k * msPerDay) = localDay LocalTZA d + k.
Proof.
  unfold localDay, LocalTime.
  replace (d + k * msPerDay + LocalTZA) with (d + LocalTZA + k * msPerDay) by lia.
  apply Day_add_days.
Qed.

(** Year and month of a date whose day number lies [n] days into year [y]. *)
Lemma fields_of_localDay d y n :
  localDay LocalTZA d = DayFromYear y + n → 0 ≤ n < DaysInYear y →
  getFullYear LocalTZA d = y
  ∧ getMonth LocalTZA d = MonthFromDay n (DaysInYear y - 365).
Proof.
  intros Hd Hn.
  assert (Hy : getFullYear LocalTZA d = y).
  { unfold getFullYear, YearFromTime. apply YearFromDay_unique.
    fold (localDay LocalTZA d). rewrite DayFromYear_succ. lia. }
  split; [done|].
  unfold getMonth, MonthFromTime, DayWithinYear, InLeapYear.
  fold (getFullYear LocalTZA d). fold (localDay LocalTZA d).
  rewrite Hy, Hd. f_equal. lia.
Qed.

(** C3. The week that starts on a Monday is assigned to the calendar year
    and month of that Monday plus three days, which is its Thursday; a week
    starting on December 29 is assigned to January of the following year,
    and a week starting on December 25 to December of the same year. *)
Theorem majority_month_is_thursday (monday : Z) :
  getDay LocalTZA monday = 1 →
  let thursday := monday + 3 * msPerDay in
  getDay LocalTZA thursday = 4
  ∧ getMajorityMonthInfo LocalTZA monday
    = {| year := getFullYear LocalTZA thursday;
         monthIndex := getMonth LocalTZA thursday |}
  ∧ (getMonth LocalTZA monday = 11 → getDate LocalTZA monday = 29 →
     getMajorityMonthInfo LocalTZA monday
     = {| year := getFullYear LocalTZA monday + 1; monthIndex := 0 |})
  ∧ (getMonth LocalTZA monday = 11 → getDate LocalTZA monday = 25 →
     getMajorityMonthInfo LocalTZA monday
     = {| year := getFullYear LocalTZA monday; monthIndex := 11 |}).
Proof.
  intros Hmon thursday.
  split; [unfold thursday; rewrite getDay_add_days, Hmon; reflexivity|].
  split; [apply getMajorityMonthInfo_unfold|].
  pose proof (localDay_fields monday) as Hf.
  pose proof (localDay_add_days monday 3) as Ha.
  pose proof (DaysInYear_cases (getFullYear LocalTZA monday)) as Hl.
  split; intros Hm Hd; rewrite getMajorityMonthInfo_unfold;
    rewrite Hm, Hd in Hf; cbn [DaysBeforeMonth] in Hf.
  - destruct (fields_of_localDay (monday + 3 * msPerDay)
                (getFullYear LocalTZA monday + 1) 0) as [-> ->].
    + rewrite DayFromYear_succ. lia.
    + destruct (DaysInYear_cases (getFullYear LocalTZA monday + 1)); lia.
    + reflexivity.
  - destruct (fields_of_localDay (monday + 3 * msPerDay)
                (getFullYear LocalTZA monday)
                (DaysInYear (getFullYear LocalTZA monday) - 4)) as [-> ->].
    + lia.
    + lia.
    + f_equal. destruct Hl as [-> | ->]; reflexivity.
Qed.
End MajorityMonth.

Lemma majority_month_is_thursday_witness :
  getMajorityMonthInfo 0 (newDate 0 2025 11 29) = {| year := 2026; monthIndex := 0 |}
  ∧ getMajorityMonthInfo 0 (newDate 0 2023 11 25) = {| year := 2023; monthIndex := 11 |}.
Proof.
  split.
  - exact (proj1 (proj2 (proj2
      (majority_month_is_thursday 0 (newDate 0 2025 11 29) eq_refl)))
      eq_refl eq_refl).
  - exact (proj2 (proj2 (proj2
      (majority_month_is_thursday 0 (newDate 0 2023 11 25) eq_refl)))
      eq_refl eq_refl).
Defined.

Section WeekLabel.
Variable LocalTZA : Z.

Lemma week_quotient (a w : Z) :
  ((inject_Z a / inject_Z 86400000 + inject_Z w + 1) / 7
   == inject_Z (a + (w + 1) * 86400000) / inject_Z (7 * 86400000))%Q.
Proof.
  change (7 * 86400000) with 604800000.
  unfold Qeq, Qdiv, Qmult, Qplus, Qinv, inject_Z.
  cbn [Qnum Qden]. rewrite !Pos2Z.inj_mul. lia.
Qed.

Lemma getWeekNumber_ceilDiv d :
  let jan1 := newDate LocalTZA (getFullYear LocalTZA d) 0 1 in
  getWeekNumber LocalTZA d
  = ceilDiv (d - jan1 + (getDay LocalTZA jan1 + 1) * msPerDay) (7 * msPerDay).
Proof.
  intros jan1. unfold getWeekNumber, getTime, ceilDiv. fold jan1.
  rewrite <- Math_ceil_div by (unfold msPerDay; lia).
  unfold Math_ceil. apply Qceiling_comp, week_quotient.
Qed.

Lemma ceilDiv_bounds a b :
  0 < b → b * (ceilDiv a b - 1) < a ≤ b * ceilDiv a b.
Proof. unfold ceilDiv. intros. Z.to_euclidean_division_equations. nia. Qed.

Lemma LocalTime_newDate_jan1 y :
  LocalTime LocalTZA (newDate LocalTZA y 0 1) = TimeFromYear (MakeFullYear y).
Proof.
  unfold newDate, LocalTime, UTC, MakeDate, MakeDay, MakeTime, TimeFromYear.
  change (0 / 12) with 0. change (0 mod 12) with 0.
  cbn [DaysBeforeMonth]. rewrite !Z.add_0_r. ring.
Qed.

(** C7 (amended). The week label is "{year} - Week {N}" where the year is
    the calendar year of the date in local time, and N is the ceiling of
    ((D - Jan1) in days + Jan1.weekday + 1) / 7, the difference in days
    being the exact quotient of the millisecond difference by 86400000,
    week days numbered from Sunday = 0, and Jan1 the local midnight that
    starts January 1 of that year (of year 19xx for a year xx in 0..99). *)
Theorem generateWeekLabel_calendar_year (d : Z) :
  let jan1 := newDate LocalTZA (getFullYear LocalTZA d) 0 1 in
  let N := ceilDiv (d - jan1 + (getDay LocalTZA jan1 + 1) * msPerDay)
                   (7 * msPerDay) in
  generateWeekLabel LocalTZA d
  = toString (getFullYear LocalTZA d) +:+ " - Week " +:+ toString N
  ∧ LocalTime LocalTZA jan1 = TimeFromYear (MakeFullYear (getFullYear LocalTZA d))
  ∧ 7 * msPerDay * (N - 1)
    < d - jan1 + (getDay LocalTZA jan1 + 1) * msPerDay
    ≤ 7 * msPerDay * N.
Proof.
  intros jan1 N. split; [|split].
  - unfold generateWeekLabel. by rewrite getWeekNumber_ceilDiv.
  - apply LocalTime_newDate_jan1.
  - apply ceilDiv_bounds. unfold msPerDay. lia.
Qed.
End WeekLabel.

(** C7, as stated, fails: Monday 29 December 2025 belongs to ISO week 1 of
    2026, and its label carries the calendar year 2025. *)
Lemma generateWeekLabel_not_iso_year :
  generateWeekLabel 0 (newDate 0 2025 11 29) = "2025 - Week 53"
  ∧ isoWeekYear 0 (newDate 0 2025 11 29) = 2026
  ∧ generateWeekLabel 0 (newDate 0 2025 11 29)
    ≠ weekLabel_spec 0 (newDate 0 2025 11 29).
Proof. split; [reflexivity|]. split; [reflexivity|]. vm_compute. discriminate. Qed.

(** ** Session timer *)

Section SessionTimer.
Variable LocalTZA : Z.

Lemma stopTimer_active nowMs now today newId st timer :
  activeTimer st = Some timer →
  stopTimer LocalTZA nowMs now today newId (goalId timer) st
  = let totalSeconds := totalSecondsAt nowMs timer in
    let st0 := setTimerDisplay 0 (setActiveTimer None st) in
    if 0 <? totalSeconds then
      let goal :=
        List.find (λ g, bool_decide (Goal.id g = goalId timer)) (goals st) in
      let start := now - totalSeconds * 1000 in
      createTaskFromGoal newId
        (strOr (Goal.text <$> goal) "Focus Session" +:+ " (Timer)")
        (getCurrentDayIndex LocalTZA today)
        (padStart 2 "0" (toString (Z.max START_HOUR (getHours LocalTZA start)))
         +:+ ":" +:+ (if getMinutes LocalTZA start <? 30 then "00" else "30"))
        (strOr (Goal.color <$> goal) (stringAt TASK_COLORS 2))
        (Some (roundedMinutes totalSeconds)) (Some true) st0
    else st0.
Proof.
  intros Ht. unfold stopTimer. rewrite Ht.
  rewrite bool_decide_eq_true_2 by done.
  assert (E : (if isRunning timer
               then accumulated timer
                    + Math_floor (inject_Z (nowMs - startTime timer) / 1000)%Q
               else accumulated timer) = totalSecondsAt nowMs timer).
  { unfold totalSecondsAt. destruct (isRunning timer); [|lia].
    change 1000%Q with (inject_Z 1000). by rewrite Math_floor_div. }
  rewrite E. cbv zeta.
  destruct (0 <? totalSecondsAt nowMs timer); [|done].
  unfold roundedMinutes.
  change 60%Q with (inject_Z 60). change 15%Q with (inject_Z 15).
  rewrite !Math_ceil_div by lia. fold (ceilDiv (totalSecondsAt nowMs timer) 60).
  fold (ceilDiv (ceilDiv (totalSecondsAt nowMs timer) 60) 15).
  unfold getTime.
  replace (if getHours LocalTZA (now - totalSecondsAt nowMs timer * 1000) <? START_HOUR
           then START_HOUR
           else getHours LocalTZA (now - totalSecondsAt nowMs timer * 1000))
    with (Z.max START_HOUR (getHours LocalTZA (now - totalSecondsAt nowMs timer * 1000)));
    [done|].
  destruct (Z.ltb_spec (getHours LocalTZA (now - totalSecondsAt nowMs timer * 1000))
                       START_HOUR); lia.
Qed.

End SessionTimer.


Section TimerOnOtherGoal.
Variable LocalTZA : Z.

(** C4 (amended). For a goal identifier that is not the active timer's
    goal (also when no timer exists), stop is a no-op: the whole state is
    unchanged.  Toggle is not: it starts a running timer for that goal,
    with nothing accumulated and the current instant as its start,
    discarding any timer of another goal, and resets the displayed time
    to 0; the tasks and every other part of the state are unchanged.
    Neither raises an error (both are total functions of the state). *)
Theorem stop_other_goal_noop_toggle_starts (nowMs now today : Z)
    (newId goalId' : string) (st : AppState) :
  (∀ timer, activeTimer st = Some timer → goalId timer ≠ goalId') →
  stopTimer LocalTZA nowMs now today newId goalId' st = st
  ∧ toggleTimer now goalId' st
    = setTimerDisplay 0
        (setActiveTimer
           (Some {| goalId := goalId'; startTime := now; accumulated := 0;
                    isRunning := true |}) st)
  ∧ tasks (toggleTimer now goalId' st) = tasks st
  ∧ goals (toggleTimer now goalId' st) = goals st
  ∧ archives (toggleTimer now goalId' st) = archives st.
Proof.
  intros Hne. unfold stopTimer, toggleTimer.
  destruct (activeTimer st) as [timer|] eqn:Ht.
  - rewrite bool_decide_eq_false_2 by (by apply Hne). done.
  - done.
Qed.
End TimerOnOtherGoal.

Lemma stop_other_goal_noop_toggle_starts_witness :
  stopTimer 0 5000 5000 5000 "t1" "g2" state_timing_g1 = state_timing_g1
  ∧ activeTimer (toggleTimer 5000 "g2" state_timing_g1)
    = Some {| goalId := "g2"; startTime := 5000; accumulated := 0;
              isRunning := true |}.
Proof.
  assert (H : ∀ timer, activeTimer state_timing_g1 = Some timer →
                       goalId timer ≠ "g2").
  { intros timer E. injection E as <-. discriminate. }
  destruct (stop_other_goal_noop_toggle_starts 0 5000 5000 5000 "t1" "g2"
              state_timing_g1 H) as (E1 & E2 & _).
  split; [exact E1|]. rewrite E2. reflexivity.
Defined.

(** C4, as stated, fails for toggle: with no timer at all, toggling a goal
    changes the timer state. *)
Lemma toggle_other_goal_not_noop :
  activeTimer (initialState 0 0) = None
  ∧ toggleTimer 5000 "g1" (initialState 0 0) ≠ initialState 0 0
  ∧ activeTimer (toggleTimer 5000 "g1" (initialState 0 0))
    = Some {| goalId := "g1"; startTime := 5000; accumulated := 0;
              isRunning := true |}.
Proof.
  split; [reflexivity|]. split; [|reflexivity].
  intros E. apply (f_equal activeTimer) in E. discriminate E.
Qed.

(** ** Task editing *)

Section TaskEditing.

Lemma spread_lookup (t p : Task) (k : string) :
  spread t p !! k = match p !! k with Some v => Some v | None => t !! k end.
Proof.
  unfold spread. rewrite lookup_union.
  destruct (p !! k), (t !! k); reflexivity.
Qed.

(** C10. Saving a payload that carries an id (a truthy [id] property)
    leaves the length and the order of the task list unchanged: the task at
    each position is replaced by its merge with the payload when its id
    equals the payload's, and is unchanged otherwise.  Saving a payload
    without an id appends a single new task, which has the payload's
    properties, a fresh id and [isCompleted] false; the existing tasks are
    unchanged.  Nothing but the task list changes. *)
Theorem handleSaveTask_frame (newId : string) (taskData : Task) (st : AppState) :
  let st' := handleSaveTask newId taskData st in
  st' = setTasks (tasks st') st
  ∧ (truthy (prop taskData "id") = true →
     length (tasks st') = length (tasks st)
     ∧ ∀ (i : nat) (t : Task), tasks st !! i = Some t →
         (prop t "id" ≠ prop taskData "id" → tasks st' !! i = Some t)
         ∧ (prop t "id" = prop taskData "id" →
            tasks st' !! i = Some (spread t taskData)))
  ∧ (truthy (prop taskData "id") = false →
     ∃ newTask : Task,
       tasks st' = tasks st ++ [newTask]
       ∧ prop newTask "isCompleted" = VBool false
       ∧ prop newTask "id" = VStr newId
       ∧ ∀ k, k ≠ "id" → k ≠ "isCompleted" → newTask !! k = taskData !! k).
Proof.
  intros st'. unfold st', handleSaveTask.
  destruct (truthy (prop taskData "id")) eqn:Hid.
  - split; [done|]. split; [|done]. intros _. cbn [tasks setTasks].
    split; [by rewrite length_map|].
    intros i t Hi. rewrite list_lookup_fmap, Hi. cbn. unfold strictEq.
    split; intros H.
    + by rewrite bool_decide_eq_false_2.
    + by rewrite bool_decide_eq_true_2.
  - split; [done|]. split; [done|]. intros _. cbn [tasks setTasks].
    eexists. split; [reflexivity|]. unfold prop.
    split; [by rewrite lookup_insert_eq|].
    split.
    + rewrite lookup_insert_ne by done. by rewrite lookup_insert_eq.
    + intros k H1 H2. by rewrite !lookup_insert_ne.
Qed.
End TaskEditing.

Lemma handleSaveTask_frame_witness :
  tasks (handleSaveTask "n1" {[ "id" := VStr "b"; "title" := VStr "Read more" ]}
           state_two_tasks) !! 0%nat = Some task_a
  ∧ length (tasks (handleSaveTask "n1" {[ "title" := VStr "New" ]} state_two_tasks))
    = 3%nat.
Proof.
  pose proof (handleSaveTask_frame "n1"
    {[ "id" := VStr "b"; "title" := VStr "Read more" ]} state_two_tasks) as (_ & H1 & _).
  pose proof (handleSaveTask_frame "n1" {[ "title" := VStr "New" ]}
    state_two_tasks) as (_ & _ & H2).
  split.
  - destruct (H1 eq_refl) as [_ H]. apply (H 0%nat task_a eq_refl).
    vm_compute. discriminate.
  - destruct (H2 eq_refl) as (t & -> & _). reflexivity.
Defined.

(** ** Week navigation and legacy shapes *)

Lemma splitHead_no_char c s : ∀ a, a ∈ String.list_ascii_of_string (splitHead c s) → a ≠ c.
Proof.
  induction s as [|b s IH]; cbn; intros a Ha.
  - by apply elem_of_nil in Ha.
  - destruct (Ascii.eqb_spec b c) as [->|Hne]; cbn in Ha.
    + by apply elem_of_nil in Ha.
    + apply elem_of_cons in Ha as [->|Ha]; [done|by apply IH].
Qed.

(** The string is its head, or its head followed by the separator and a
    rest. *)
Lemma splitHead_spec c s :
  s = splitHead c s ∨ ∃ rest, s = splitHead c s +:+ String c rest.
Proof.
  induction s as [|b s IH]; [by left|].
  cbn [splitHead]. destruct (Ascii.eqb_spec b c) as [->|Hne].
  - right. by exists s.
  - destruct IH as [IH|(rest & IH)].
    + left. by f_equal.
    + right. exists rest.
      change (String b s = String b (splitHead c s +:+ String c rest)).
      by f_equal.
Qed.

Section WeekNavigation.
Variable LocalTZA : Z.
Variable parseDate : string → Z.

Lemma handleSelectWeek_unfold startDate st :
  handleSelectWeek LocalTZA parseDate startDate st
  = let key := splitHead "T" startDate in
    let st1 :=
      match List.find (λ a, startsWith (Archive.weekStartDate a) key) (archives st) with
      | Some a =>
          setCurrentWeekLabel (Archive.weekLabel a)
            (setDailyThoughts (notesOf (Archive.dailyThoughts a))
               (setGoals (Archive.goals a) (setTasks (Archive.tasks a) st)))
      | None =>
          setCurrentWeekLabel (generateWeekLabel LocalTZA (parseDate startDate))
            (setDailyThoughts ∅ (setGoals [] (setTasks [] st)))
      end in
    setIsHistoryOpen false (setCurrentWeekStartDate key st1).
Proof.
  unfold handleSelectWeek. cbv zeta.
  destruct (List.find _ _) as [a|]; [|done].
  destruct (Archive.dailyThoughts a) as [|s|m]; [done| |done].
  destruct s; done.
Qed.

(** C5 (amended). Selecting a week cuts the target at its first "T" (the
    date-only key).  If an archive entry matches the key (the first entry
    whose week start date begins with it), its tasks and goals are loaded
    verbatim and its label is adopted; its notes are loaded verbatim when
    they are stored as a map, a non-empty legacy string becomes the single
    entry "Mon", and absent or empty notes become the empty map.  Otherwise
    tasks, goals and notes become empty and the label is generated from the
    target date.  In both cases the active week start date becomes the key
    and the picker closes; the archive list and the timer are unchanged.
    The handler is total: it never throws. *)
Theorem handleSelectWeek_loads_week (startDate : string) (st : AppState) :
  let key := splitHead "T" startDate in
  let st' := handleSelectWeek LocalTZA parseDate startDate st in
  (startDate = key ∨ ∃ rest, startDate = key +:+ String "T" rest)
  ∧ (∀ c, c ∈ String.list_ascii_of_string key → c ≠ "T"%char)
  ∧ currentWeekStartDate st' = key
  ∧ isHistoryOpen st' = false
  ∧ archives st' = archives st
  ∧ activeTimer st' = activeTimer st
  ∧ (∀ a, List.find (λ a, startsWith (Archive.weekStartDate a) key) (archives st)
          = Some a →
       a ∈ archives st
       ∧ String.prefix key (Archive.weekStartDate a) = true
       ∧ tasks st' = Archive.tasks a
       ∧ goals st' = Archive.goals a
       ∧ dailyThoughts st' = notesOf (Archive.dailyThoughts a)
       ∧ (∀ m, Archive.dailyThoughts a = ThoughtsMap m → dailyThoughts st' = m)
       ∧ currentWeekLabel st' = Archive.weekLabel a)
  ∧ ((∀ a, a ∈ archives st →
           String.prefix key (Archive.weekStartDate a) = false) →
     tasks st' = [] ∧ goals st' = [] ∧ dailyThoughts st' = ∅
     ∧ currentWeekLabel st' = generateWeekLabel LocalTZA (parseDate startDate)).
Proof.
  intros key st'. unfold st'. rewrite handleSelectWeek_unfold. fold key. cbv zeta.
  split; [apply splitHead_spec|].
  split; [apply splitHead_no_char|].
  do 4 (split; [by destruct (List.find _ _)|]).
  split.
  - intros a Ha. rewrite Ha.
    apply find_some in Ha as [Hin Hp]. apply list_elem_of_In in Hin.
    repeat split; try done. intros m Hm. cbn. by rewrite Hm.
  - intros Hnone.
    destruct (List.find _ _) as [a|] eqn:Ha; [|done].
    apply find_some in Ha as [Hin Hp]. apply list_elem_of_In in Hin.
    unfold startsWith in Hp. rewrite (Hnone a Hin) in Hp. done.
Qed.
End WeekNavigation.

Lemma handleSelectWeek_loads_week_witness :
  currentWeekLabel
    (handleSelectWeek 0 parseDateOnly "2025-12-29T00:00:00.000Z"
       (state_with_archive (archive_legacy "note")))
  = "2025 - Week 53"
  ∧ tasks (handleSelectWeek 0 parseDateOnly "2026-01-05"
             (state_with_archive (archive_legacy "note"))) = []
  ∧ currentWeekLabel
      (handleSelectWeek 0 parseDateOnly "2026-01-05"
         (state_with_archive (archive_legacy "note")))
    = "2026 - Week 2".
Proof.
  pose proof (handleSelectWeek_loads_week 0 parseDateOnly
    "2025-12-29T00:00:00.000Z" (state_with_archive (archive_legacy "note")))
    as (_ & _ & _ & _ & _ & _ & H1 & _).
  pose proof (handleSelectWeek_loads_week 0 parseDateOnly
    "2026-01-05" (state_with_archive (archive_legacy "note")))
    as (_ & _ & _ & _ & _ & _ & _ & H2).
  split.
  - destruct (H1 (archive_legacy "note") eq_refl) as (_ & _ & _ & _ & _ & _ & E).
    exact E.
  - destruct H2 as (E1 & _ & _ & E2).
    + intros a Ha. apply list_elem_of_singleton in Ha as ->. reflexivity.
    + split; [exact E1|]. rewrite E2. reflexivity.
Defined.

(** C5, as stated, fails: the notes of a matching entry that has the legacy
    string shape are not loaded verbatim. *)
Lemma handleSelectWeek_notes_not_verbatim :
  let a := archive_legacy "note" in
  let st' := handleSelectWeek 0 parseDateOnly "2025-12-29" (state_with_archive a) in
  tasks st' = Archive.tasks a
  ∧ dailyThoughts st' = {[ "Mon" := "note" ]}
  ∧ ThoughtsMap (dailyThoughts st') ≠ Archive.dailyThoughts a.
Proof. split; [reflexivity|]. split; [reflexivity|]. discriminate. Qed.

Section LegacyShapes.
Variable LocalTZA : Z.
Variable parseDate : string → Z.

Lemma todayLabel_defined now :
  ∃ label, DAYS_OF_WEEK !! Z.to_nat (Z.rem (getDay LocalTZA now + 6) 7) = Some label
           ∧ stringAt DAYS_OF_WEEK (Z.rem (getDay LocalTZA now + 6) 7) = label.
Proof.
  pose proof (getDay_range LocalTZA now) as Hr.
  rewrite Z.rem_mod_nonneg by lia.
  assert (Hi : 0 ≤ (getDay LocalTZA now + 6) mod 7 < 7) by (apply Z.mod_pos_bound; lia).
  unfold stringAt.
  destruct (Z.ltb_spec ((getDay LocalTZA now + 6) mod 7) 0); [lia|].
  destruct (Z.to_nat ((getDay LocalTZA now + 6) mod 7)) as [|[|[|[|[|[|[|n]]]]]]] eqn:E;
    try (eexists; split; reflexivity).
  lia.
Qed.

(** C9 (amended). Loading a current-view record whose [dailyThoughts] is a
    single string gives a map with exactly one entry, keyed by today's day
    label and holding that string.  Loading an archived week whose
    [dailyThoughts] is a single non-empty string gives a map with exactly
    one entry, keyed "Mon" and holding that string; for the empty string
    the map is empty. *)
Theorem legacy_dailyThoughts_loaded (now now' : Z) (sto : Storage)
    (parsed : SavedData) (startDate : string) (a : Archive.t) (s : string)
    (st : AppState) :
  (weekly_planner_data_v1 sto = Some parsed →
   saved_dailyThoughts parsed = LegacyThoughts s →
   ∃ label,
     DAYS_OF_WEEK !! Z.to_nat ((getDay LocalTZA now + 6) mod 7) = Some label
     ∧ dailyThoughts (loadEffect LocalTZA parseDate now now' sto st)
       = {[ label := s ]})
  ∧ (List.find (λ a, startsWith (Archive.weekStartDate a) (splitHead "T" startDate))
               (archives st) = Some a →
     Archive.dailyThoughts a = LegacyThoughts s →
     dailyThoughts (handleSelectWeek LocalTZA parseDate startDate st)
     = if decide (s = "") then ∅ else {[ "Mon" := s ]}).
Proof.
  split.
  - intros Hp Hs. destruct (todayLabel_defined now) as (label & Hl & Hk).
    exists label. split.
    { rewrite <- Hl. f_equal. f_equal. rewrite Z.rem_mod_nonneg; [done| |lia].
      pose proof (getDay_range LocalTZA now). lia. }
    unfold loadEffect. rewrite Hp, Hs. cbv zeta. rewrite Hk.
    destruct (saved_currentWeekStartDate parsed) as [[|]|]; reflexivity.
  - intros Hf Hs. rewrite handleSelectWeek_unfold. cbv zeta. rewrite Hf, Hs.
    reflexivity.
Qed.
End LegacyShapes.

Lemma legacy_dailyThoughts_loaded_witness :
  dailyThoughts (loadEffect 0 parseDateOnly (newDate 0 2025 11 31) 0
                   (storage_legacy "note") (initialState 0 0))
  = {[ "Wed" := "note" ]}
  ∧ dailyThoughts (handleSelectWeek 0 parseDateOnly "2025-12-29"
                     (state_with_archive (archive_legacy "note")))
    = {[ "Mon" := "note" ]}.
Proof.
  pose proof (legacy_dailyThoughts_loaded 0 parseDateOnly (newDate 0 2025 11 31) 0
    (storage_legacy "note") (saved_legacy "note")
    "2025-12-29" (archive_legacy "note") "note"
    (state_with_archive (archive_legacy "note"))) as [H1 H2].
  split.
  - destruct (H1 eq_refl eq_refl) as (label & Hl & E).
    injection Hl as <-. reflexivity.
  - exact (H2 eq_refl eq_refl).
Defined.

(** C9, as stated, fails for an archived week whose legacy string is empty:
    the loaded map has no entry. *)
Lemma legacy_empty_string_archive_gives_no_entry :
  let st' := handleSelectWeek 0 parseDateOnly "2025-12-29"
               (state_with_archive (archive_legacy "")) in
  dailyThoughts st' = ∅
  ∧ dailyThoughts st' ≠ {[ "Mon" := "" ]}.
Proof.
  split; [reflexivity|].
  intros E. apply (f_equal (λ m : gmap string string, m !! "Mon")) in E.
  vm_compute in E. discriminate E.
Qed.

(** ** Archive synchroniser *)

Section ArchiveSync.

Lemma existsb_Object_values (f : string → bool) (m : gmap string string) :
  existsb f (Object_values m) = true ↔ ∃ k t, m !! k = Some t ∧ f t = true.
Proof.
  unfold Object_values. rewrite existsb_exists. split.
  - intros (t & Hin & Hf). apply list_elem_of_In, list_elem_of_fmap in Hin
      as ([k t'] & -> & Hkt). apply elem_of_map_to_list in Hkt. eauto.
  - intros (k & t & Hkt & Hf). exists t. split; [|done].
    apply list_elem_of_In, list_elem_of_fmap. exists (k, t). split; [done|].
    by apply elem_of_map_to_list.
Qed.

(** [hasContent]: tasks non-empty, or goals non-empty, or some note whose
    trimmed text is non-empty. *)
Lemma hasContent_spec st :
  hasContent st = true
  ↔ tasks st ≠ [] ∨ goals st ≠ []
    ∨ ∃ k t, dailyThoughts st !! k = Some t ∧ trim t ≠ "".
Proof.
  unfold hasContent. rewrite !orb_true_iff, existsb_Object_values.
  rewrite !Z.ltb_lt.
  assert (Hlen : ∀ A (l : list A), 0 < Z.of_nat (length l) ↔ l ≠ []).
  { intros A []; cbn; split; (done || lia). }
  rewrite !Hlen. split.
  - intros [[?|?]|(k & t & ? & Ht)]; auto. right; right. exists k, t. split; [done|].
    apply Z.ltb_lt in Ht. destruct (trim t); [cbn in Ht; lia|done].
  - intros [?|[?|(k & t & ? & Ht)]]; auto. right. exists k, t. split; [done|].
    apply Z.ltb_lt. destruct (trim t); [done|cbn; lia].
Qed.

Lemma filter_all {A} (P : A → Prop) `{!∀ x, Decision (P x)} (l : list A) :
  Forall P l → filter P l = l.
Proof.
  induction 1 as [|x l Hx _ IH]; [done|].
  by rewrite filter_cons_True, IH.
Qed.

Lemma delete_unique_key (l : list Archive.t) i a :
  uniqueWeeks l → l !! i = Some a →
  delete i l = filter (λ b, Archive.weekStartDate b ≠ Archive.weekStartDate a) l.
Proof.
  unfold uniqueWeeks. revert i.
  induction l as [|b l IH]; intros i Hnd Hi; [done|].
  rewrite fmap_cons in Hnd. apply NoDup_cons in Hnd as [Hb Hnd].
  destruct i as [|i]; cbn in Hi.
  - injection Hi as ->. cbn [delete list_delete].
    rewrite filter_cons_False by (intros H; by apply H).
    symmetry. apply filter_all.
    apply Forall_forall. intros c Hc Heq. apply Hb. rewrite <- Heq.
    by apply list_elem_of_fmap_2.
  - cbn [delete list_delete]. rewrite filter_cons_True.
    + f_equal. by apply IH.
    + intros Heq. apply Hb. rewrite Heq.
      apply list_elem_of_fmap_2. by eapply list_elem_of_lookup_2.
Qed.

Lemma uniqueWeeks_delete l i : uniqueWeeks l → uniqueWeeks (delete i l).
Proof.
  unfold uniqueWeeks. intros H. rewrite list_fmap_delete.
  eapply sublist_NoDup; [exact H|]. apply sublist_delete.
Qed.

Lemma uniqueWeeks_insert_same_key l i a b :
  l !! i = Some a → Archive.weekStartDate b = Archive.weekStartDate a →
  uniqueWeeks l → uniqueWeeks (<[i := b]> l).
Proof.
  unfold uniqueWeeks. intros Hi Hk H.
  rewrite list_fmap_insert, Hk, list_insert_id; [done|].
  by rewrite list_lookup_fmap, Hi.
Qed.

Lemma syncArchives_unique newId st prev :
  uniqueWeeks prev → uniqueWeeks (syncArchives newId st prev).1.
Proof.
  intros Hu. unfold syncArchives.
  destruct (list_find _ prev) as [[i a]|] eqn:Hf.
  - apply list_find_Some in Hf as (Hi & Ha & _).
    destruct (hasContent st); cbn.
    + eapply uniqueWeeks_insert_same_key; eauto.
    + by apply uniqueWeeks_delete.
  - apply list_find_None in Hf.
    destruct (hasContent st); cbn; [|done].
    unfold uniqueWeeks. rewrite fmap_cons. apply NoDup_cons. split; [|done].
    cbn. intros Hin. apply list_elem_of_fmap in Hin as (b & Hb & Hin).
    rewrite Forall_forall in Hf. by apply (Hf b).
Qed.

Lemma syncArchives_written newId st prev :
  (syncArchives newId st prev).2 = Some (syncArchives newId st prev).1
  ∨ ((syncArchives newId st prev).2 = None
     ∧ (syncArchives newId st prev).1 = prev).
Proof.
  unfold syncArchives.
  destruct (hasContent st), (list_find _ prev) as [[i a]|]; cbn; auto.
Qed.

Lemma autoSyncEffect_unfold newId st sto :
  isLoaded st = true → currentWeekStartDate st ≠ "" →
  autoSyncEffect newId (st, sto)
  = (setArchives (syncArchives newId st (archives st)).1 st,
     match (syncArchives newId st (archives st)).2 with
     | Some l =>
         {| weekly_planner_data_v1 := weekly_planner_data_v1 sto;
            weekly_planner_history_v1 := Some l |}
     | None => sto
     end).
Proof.
  intros Hl Hc. unfold autoSyncEffect. rewrite Hl. cbn [negb orb].
  destruct (String.eqb_spec (currentWeekStartDate st) "") as [|_]; [done|].
  by destruct (syncArchives newId st (archives st)).
Qed.

Lemma autoSyncEffect_skip newId st sto :
  isLoaded st = false ∨ currentWeekStartDate st = "" →
  autoSyncEffect newId (st, sto) = (st, sto).
Proof.
  intros H. unfold autoSyncEffect.
  destruct (isLoaded st); cbn [negb orb]; [|done].
  destruct H as [?| ->]; done.
Qed.

Section Reachable.
Variable LocalTZA : Z.
Variable parseDate : string → Z.

Lemma archives_toggleTimer now g st :
  archives (toggleTimer now g st) = archives st.
Proof.
  unfold toggleTimer. destruct (activeTimer st) as [t|]; [|done].
  destruct (bool_decide _); [|done]. by destruct (isRunning t).
Qed.

Lemma archives_stopTimer nowMs now today newId g st :
  archives (stopTimer LocalTZA nowMs now today newId g st) = archives st.
Proof.
  unfold stopTimer. destruct (activeTimer st) as [t|]; [|done].
  destruct (bool_decide _); [|done]. cbv zeta.
  by destruct (0 <? _).
Qed.

Lemma archives_handleSaveTask newId p st :
  archives (handleSaveTask newId p st) = archives st.
Proof. unfold handleSaveTask. by destruct (truthy _). Qed.

Lemma archives_handleSelectWeek startDate st :
  archives (handleSelectWeek LocalTZA parseDate startDate st) = archives st.
Proof.
  unfold handleSelectWeek. cbv zeta.
  destruct (List.find _ _) as [a|]; [|done].
  destruct (Archive.dailyThoughts a) as [|[|]|]; done.
Qed.

Lemma archives_loadEffect now now' sto st :
  archives (loadEffect LocalTZA parseDate now now' sto st)
  = default [] (weekly_planner_history_v1 sto).
Proof. reflexivity. Qed.

(** Invariant of the reachable states: one entry per week, in the state
    and in the stored history. *)
Lemma reachable_unique w :
  reachable LocalTZA parseDate w →
  uniqueWeeks (archives w.1)
  ∧ ∀ l, weekly_planner_history_v1 w.2 = Some l → uniqueWeeks l.
Proof.
  induction 1 as [now sto Hsto | w w' Hr [IHa IHs] Hstep].
  - split; [apply NoDup_nil_2 | exact Hsto].
  - destruct Hstep as [now now' st sto | st sto | newId [st sto]
                      | now g st sto | nowMs now today newId g st sto
                      | newId p st sto | taskId st sto | startDate st sto
                      | st st' sto Hsame];
      cbn [fst snd] in *.
    + split; [|done]. rewrite archives_loadEffect.
      destruct (weekly_planner_history_v1 sto) as [l|]; cbn;
        [by apply IHs | apply NoDup_nil_2].
    + split; [done|]. unfold persistEffect.
      by destruct (isLoaded st).
    + destruct (isLoaded st) eqn:Hl; [|by rewrite autoSyncEffect_skip by auto].
      destruct (decide (currentWeekStartDate st = "")) as [He|He];
        [by rewrite autoSyncEffect_skip by auto|].
      rewrite autoSyncEffect_unfold by done. cbn [fst snd archives setArchives].
      pose proof (syncArchives_unique newId st (archives st) IHa) as Hu.
      split; [done|].
      destruct (syncArchives_written newId st (archives st)) as [E|[E _]];
        rewrite E; [|done].
      cbn. intros l [= <-]. done.
    + by rewrite archives_toggleTimer.
    + by rewrite archives_stopTimer.
    + by rewrite archives_handleSaveTask.
    + done.
    + by rewrite archives_handleSelectWeek.
    + by rewrite Hsame.
Qed.
End Reachable.

End ArchiveSync.


(** ** History grid *)

(** *** Decimal rendering can be read back *)

Lemma digitValue_pretty_N_char (x : N) :
  (x < 10)%N → digitValue (pretty_N_char x) = Z.of_N x.
Proof.
  intros Hx.
  assert (Hall : forallb (λ n : nat, digitValue (pretty_N_char (N.of_nat n))
                                     =? Z.of_nat n) (seq 0 10) = true)
    by reflexivity.
  rewrite forallb_forall in Hall. specialize (Hall (N.to_nat x)).
  rewrite N2Nat.id, <- list_elem_of_In, elem_of_seq, Z.eqb_eq in Hall.
  rewrite Hall; lia.
Qed.

Lemma decimalValue_pretty_N_go (x : N) (s : string) :
  decimalValue 0 (pretty_N_go x s) = decimalValue (Z.of_N x) s.
Proof.
  revert s. induction (N.lt_wf_0 x) as [x _ IH]. intros s.
  destruct (decide (x = 0)%N) as [->|Hx]; [by rewrite pretty_N_go_0|].
  rewrite pretty_N_go_step by lia.
  rewrite IH by (apply N.div_lt; lia).
  cbn [decimalValue]. f_equal.
  rewrite digitValue_pretty_N_char by (apply N.mod_lt; lia).
  rewrite N2Z.inj_div, N2Z.inj_mod. change (Z.of_N 10) with 10.
  Z.to_euclidean_division_equations. lia.
Qed.

Lemma decimalValue_toString (z : Z) : 0 ≤ z → decimalValue 0 (toString z) = z.
Proof.
  intros Hz. unfold toString, pretty, pretty_Z.
  destruct z as [|p|p]; [done| |lia].
  unfold pretty, pretty_positive, pretty, pretty_N.
  rewrite decide_False by done. by rewrite decimalValue_pretty_N_go.
Qed.

Lemma decimalValue_repeat_zero (n : nat) (s : string) :
  decimalValue 0 (repeatChar n "0" +:+ s) = decimalValue 0 s.
Proof. induction n as [|n IH]; [done|]. exact IH. Qed.

Lemma decimalValue_padStart (n : nat) (z : Z) :
  0 ≤ z → decimalValue 0 (padStart n "0" (toString z)) = z.
Proof.
  intros Hz. unfold padStart.
  by rewrite decimalValue_repeat_zero, decimalValue_toString.
Qed.

Lemma padStart_inj (n : nat) (z1 z2 : Z) :
  0 ≤ z1 → 0 ≤ z2 →
  padStart n "0" (toString z1) = padStart n "0" (toString z2) → z1 = z2.
Proof.
  intros H1 H2 E. apply (f_equal (decimalValue 0)) in E.
  by rewrite !decimalValue_padStart in E.
Qed.

(** *** Shape of the fixed-width fields *)

Lemma pad2_shape (z : Z) :
  0 ≤ z < 100 →
  ∃ c1 c2, padStart 2 "0" (toString z) = String c1 (String c2 EmptyString).
Proof.
  intros Hz.
  assert (Hall : forallb (λ z, Nat.eqb (String.length (padStart 2 "0" (toString z))) 2)
                         (seqZ 0 100) = true) by (vm_compute; reflexivity).
  rewrite forallb_forall in Hall.
  specialize (Hall z). rewrite <- list_elem_of_In, elem_of_seqZ in Hall.
  specialize (Hall ltac:(lia)). apply Nat.eqb_eq in Hall.
  destruct (padStart 2 "0" (toString z)) as [|c1 [|c2 [|c3 s]]]; try discriminate.
  eauto.
Qed.

Lemma pad3_shape (z : Z) :
  0 ≤ z < 1000 →
  ∃ c1 c2 c3,
    padStart 3 "0" (toString z) = String c1 (String c2 (String c3 EmptyString)).
Proof.
  intros Hz.
  assert (Hall : forallb (λ z, Nat.eqb (String.length (padStart 3 "0" (toString z))) 3)
                         (seqZ 0 1000) = true) by (vm_compute; reflexivity).
  rewrite forallb_forall in Hall.
  specialize (Hall z). rewrite <- list_elem_of_In, elem_of_seqZ in Hall.
  specialize (Hall ltac:(lia)). apply Nat.eqb_eq in Hall.
  destruct (padStart 3 "0" (toString z)) as [|c1 [|c2 [|c3 [|c4 s]]]]; try discriminate.
  eauto.
Qed.

(** A four-digit year starts with a digit, not with a sign. *)
Lemma pad4_head (z : Z) :
  0 ≤ z ≤ 9999 →
  ∃ c s, padStart 4 "0" (toString z) = String c s ∧ c ≠ "+"%char ∧ c ≠ "-"%char.
Proof.
  intros Hz.
  assert (Hall : forallb (λ z, match padStart 4 "0" (toString z) with
                               | String c _ =>
                                   negb (Ascii.eqb c "+") && negb (Ascii.eqb c "-")
                               | EmptyString => false
                               end) (seqZ 0 10000) = true)
    by (vm_compute; reflexivity).
  rewrite forallb_forall in Hall.
  specialize (Hall z). rewrite <- list_elem_of_In, elem_of_seqZ in Hall.
  specialize (Hall ltac:(lia)).
  destruct (padStart 4 "0" (toString z)) as [|c s]; [discriminate|].
  exists c, s. split; [done|].
  apply andb_true_iff in Hall as [H1 H2].
  split; intros ->; discriminate.
Qed.

Lemma isoYear_inj (y1 y2 : Z) : isoYear y1 = isoYear y2 → y1 = y2.
Proof.
  unfold isoYear.
  destruct ((0 <=? y1) && (y1 <=? 9999)) eqn:E1;
    destruct ((0 <=? y2) && (y2 <=? 9999)) eqn:E2;
    rewrite ?andb_true_iff, ?andb_false_iff, ?Z.leb_le, ?Z.leb_gt in E1, E2.
  - intros E. apply padStart_inj in E; lia.
  - destruct (pad4_head y1) as (c & s & -> & Hp & Hm); [lia|].
    destruct (y2 <? 0); cbn; intros [= -> _]; done.
  - destruct (pad4_head y2) as (c & s & -> & Hp & Hm); [lia|].
    destruct (y1 <? 0); cbn; intros [= <- _]; done.
  - destruct (Z.ltb_spec y1 0), (Z.ltb_spec y2 0); cbn; intros [= E];
      apply padStart_inj in E; lia.
Qed.

(** *** The time value is determined by its fields *)

Lemma DateFromTime_range t : 1 ≤ DateFromTime t ≤ 31.
Proof.
  unfold DateFromTime, MonthFromTime.
  pose proof (DayWithinYear_range t) as Hr.
  pose proof (InLeapYear_cases t) as Hl.
  generalize dependent (InLeapYear t). generalize (DayWithinYear t).
  intros d l Hr Hl. unfold MonthFromDay.
  repeat match goal with
         | |- context [if ?a <? ?b then _ else _] =>
             destruct (Z.ltb_spec a b); cbn [DaysBeforeMonth]
         end; lia.
Qed.

Lemma time_of_fields (t1 t2 : Z) :
  YearFromTime t1 = YearFromTime t2 → MonthFromTime t1 = MonthFromTime t2 →
  DateFromTime t1 = DateFromTime t2 → HourFromTime t1 = HourFromTime t2 →
  MinFromTime t1 = MinFromTime t2 → SecFromTime t1 = SecFromTime t2 →
  msFromTime t1 = msFromTime t2 → t1 = t2.
Proof.
  intros Hy Hm Hd Hh Hmi Hs Hms.
  assert (Hday : Day t1 = Day t2).
  { pose proof (MakeDay_fields t1 0) as E1. pose proof (MakeDay_fields t2 0) as E2.
    rewrite Hy, Hm, Hd in E1. lia. }
  revert Hday Hh Hmi Hs Hms. clear.
  unfold Day, HourFromTime, MinFromTime, SecFromTime, msFromTime,
    msPerDay, msPerHour, msPerMinute, msPerSecond.
  intros. Z.to_euclidean_division_equations. lia.
Qed.

(** *** [toISOString] is injective *)

Lemma length_append (a b : string) :
  String.length (a +:+ b) = (String.length a + String.length b)%nat.
Proof.
  induction a as [|c a IH]; [done|].
  simpl. by rewrite IH.
Qed.

Lemma append_inj_length (a1 a2 b1 b2 : string) :
  String.length b1 = String.length b2 → a1 +:+ b1 = a2 +:+ b2 →
  a1 = a2 ∧ b1 = b2.
Proof.
  intros Hlen. revert a2.
  induction a1 as [|c a1 IH]; intros [|c' a2] E; simpl in E.
  - done.
  - apply (f_equal String.length) in E.
    rewrite !length_append in E. simpl in E. lia.
  - apply (f_equal String.length) in E.
    rewrite !length_append in E. simpl in E. lia.
  - injection E as -> E. destruct (IH _ E) as [-> ->]. done.
Qed.

Lemma toISOString_inj (d1 d2 : Z) : toISOString d1 = toISOString d2 → d1 = d2.
Proof.
  unfold toISOString. intros E.
  pose proof (MonthFromTime_range d1) as Hm1. pose proof (MonthFromTime_range d2) as Hm2.
  pose proof (DateFromTime_range d1) as Hd1. pose proof (DateFromTime_range d2) as Hd2.
  assert (Hh : ∀ d, 0 ≤ HourFromTime d < 100)
    by (intros d; pose proof (Z.mod_pos_bound (d / msPerHour) 24); unfold HourFromTime; lia).
  assert (Hmi : ∀ d, 0 ≤ MinFromTime d < 100)
    by (intros d; pose proof (Z.mod_pos_bound (d / msPerMinute) 60); unfold MinFromTime; lia).
  assert (Hs : ∀ d, 0 ≤ SecFromTime d < 100)
    by (intros d; pose proof (Z.mod_pos_bound (d / msPerSecond) 60); unfold SecFromTime; lia).
  assert (Hms : ∀ d, 0 ≤ msFromTime d < 1000)
    by (intros d; unfold msFromTime, msPerSecond; apply Z.mod_pos_bound; lia).
  destruct (pad2_shape (MonthFromTime d1 + 1)) as (a1 & a2 & Ea); [lia|].
  destruct (pad2_shape (MonthFromTime d2 + 1)) as (a1' & a2' & Ea'); [lia|].
  destruct (pad2_shape (DateFromTime d1)) as (b1 & b2 & Eb); [lia|].
  destruct (pad2_shape (DateFromTime d2)) as (b1' & b2' & Eb'); [lia|].
  destruct (pad2_shape (HourFromTime d1) (Hh d1)) as (h1 & h2 & Eh).
  destruct (pad2_shape (HourFromTime d2) (Hh d2)) as (h1' & h2' & Eh').
  destruct (pad2_shape (MinFromTime d1) (Hmi d1)) as (m1 & m2 & Em).
  destruct (pad2_shape (MinFromTime d2) (Hmi d2)) as (m1' & m2' & Em').
  destruct (pad2_shape (SecFromTime d1) (Hs d1)) as (s1 & s2 & Es).
  destruct (pad2_shape (SecFromTime d2) (Hs d2)) as (s1' & s2' & Es').
  destruct (pad3_shape (msFromTime d1) (Hms d1)) as (k1 & k2 & k3 & Ek).
  destruct (pad3_shape (msFromTime d2) (Hms d2)) as (k1' & k2' & k3' & Ek').
  rewrite Ea, Ea', Eb, Eb', Eh, Eh', Em, Em', Es, Es', Ek, Ek' in E.
  cbn [String.append] in E.
  apply append_inj_length in E as [Ey Et]; [|reflexivity].
  apply isoYear_inj in Ey.
  injection Et as -> -> -> -> -> -> -> -> -> -> -> -> ->.
  rewrite <- Ea' in Ea. rewrite <- Eb' in Eb. rewrite <- Eh' in Eh.
  rewrite <- Em' in Em. rewrite <- Es' in Es. rewrite <- Ek' in Ek.
  apply padStart_inj in Ea, Eb, Eh, Em, Es, Ek;
    try lia; try apply Hh; try apply Hmi; try apply Hs; try apply Hms.
  apply time_of_fields; lia.
Qed.

Section Grid.
Variable LocalTZA : Z.
Variable parseDate : string → Z.

Local Abbreviation thursdayYear w := (year (getMajorityMonthInfo LocalTZA w)).

Lemma thursdayYear_unfold w :
  thursdayYear w = YearFromDay (localDay LocalTZA w + 3).
Proof.
  rewrite getMajorityMonthInfo_unfold. cbn. unfold getFullYear, YearFromTime.
  fold (localDay LocalTZA (w + 3 * msPerDay)). by rewrite localDay_add_days.
Qed.

Lemma monthIndex_range w : 0 ≤ monthIndex (getMajorityMonthInfo LocalTZA w) ≤ 11.
Proof. rewrite getMajorityMonthInfo_unfold. cbn. apply MonthFromTime_range. Qed.

Lemma thursdayYear_mono w k :
  0 ≤ k → thursdayYear w ≤ thursdayYear (w + k * msPerDay).
Proof.
  intros Hk. rewrite !thursdayYear_unfold, localDay_add_days.
  apply YearFromDay_mono. lia.
Qed.

(** *** The fast-forward loop *)

Lemma fastForward_run fuel d :
  ((1 - getDay LocalTZA d) mod 7 < Z.of_nat fuel) →
  fastForward LocalTZA fuel d
  = Returns (d + ((1 - getDay LocalTZA d) mod 7) * msPerDay).
Proof.
  revert d. induction fuel as [|fuel IH]; intros d Hf.
  - pose proof (Z.mod_pos_bound (1 - getDay LocalTZA d) 7). lia.
  - cbn [fastForward]. pose proof (getDay_range LocalTZA d) as Hr.
    destruct (Z.eqb_spec (getDay LocalTZA d) 1) as [E|E]; cbn [negb].
    + rewrite E. change ((1 - 1) mod 7) with 0. f_equal. lia.
    + rewrite (setDate_getDate_add LocalTZA d 1), IH.
      * f_equal. rewrite getDay_add_days. unfold msPerDay.
        Z.to_euclidean_division_equations. lia.
      * rewrite getDay_add_days. Z.to_euclidean_division_equations. lia.
Qed.

Lemma fastForward_firstMonday fuel y :
  (7 ≤ fuel)%nat →
  fastForward LocalTZA fuel (newDate LocalTZA (y - 1) 11 20)
  = Returns (firstMonday LocalTZA y).
Proof.
  intros Hf. unfold firstMonday. apply fastForward_run.
  pose proof (Z.mod_pos_bound (1 - getDay LocalTZA (newDate LocalTZA (y - 1) 11 20)) 7).
  lia.
Qed.

Lemma getDay_firstMonday y : getDay LocalTZA (firstMonday LocalTZA y) = 1.
Proof.
  unfold firstMonday. cbv zeta. rewrite getDay_add_days.
  pose proof (getDay_range LocalTZA (newDate LocalTZA (y - 1) 11 20)).
  Z.to_euclidean_division_equations. lia.
Qed.

Lemma localDay_newDate y m d :
  localDay LocalTZA (newDate LocalTZA y m d) = MakeDay (MakeFullYear y) m d.
Proof.
  unfold localDay, newDate, LocalTime, UTC, MakeTime.
  replace (MakeDate (MakeDay (MakeFullYear y) m d)
             (0 * msPerHour + 0 * msPerMinute + 0 * msPerSecond + 0) - LocalTZA + LocalTZA)
    with (MakeDate (MakeDay (MakeFullYear y) m d) 0) by (unfold MakeDate; lia).
  apply Day_MakeDate. unfold msPerDay. lia.
Qed.

(** Day number of the first Monday: at most six days after December 20. *)
Lemma localDay_firstMonday y :
  let y' := MakeFullYear (y - 1) in
  DayFromYear (y' + 1) - 12 ≤ localDay LocalTZA (firstMonday LocalTZA y)
  ≤ DayFromYear (y' + 1) - 6.
Proof.
  intros y'. unfold firstMonday. cbv zeta.
  rewrite localDay_add_days, localDay_newDate. fold y'.
  unfold MakeDay. change (11 / 12) with 0. change (11 mod 12) with 11.
  cbn [DaysBeforeMonth]. rewrite Z.add_0_r, DayFromYear_succ.
  pose proof (Z.mod_pos_bound (1 - getDay LocalTZA (newDate LocalTZA (y - 1) 11 20)) 7).
  lia.
Qed.

Lemma weeksFrom_S d n :
  weeksFrom d (S n) = d :: weeksFrom (d + 7 * msPerDay) n.
Proof.
  unfold weeksFrom. cbn [seq fmap list_fmap]. change (Z.of_nat 0) with 0.
  f_equal; [lia|].
  rewrite <- fmap_S_seq, <- list_fmap_compose. apply list_fmap_ext.
  intros _ j _. cbn. lia.
Qed.

Lemma weeksFrom_app d n k :
  weeksFrom d (n + k)
  = weeksFrom d n ++ weeksFrom (d + Z.of_nat n * (7 * msPerDay)) k.
Proof.
  revert d. induction n as [|n IH]; intros d.
  - change (weeksFrom d 0) with (@nil Z). cbn [Nat.add app]. f_equal. lia.
  - cbn [Nat.add]. rewrite !weeksFrom_S, IH. cbn [app]. do 3 f_equal. lia.
Qed.

Lemma elem_of_weeksFrom d n w :
  w ∈ weeksFrom d n ↔ ∃ j : nat, (j < n)%nat ∧ w = d + Z.of_nat j * (7 * msPerDay).
Proof.
  unfold weeksFrom. rewrite list_elem_of_fmap. split.
  - intros (j & -> & Hj). apply elem_of_seq in Hj. exists j. split; [lia|done].
  - intros (j & Hj & ->). exists j. split; [done|]. apply elem_of_seq. lia.
Qed.

Lemma filter_none {A} (P : A → Prop) `{!∀ x, Decision (P x)} (l : list A) :
  Forall (λ x, ¬ P x) l → filter P l = [].
Proof.
  induction 1 as [|x l Hx _ IH]; [done|].
  by rewrite filter_cons_False.
Qed.

(** Weeks whose Thursday lies after [year'] are in no bucket of [year']. *)
Lemma filter_weeks_after year' m d n :
  year' < thursdayYear d →
  filter (λ w, getMajorityMonthInfo LocalTZA w = {| year := year'; monthIndex := m |})
         (weeksFrom d n) = [].
Proof.
  intros Hy. apply filter_none. apply Forall_forall. intros w Hw Hm.
  apply elem_of_weeksFrom in Hw as (j & _ & ->).
  assert (Hmono : thursdayYear d ≤ thursdayYear (d + Z.of_nat j * (7 * msPerDay))).
  { replace (Z.of_nat j * (7 * msPerDay)) with (Z.of_nat j * 7 * msPerDay) by lia.
    apply thursdayYear_mono. lia. }
  rewrite Hm in Hmono. cbn [year] in Hmono. lia.
Qed.

(** Once the scan has broken, scanning further weeks adds nothing. *)
Lemma filter_weeks_stable year' m d n n' :
  breaksWithin LocalTZA year' d n → (n ≤ n')%nat →
  filter (λ w, getMajorityMonthInfo LocalTZA w = {| year := year'; monthIndex := m |})
         (weeksFrom d n')
  = filter (λ w, getMajorityMonthInfo LocalTZA w = {| year := year'; monthIndex := m |})
           (weeksFrom d n).
Proof.
  intros (j & Hj & Hy) Hn.
  replace n' with (n + (n' - n))%nat by lia.
  rewrite weeksFrom_app, filter_app.
  rewrite (filter_weeks_after _ _ (d + Z.of_nat n * (7 * msPerDay)));
    [by rewrite app_nil_r|].
  assert (Hmono : thursdayYear (d + Z.of_nat j * (7 * msPerDay))
                  ≤ thursdayYear (d + Z.of_nat n * (7 * msPerDay))).
  { replace (d + Z.of_nat n * (7 * msPerDay))
      with (d + Z.of_nat j * (7 * msPerDay) + (Z.of_nat n - Z.of_nat j) * 7 * msPerDay)
      by lia.
    apply thursdayYear_mono. lia. }
  lia.
Qed.

(** *** The scan of one year *)

Lemma scanWeeks_run archives year' fuel d data' months :
  data' !! year' = Some months →
  (∀ m, 0 ≤ m ≤ 11 → is_Some (months !! m)) →
  breaksWithin LocalTZA year' d fuel →
  ∃ data'' months',
    scanWeeks LocalTZA fuel archives year' d data' = Returns data''
    ∧ (∀ y, y ≠ year' → data'' !! y = data' !! y)
    ∧ data'' !! year' = Some months'
    ∧ ∀ m, months' !! m
           = (λ l, l ++ (weekBlock LocalTZA archives
                           <$> filter (λ w, getMajorityMonthInfo LocalTZA w
                                            = {| year := year'; monthIndex := m |})
                                      (weeksFrom d fuel)))
             <$> months !! m.
Proof.
  revert d data' months.
  induction fuel as [|fuel IH]; intros d data' months Hd Hm (j & Hj & Hy); [lia|].
  cbn [scanWeeks]. cbv zeta.
  destruct (Z.ltb_spec year' (thursdayYear d)) as [Hbreak|Hle].
  { exists data', months. split; [done|]. split; [done|]. split; [done|].
    intros m. rewrite filter_weeks_after by done. cbn.
    destruct (months !! m); cbn; [by rewrite app_nil_r|done]. }
  destruct j as [|j].
  { change (Z.of_nat 0) with 0 in Hy. rewrite Z.mul_0_l, Z.add_0_r in Hy. lia. }
  assert (Hbr : breaksWithin LocalTZA year' (d + 7 * msPerDay) fuel).
  { exists j. split; [lia|].
    replace (d + 7 * msPerDay + Z.of_nat j * (7 * msPerDay))
      with (d + Z.of_nat (S j) * (7 * msPerDay)) by lia. done. }
  rewrite (setDate_getDate_add LocalTZA d 7).
  destruct (Z.eqb_spec (thursdayYear d) year') as [Heq|Hne].
  - (* the week belongs to the target year *)
    pose proof (monthIndex_range d) as Hmi.
    destruct (Hm _ Hmi) as [l Hl].
    unfold pushBlock. rewrite Hd, Hl. cbn [mbind Outcome_bind].
    set (mi := monthIndex (getMajorityMonthInfo LocalTZA d)) in *.
    set (b := {| startDate := toISOString d; dayLabel := getDate LocalTZA d;
                 archive := findArchive archives d |}).
    destruct (IH (d + 7 * msPerDay)
                 (<[year' := <[mi := l ++ [b]]> months]> data')
                 (<[mi := l ++ [b]]> months)) as (data'' & months' & Hrun & Hoth & Hy' & Hbk).
    { by rewrite lookup_insert_eq. }
    { intros m Hr. destruct (decide (mi = m)) as [<-|?].
      - rewrite lookup_insert_eq. eauto.
      - rewrite lookup_insert_ne by done. by apply Hm. }
    { done. }
    exists data'', months'. split; [done|]. split.
    { intros y Hyne. rewrite Hoth by done. by rewrite lookup_insert_ne. }
    split; [done|].
    intros m. rewrite Hbk, weeksFrom_S.
    destruct (decide (mi = m)) as [<-|Hmne].
    + rewrite lookup_insert_eq, Hl.
      rewrite filter_cons_True.
      2:{ unfold mi. rewrite <- Heq. by destruct (getMajorityMonthInfo LocalTZA d). }
      rewrite fmap_cons. cbn [fmap option_fmap option_map].
      by rewrite <- app_assoc.
    + rewrite lookup_insert_ne by done.
      rewrite filter_cons_False; [done|].
      intros E. apply Hmne. unfold mi. by rewrite E.
  - (* the week belongs to an earlier year *)
    cbn [mbind Outcome_bind].
    destruct (IH (d + 7 * msPerDay) data' months Hd Hm Hbr)
      as (data'' & months' & Hrun & Hoth & Hy' & Hbk).
    exists data'', months'. split; [done|]. split; [done|]. split; [done|].
    intros m. rewrite Hbk, weeksFrom_S.
    rewrite filter_cons_False; [done|].
    intros E. apply Hne. by rewrite E.
Qed.

Lemma MakeFullYear_ge y : y ≤ MakeFullYear y.
Proof. unfold MakeFullYear. destruct (_ && _); lia. Qed.

(** The scan of a year breaks within 56 weeks of its first Monday. *)
Lemma firstMonday_breaksWithin year' :
  breaksWithin LocalTZA year' (firstMonday LocalTZA year') 56.
Proof.
  exists 55%nat. split; [lia|].
  rewrite thursdayYear_unfold.
  replace (Z.of_nat 55 * (7 * msPerDay)) with (385 * msPerDay) by lia.
  rewrite localDay_add_days.
  pose proof (localDay_firstMonday year') as Hd. cbv zeta in Hd.
  pose proof (MakeFullYear_ge (year' - 1)) as Hy.
  set (y' := MakeFullYear (year' - 1)) in *.
  assert (Hnext : y' + 2 ≤ YearFromDay (localDay LocalTZA (firstMonday LocalTZA year') + 385 + 3)).
  { rewrite <- (YearFromDay_unique (DayFromYear (y' + 2)) (y' + 2)).
    - apply YearFromDay_mono.
      replace (y' + 2) with (y' + 1 + 1) by lia. rewrite (DayFromYear_succ (y' + 1)).
      destruct (DaysInYear_cases (y' + 1)); lia.
    - rewrite DayFromYear_succ. destruct (DaysInYear_cases (y' + 2)); lia. }
  lia.
Qed.

(** *** One year of the grid *)

Lemma seqZ_0_12 : seqZ 0 12 = [0; 1; 2; 3; 4; 5; 6; 7; 8; 9; 10; 11].
Proof. reflexivity. Qed.

Lemma initMonths (year' : Z) (data' : gmap Z (gmap Z (list WeekBlock))) :
  ∃ months,
    foldl (λ acc i, alter (λ months, <[i := []]> months) year' acc)
          (<[year' := ∅]> data') (seqZ 0 12)
    = <[year' := months]> data'
    ∧ ∀ m, months !! m = if decide (0 ≤ m ≤ 11) then Some [] else None.
Proof.
  rewrite seqZ_0_12. cbn [foldl]. rewrite !alter_insert_eq.
  eexists. split; [reflexivity|].
  intros m. case_decide as Hm.
  - assert (Hcases : m = 0 ∨ m = 1 ∨ m = 2 ∨ m = 3 ∨ m = 4 ∨ m = 5 ∨ m = 6
                     ∨ m = 7 ∨ m = 8 ∨ m = 9 ∨ m = 10 ∨ m = 11) by lia.
    destruct Hcases as [->|[->|[->|[->|[->|[->|[->|[->|[->|[->|[->| ->]]]]]]]]]]];
      reflexivity.
  - rewrite !lookup_insert_ne by lia. apply lookup_empty.
Qed.

Lemma buildYear_run archives fuel year' data' :
  (56 ≤ fuel)%nat →
  ∃ data'' months,
    buildYear LocalTZA fuel archives year' data' = Returns data''
    ∧ (∀ y, y ≠ year' → data'' !! y = data' !! y)
    ∧ data'' !! year' = Some months
    ∧ isYearGrid LocalTZA archives year' months.
Proof.
  intros Hfuel. unfold buildYear. cbv zeta.
  destruct (initMonths year' data') as (months0 & -> & Hm0).
  rewrite fastForward_firstMonday by lia.
  cbn [mbind Outcome_bind].
  destruct (scanWeeks_run archives year' fuel (firstMonday LocalTZA year')
              (<[year' := months0]> data') months0)
    as (data'' & months & Hrun & Hoth & Hy & Hbk).
  { by rewrite lookup_insert_eq. }
  { intros m Hm. rewrite Hm0. rewrite decide_True by done. eauto. }
  { destruct (firstMonday_breaksWithin year') as (j & Hj & Hb).
    exists j. split; [lia|done]. }
  exists data'', months. split; [done|]. split.
  { intros y Hne. rewrite Hoth by done. by rewrite lookup_insert_ne. }
  split; [done|].
  intros m. rewrite Hbk, Hm0.
  rewrite (filter_weeks_stable year' m _ 56 fuel (firstMonday_breaksWithin year') Hfuel).
  unfold weeksIn. case_decide; reflexivity.
Qed.

(** *** All years *)

Lemma buildYears_run archives fuel ys data' :
  (56 ≤ fuel)%nat →
  ∃ data'',
    foldl (λ acc year', data' ← acc; buildYear LocalTZA fuel archives year' data')
          (Returns data') ys
    = Returns data''
    ∧ ∀ y, (y ∈ ys → ∃ months, data'' !! y = Some months
                                ∧ isYearGrid LocalTZA archives y months)
           ∧ (y ∉ ys → data'' !! y = data' !! y).
Proof.
  intros Hfuel. revert data'.
  induction ys as [|y0 ys IH]; intros data'.
  - exists data'. split; [done|]. intros y. split; [|done].
    intros Hy. by apply elem_of_nil in Hy.
  - cbn [foldl mbind Outcome_bind].
    destruct (buildYear_run archives fuel y0 data' Hfuel)
      as (data1 & months & -> & Hoth & Hy0 & Hgrid).
    destruct (IH data1) as (data'' & Hrun & Hspec).
    exists data''. split; [done|]. intros y. split.
    + intros Hy. destruct (decide (y ∈ ys)) as [Hin|Hnin].
      * by apply Hspec.
      * apply elem_of_cons in Hy as [->|?]; [|done].
        exists months. split; [|done]. by rewrite (proj2 (Hspec y0) Hnin).
    + intros Hy. apply not_elem_of_cons in Hy as [Hne Hnin].
      rewrite (proj2 (Hspec y) Hnin). by apply Hoth.
Qed.

(** *** The weeks of a bucket *)

Lemma weeksFrom_sorted d n : StronglySorted Z.lt (weeksFrom d n).
Proof.
  revert d. induction n as [|n IH]; intros d; [constructor|].
  rewrite weeksFrom_S. constructor; [apply IH|].
  apply Forall_forall. intros w Hw.
  apply elem_of_weeksFrom in Hw as (j & _ & ->). unfold msPerDay. lia.
Qed.

Lemma weeksIn_sorted y m : StronglySorted Z.lt (weeksIn LocalTZA y m).
Proof.
  unfold weeksIn.
  generalize (weeksFrom_sorted (firstMonday LocalTZA y) 56).
  generalize (weeksFrom (firstMonday LocalTZA y) 56).
  induction 1 as [|w l Hl IH Hw]; [constructor|].
  rewrite filter_cons. case_decide; [|done].
  constructor; [done|].
  apply Forall_forall. intros w' Hw'. apply list_elem_of_filter in Hw' as [_ Hw'].
  rewrite Forall_forall in Hw. by apply Hw.
Qed.

Lemma sorted_lt_NoDup (l : list Z) : StronglySorted Z.lt l → NoDup l.
Proof.
  induction 1 as [|x l _ IH Hx]; [apply NoDup_nil_2|].
  apply NoDup_cons. split; [|done].
  intros Hin. rewrite Forall_forall in Hx. specialize (Hx x Hin). lia.
Qed.

Lemma weeksIn_elem y m w :
  w ∈ weeksIn LocalTZA y m →
  getMajorityMonthInfo LocalTZA w = {| year := y; monthIndex := m |}
  ∧ getDay LocalTZA w = 1
  ∧ TimeWithinDay (LocalTime LocalTZA w) = 0.
Proof.
  unfold weeksIn. intros Hw. apply list_elem_of_filter in Hw as [Hm Hw].
  split; [done|].
  apply elem_of_weeksFrom in Hw as (j & _ & ->).
  replace (Z.of_nat j * (7 * msPerDay)) with (Z.of_nat j * 7 * msPerDay) by lia.
  split.
  - rewrite getDay_add_days, getDay_firstMonday.
    Z.to_euclidean_division_equations. lia.
  - unfold LocalTime.
    replace (firstMonday LocalTZA y + Z.of_nat j * 7 * msPerDay + LocalTZA)
      with (firstMonday LocalTZA y + LocalTZA + Z.of_nat j * 7 * msPerDay) by lia.
    rewrite TimeWithinDay_add_days. unfold firstMonday. cbv zeta.
    replace (newDate LocalTZA (y - 1) 11 20
             + (1 - getDay LocalTZA (newDate LocalTZA (y - 1) 11 20)) mod 7 * msPerDay
             + LocalTZA)
      with (newDate LocalTZA (y - 1) 11 20 + LocalTZA
            + (1 - getDay LocalTZA (newDate LocalTZA (y - 1) 11 20)) mod 7 * msPerDay)
      by lia.
    rewrite TimeWithinDay_add_days.
    unfold newDate, UTC, MakeDate, MakeTime, TimeWithinDay, msPerDay.
    Z.to_euclidean_division_equations. lia.
Qed.

Lemma uniqueSorted_spec xs :
  StronglySorted Z.lt (uniqueSorted xs) ∧ ∀ y, y ∈ uniqueSorted xs ↔ y ∈ xs.
Proof.
  unfold uniqueSorted.
  pose proof (merge_sort_Permutation Z.le (remove_dups xs)) as Hp.
  assert (Hnd : NoDup (merge_sort Z.le (remove_dups xs))).
  { rewrite Hp. apply NoDup_remove_dups. }
  assert (Hs : StronglySorted Z.le (merge_sort Z.le (remove_dups xs))).
  { apply StronglySorted_merge_sort; apply _. }
  split.
  - revert Hnd Hs. generalize (merge_sort Z.le (remove_dups xs)).
    induction l as [|x l IH]; intros Hnd Hs; [constructor|].
    apply NoDup_cons in Hnd as [Hx Hnd].
    apply StronglySorted_inv in Hs as [Hs Hall].
    constructor; [by apply IH|].
    rewrite Forall_forall in Hall. apply Forall_forall. intros z Hz.
    specialize (Hall z Hz). assert (x ≠ z) by (by intros ->). lia.
  - intros y. rewrite Hp. apply elem_of_remove_dups.
Qed.

(** *** Completeness of the scan *)

(** A date at local midnight is determined by its day number. *)
Lemma local_midnight d :
  TimeWithinDay (LocalTime LocalTZA d) = 0 →
  d = UTC LocalTZA (localDay LocalTZA d * msPerDay).
Proof.
  intros H. pose proof (MakeDate_Day (LocalTime LocalTZA d)) as E.
  rewrite H in E. unfold MakeDate in E. unfold UTC, localDay.
  unfold LocalTime in *. lia.
Qed.

Lemma TimeWithinDay_firstMonday y :
  TimeWithinDay (LocalTime LocalTZA (firstMonday LocalTZA y)) = 0.
Proof.
  unfold firstMonday, LocalTime. cbv zeta.
  replace (newDate LocalTZA (y - 1) 11 20
           + (1 - getDay LocalTZA (newDate LocalTZA (y - 1) 11 20)) mod 7 * msPerDay
           + LocalTZA)
    with (newDate LocalTZA (y - 1) 11 20 + LocalTZA
          + (1 - getDay LocalTZA (newDate LocalTZA (y - 1) 11 20)) mod 7 * msPerDay)
    by lia.
  rewrite TimeWithinDay_add_days.
  unfold newDate, UTC, MakeDate, MakeTime, TimeWithinDay, msPerDay.
  Z.to_euclidean_division_equations. lia.
Qed.

Lemma week_index (a b lo len : Z) :
  lo - 12 ≤ b ≤ lo - 6 → (b + 4) mod 7 = 1 → (a + 4) mod 7 = 1 →
  lo ≤ a + 3 < lo + len → len ≤ 366 →
  ∃ j : nat, (j < 56)%nat ∧ a = b + Z.of_nat j * 7.
Proof.
  intros Hb Hmb Hma Ha Hlen. exists (Z.to_nat ((a - b) / 7)).
  split; [|rewrite Z2Nat.id]; Z.to_euclidean_division_equations; lia.
Qed.

(** Every Monday whose Thursday lies in year [y] is scanned for [y], unless
    [y - 1] is one of the two-digit years that the [Date] constructor reads
    as 19xx. *)
Lemma weeksIn_complete y w :
  ¬ (1 ≤ y ≤ 100) →
  getDay LocalTZA w = 1 → TimeWithinDay (LocalTime LocalTZA w) = 0 →
  year (getMajorityMonthInfo LocalTZA w) = y →
  w ∈ weeksIn LocalTZA y (monthIndex (getMajorityMonthInfo LocalTZA w)).
Proof.
  intros Hq Hmon Hmid Hy. unfold weeksIn.
  apply list_elem_of_filter. split.
  { rewrite <- Hy. by destruct (getMajorityMonthInfo LocalTZA w). }
  rewrite thursdayYear_unfold in Hy.
  pose proof (YearFromDay_spec (localDay LocalTZA w + 3)) as Hs. rewrite Hy in Hs.
  pose proof (localDay_firstMonday y) as Hf. cbv zeta in Hf.
  assert (E : MakeFullYear (y - 1) = y - 1).
  { unfold MakeFullYear.
    destruct (Z.leb_spec 0 (y - 1)), (Z.leb_spec (y - 1) 99); cbn; lia. }
  rewrite E in Hf. replace (y - 1 + 1) with y in Hf by lia.
  pose proof (getDay_firstMonday y) as Hm0.
  rewrite getDay_localDay in Hmon, Hm0.
  rewrite DayFromYear_succ in Hs.
  destruct (week_index (localDay LocalTZA w)
              (localDay LocalTZA (firstMonday LocalTZA y))
              (DayFromYear y) (DaysInYear y)) as (j & Hj & Hab); try done.
  { destruct (DaysInYear_cases y); lia. }
  apply elem_of_weeksFrom. exists j. split; [done|].
  pose proof (local_midnight w Hmid) as Ew. rewrite Hab in Ew.
  pose proof (local_midnight (firstMonday LocalTZA y) (TimeWithinDay_firstMonday y))
    as Ef.
  revert Ew Ef. clear.
  generalize (localDay LocalTZA (firstMonday LocalTZA y)).
  generalize (firstMonday LocalTZA y).
  intros f b -> ->. unfold UTC. ring.
Qed.
(** *** Independence of the recursion budget *)

Lemma fastForward_mono fuel fuel' d r :
  fastForward LocalTZA fuel d = Returns r → (fuel ≤ fuel')%nat →
  fastForward LocalTZA fuel' d = Returns r.
Proof.
  revert fuel' d. induction fuel as [|fuel IH]; intros fuel' d Hr Hle; [done|].
  destruct fuel' as [|fuel']; [lia|]. cbn [fastForward] in *.
  destruct (negb _); [|done]. apply IH; [done|lia].
Qed.

Lemma scanWeeks_mono archives y fuel fuel' d data' r :
  scanWeeks LocalTZA fuel archives y d data' = Returns r → (fuel ≤ fuel')%nat →
  scanWeeks LocalTZA fuel' archives y d data' = Returns r.
Proof.
  revert fuel' d data'.
  induction fuel as [|fuel IH]; intros fuel' d data' Hr Hle; [done|].
  destruct fuel' as [|fuel']; [lia|]. cbn [scanWeeks] in *. cbv zeta in *.
  destruct (y <? _); [done|].
  destruct (if year (getMajorityMonthInfo LocalTZA d) =? y then _ else _)
    as [data1| |]; cbn [mbind Outcome_bind] in *; [|done|done].
  apply IH; [done|lia].
Qed.

Lemma buildYear_mono archives y fuel fuel' data' r :
  buildYear LocalTZA fuel archives y data' = Returns r → (fuel ≤ fuel')%nat →
  buildYear LocalTZA fuel' archives y data' = Returns r.
Proof.
  unfold buildYear. cbv zeta. intros Hr Hle.
  destruct (fastForward LocalTZA fuel _) as [d| |] eqn:Hff;
    cbn [mbind Outcome_bind] in Hr; [|done|done].
  rewrite (fastForward_mono _ _ _ _ Hff Hle). cbn [mbind Outcome_bind].
  by eapply scanWeeks_mono.
Qed.

Lemma buildYears_mono archives fuel fuel' ys acc r :
  foldl (λ acc year', data' ← acc; buildYear LocalTZA fuel archives year' data')
        acc ys = Returns r →
  (fuel ≤ fuel')%nat →
  foldl (λ acc year', data' ← acc; buildYear LocalTZA fuel' archives year' data')
        acc ys = Returns r.
Proof.
  intros Hr Hle. revert acc Hr.
  induction ys as [|y ys IH]; intros acc Hr; [done|].
  cbn [foldl] in *.
  assert (Hstuck : ∀ (f : Outcome _ → Z → Outcome (gmap Z (gmap Z (list WeekBlock)))) l a,
             (∀ y, f Throws y = Throws) → (∀ y, f OutOfFuel y = OutOfFuel) →
             (a = Throws ∨ a = OutOfFuel) → foldl f a l = a).
  { intros f l. induction l as [|z l IHl]; intros a HT HO Ha; [done|].
    cbn [foldl]. destruct Ha as [-> | ->]; rewrite ?HT, ?HO; apply IHl; auto. }
  destruct acc as [data'| |]; cbn [mbind Outcome_bind] in *.
  - destruct (buildYear LocalTZA fuel archives y data') as [data1| |] eqn:Hb.
    + rewrite (buildYear_mono _ _ _ _ _ _ Hb Hle). by apply IH.
    + rewrite Hstuck in Hr by auto. done.
    + rewrite Hstuck in Hr by auto. done.
  - rewrite Hstuck in Hr by auto. done.
  - rewrite Hstuck in Hr by auto. done.
Qed.

Lemma calendarData_mono archives fuel fuel' r :
  calendarData LocalTZA parseDate fuel archives = Returns r → (fuel ≤ fuel')%nat →
  calendarData LocalTZA parseDate fuel' archives = Returns r.
Proof.
  unfold calendarData. cbv zeta. intros Hr Hle.
  destruct (foldl _ (Returns ∅) _) as [data'| |] eqn:Hf;
    cbn [mbind Outcome_bind] in Hr; [|done|done].
  by rewrite (buildYears_mono _ _ _ _ _ _ Hf Hle).
Qed.

Lemma isYearGrid_dom archives y months :
  isYearGrid LocalTZA archives y months →
  dom months = list_to_set (seqZ 0 12) ∧ size months = 12%nat.
Proof.
  intros Hg.
  assert (Hdom : dom months = list_to_set (C := gset Z) (seqZ 0 12)).
  { apply set_eq. intros m. rewrite elem_of_dom, elem_of_list_to_set, elem_of_seqZ, Hg.
    case_decide; split; intros H'; try lia; try (by eauto); by destruct H'. }
  split; [done|].
  rewrite <- size_dom, Hdom. rewrite size_list_to_set; [done|]. apply NoDup_seqZ.
Qed.

End Grid.


(** * Further properties of the code *)

(** ** Numbers in strings *)

Lemma isDigit_pretty_N_char (x : N) :
  (x < 10)%N → isDigit (pretty_N_char x) = true.
Proof.
  intros Hx.
  assert (Hall : forallb (λ n : nat, isDigit (pretty_N_char (N.of_nat n)))
                         (seq 0 10) = true) by reflexivity.
  rewrite forallb_forall in Hall.
  specialize (Hall (N.to_nat x)). rewrite N2Nat.id in Hall.
  apply Hall, in_seq. lia.
Qed.

Lemma allDigits_app (a b : string) :
  allDigits (a +:+ b) = allDigits a && allDigits b.
Proof.
  induction a as [|c a IH]; [done|].
  simpl. rewrite IH. by rewrite andb_assoc.
Qed.

Lemma allDigits_pretty_N_go (x : N) (s : string) :
  allDigits (pretty_N_go x s) = allDigits s.
Proof.
  revert s. induction (N.lt_wf_0 x) as [x _ IH]. intros s.
  destruct (decide (x = 0)%N) as [->|Hx]; [by rewrite pretty_N_go_0|].
  rewrite pretty_N_go_step by lia.
  rewrite IH by (apply N.div_lt; lia).
  simpl. rewrite isDigit_pretty_N_char; [done|].
  apply N.mod_lt. lia.
Qed.

Lemma allDigits_toString (z : Z) : 0 ≤ z → allDigits (toString z) = true.
Proof.
  intros Hz. unfold toString, pretty, pretty_Z.
  destruct z as [|p|p]; [done| |lia].
  unfold pretty, pretty_positive, pretty, pretty_N.
  rewrite decide_False by done. by rewrite allDigits_pretty_N_go.
Qed.

Lemma allDigits_padStart (n : nat) (s : string) :
  allDigits s = true → allDigits (padStart n "0" s) = true.
Proof.
  intros Hs. unfold padStart. rewrite allDigits_app, Hs, andb_true_r.
  induction (n - String.length s)%nat as [|k IH]; [done|]. exact IH.
Qed.

Lemma StringToNumber_padStart (n : nat) (z : Z) :
  0 ≤ z → StringToNumber (padStart n "0" (toString z)) = Some z.
Proof.
  intros Hz. unfold StringToNumber.
  rewrite allDigits_padStart by by apply allDigits_toString.
  by rewrite decimalValue_padStart.
Qed.

Lemma StringToNumber_toString (z : Z) :
  0 ≤ z → StringToNumber (toString z) = Some z.
Proof.
  intros Hz. unfold StringToNumber.
  rewrite allDigits_toString by done. by rewrite decimalValue_toString.
Qed.

Lemma splitOn_digits (c : ascii) (s : string) :
  isDigit c = false → allDigits s = true → splitOn c s = [s].
Proof.
  intros Hc. induction s as [|a s IH]; [done|].
  simpl. intros [Ha Hs]%andb_true_iff.
  destruct (Ascii.eqb_spec a c) as [->|_]; [congruence|].
  by rewrite IH.
Qed.

Lemma splitOn_digits_app (c : ascii) (a b : string) :
  isDigit c = false → allDigits a = true →
  splitOn c (a +:+ String c b) = a :: splitOn c b.
Proof.
  intros Hc. induction a as [|x a IH].
  - intros _. simpl. by rewrite Ascii.eqb_refl.
  - simpl. intros [Hx Ha]%andb_true_iff.
    destruct (Ascii.eqb_spec x c) as [->|_]; [congruence|].
    by rewrite IH.
Qed.

Lemma splitHead_digits_app (c : ascii) (a b : string) :
  isDigit c = false → allDigits a = true →
  splitHead c (a +:+ String c b) = a.
Proof.
  intros Hc. induction a as [|x a IH].
  - intros _. simpl. by rewrite Ascii.eqb_refl.
  - simpl. intros [Hx Ha]%andb_true_iff.
    destruct (Ascii.eqb_spec x c) as [->|_]; [congruence|].
    by rewrite IH.
Qed.

Lemma timeString_parse (h m : Z) :
  0 ≤ h → 0 ≤ m →
  StringToNumber <$> splitOn ":" (timeString h m) = [Some h; Some m].
Proof.
  intros Hh Hm. unfold timeString.
  change (":" +:+ ?x) with (String ":" x).
  rewrite splitOn_digits_app;
    [|done|by apply allDigits_padStart, allDigits_toString].
  rewrite splitOn_digits;
    [|done|by apply allDigits_padStart, allDigits_toString].
  cbn [fmap list_fmap]. by rewrite !StringToNumber_padStart.
Qed.

Lemma digitValue_range (c : ascii) : isDigit c = true → 0 ≤ digitValue c ≤ 9.
Proof.
  unfold isDigit, digitValue. cbv zeta.
  intros [H1 H2]%andb_true_iff.
  apply N.leb_le in H1, H2. lia.
Qed.

Lemma decimalValue_lt (acc : Z) (s : string) :
  allDigits s = true → 0 ≤ acc →
  decimalValue acc s < (acc + 1) * 10 ^ Z.of_nat (String.length s).
Proof.
  revert acc. induction s as [|c s IH]; intros acc Hs Hacc.
  - simpl. lia.
  - simpl in Hs. apply andb_true_iff in Hs as [Hc Hs].
    pose proof (digitValue_range c Hc) as Hd.
    cbn [decimalValue String.length].
    specialize (IH (acc * 10 + digitValue c) Hs ltac:(lia)).
    rewrite Nat2Z.inj_succ, Z.pow_succ_r by lia.
    assert (0 < 10 ^ Z.of_nat (String.length s)) by (apply Z.pow_pos_nonneg; lia).
    nia.
Qed.

Lemma toString_length_ge (z : Z) (n : nat) :
  10 ^ Z.of_nat n ≤ z → (n < String.length (toString z))%nat.
Proof.
  intros Hz.
  assert (0 ≤ z) by (pose proof (Z.pow_pos_nonneg 10 (Z.of_nat n)); lia).
  pose proof (decimalValue_lt 0 (toString z) (allDigits_toString z H) ltac:(lia)) as Hlt.
  rewrite decimalValue_toString in Hlt by done.
  destruct (decide (n < String.length (toString z))%nat) as [|Hn]; [done|].
  assert (10 ^ Z.of_nat (String.length (toString z)) ≤ 10 ^ Z.of_nat n)
    by (apply Z.pow_le_mono_r; lia).
  lia.
Qed.

Lemma pad2_length (z : Z) :
  0 ≤ z < 100 → String.length (padStart 2 "0" (toString z)) = 2%nat.
Proof. intros Hz. by destruct (pad2_shape z Hz) as (c1 & c2 & ->). Qed.

(** X1. The timer read-out [formatDuration] can be read back: for a
    number of seconds that is not negative, splitting the text at the
    colon and reading both fields as numbers gives the whole minutes and
    the remaining seconds.  Below 100 minutes the text has exactly five
    characters (MM:SS); from 100 minutes on there is no hours field, the
    minutes field grows instead. *)
Theorem formatDuration_reads_back (seconds : Z) :
  0 ≤ seconds →
  StringToNumber <$> splitOn ":" (formatDuration seconds)
  = [Some (seconds / 60); Some (seconds mod 60)]
  ∧ (seconds < 6000 → String.length (formatDuration seconds) = 5%nat)
  ∧ (6000 ≤ seconds → (5 < String.length (formatDuration seconds))%nat).
Proof.
  intros Hs.
  assert (E : formatDuration seconds = timeString (seconds / 60) (seconds mod 60)).
  { unfold formatDuration, timeString. cbv zeta.
    change 60%Q with (inject_Z 60). rewrite Math_floor_div by lia.
    by rewrite Z.rem_mod_nonneg by lia. }
  rewrite E. split; [|split].
  - apply timeString_parse; Z.to_euclidean_division_equations; lia.
  - intros Hlt. unfold timeString. rewrite !length_append.
    rewrite !pad2_length by (Z.to_euclidean_division_equations; lia).
    reflexivity.
  - intros Hge. unfold timeString. rewrite !length_append.
    rewrite (pad2_length (seconds mod 60)) by (Z.to_euclidean_division_equations; lia).
    unfold padStart at 1. rewrite length_append.
    assert (Hm : 100 ≤ seconds / 60)
      by (clear - Hge; Z.to_euclidean_division_equations; lia).
    pose proof (toString_length_ge (seconds / 60) 2 Hm) as Hl.
    change (String.length ":") with 1%nat. lia.
Qed.

Lemma formatDuration_reads_back_witness :
  0 ≤ 754
  ∧ StringToNumber <$> splitOn ":" (formatDuration 754) = [Some (754 / 60); Some (754 mod 60)].
Proof.
  split; [lia|]. apply (formatDuration_reads_back 754). lia.
Defined.

(** ** Time slots of the grid *)

Lemma timeSlots_lookup (i : nat) (s : Slot.t) :
  timeSlots !! i = Some s
  ↔ (i < 36)%nat
    ∧ s = {| Slot.h := START_HOUR + Z.of_nat i / 2;
             Slot.m := 30 * (Z.of_nat i mod 2) |}.
Proof.
  assert (E : timeSlots
              = (λ i : nat, {| Slot.h := START_HOUR + Z.of_nat i / 2;
                               Slot.m := 30 * (Z.of_nat i mod 2) |}) <$> seq 0 36)
    by (vm_compute; reflexivity).
  rewrite E, list_lookup_fmap.
  destruct (decide (i < 36)%nat) as [Hi|Hi].
  - rewrite lookup_seq_lt by done. simpl. split.
    + intros [= <-]. done.
    + intros [_ ->]. done.
  - rewrite lookup_seq_ge by lia. simpl. split; [done|]. intros [? _]. lia.
Qed.

(** X2. The shading of the grid rows agrees with the table of day
    periods: every time slot of the grid lies between [START_HOUR] and
    [END_HOUR], and the period that [getPeriod] gives for its hour is the
    one whose range of hours in [PERIODS] contains that hour. *)
Theorem getPeriod_within_PERIODS (s : Slot.t) :
  s ∈ timeSlots →
  START_HOUR ≤ Slot.h s ≤ END_HOUR
  ∧ PeriodInfo.start (PERIODS (getPeriod (Slot.h s))) ≤ Slot.h s
    < PeriodInfo.end' (PERIODS (getPeriod (Slot.h s))).
Proof.
  intros (i & Hi)%list_elem_of_lookup.
  apply timeSlots_lookup in Hi as [Hi ->]. cbn [Slot.h].
  unfold START_HOUR, END_HOUR.
  assert (0 ≤ Z.of_nat i / 2 ≤ 17) by (Z.to_euclidean_division_equations; lia).
  split; [lia|].
  unfold getPeriod.
  destruct (Z.ltb_spec (6 + Z.of_nat i / 2) 12); [cbn; lia|].
  destruct (Z.ltb_spec (6 + Z.of_nat i / 2) 18); cbn; lia.
Qed.

Lemma getPeriod_within_PERIODS_witness :
  {| Slot.h := 18; Slot.m := 30 |} ∈ timeSlots
  ∧ PeriodInfo.start (PERIODS (getPeriod 18)) ≤ 18
    < PeriodInfo.end' (PERIODS (getPeriod 18)).
Proof.
  assert (H : {| Slot.h := 18; Slot.m := 30 |} ∈ timeSlots).
  { apply list_elem_of_lookup. exists 25%nat. reflexivity. }
  split; [exact H|].
  exact (proj2 (getPeriod_within_PERIODS {| Slot.h := 18; Slot.m := 30 |} H)).
Defined.

Lemma slot_quotient (i duration : Z) :
  (inject_Z ((START_HOUR + i / 2 - START_HOUR) * 60 + 30 * (i mod 2)) / 30
   * inject_Z SLOT_HEIGHT_REM == inject_Z (SLOT_HEIGHT_REM * i))%Q
  ∧ (inject_Z duration / 30 * inject_Z SLOT_HEIGHT_REM * 15 == inject_Z duration)%Q.
Proof.
  assert (E : (START_HOUR + i / 2 - START_HOUR) * 60 + 30 * (i mod 2) = 30 * i)
    by (Z.to_euclidean_division_equations; lia).
  rewrite E. unfold SLOT_HEIGHT_REM.
  split; unfold Qeq, Qdiv, Qmult, Qinv, inject_Z; cbn [Qnum Qden]; lia.
Qed.

(** X3. A task whose start time is the text written for the grid slot
    of index [i] (as the drop and double-click handlers of that slot
    write it) is drawn with its top edge exactly at the top of row [i]
    of its column, each row being [SLOT_HEIGHT_REM] high; its height is
    one rem for each fifteen minutes of its duration. *)
Theorem taskPlacement_at_slot (i : nat) (s : Slot.t) (task : Task)
    (duration : Z) :
  timeSlots !! i = Some s →
  prop task "startTime" = VStr (timeString (Slot.h s) (Slot.m s)) →
  prop task "duration" = VNum duration →
  ∃ topPos height : Q,
    taskPlacement task = Some (topPos, height)
    ∧ (topPos == inject_Z (SLOT_HEIGHT_REM * Z.of_nat i))%Q
    ∧ (height * 15 == inject_Z duration)%Q.
Proof.
  intros [Hi ->]%timeSlots_lookup Hstart Hdur. cbn [Slot.h Slot.m] in Hstart.
  assert (Hh : 0 ≤ START_HOUR + Z.of_nat i / 2 < 100)
    by (unfold START_HOUR; Z.to_euclidean_division_equations; lia).
  assert (Hm : 0 ≤ 30 * (Z.of_nat i mod 2))
    by (Z.to_euclidean_division_equations; lia).
  unfold taskPlacement. rewrite Hstart, Hdur.
  pose proof (timeString_parse _ _ (proj1 Hh) Hm) as Hparse.
  destruct (timeString _ _) as [|a s'] eqn:Ets.
  { exfalso. unfold timeString in Ets.
    destruct (pad2_shape _ Hh) as (c1 & c2 & Epad). by rewrite Epad in Ets. }
  rewrite Hparse. cbv zeta.
  eexists _, _. split; [reflexivity|].
  apply slot_quotient.
Qed.

Lemma taskPlacement_at_slot_witness :
  timeSlots !! 3%nat = Some {| Slot.h := 7; Slot.m := 30 |}
  ∧ ∃ topPos height : Q,
      taskPlacement task_at_0730 = Some (topPos, height)
      ∧ (topPos == inject_Z (SLOT_HEIGHT_REM * Z.of_nat 3))%Q
      ∧ (height * 15 == inject_Z 45)%Q.
Proof.
  split; [reflexivity|].
  apply (taskPlacement_at_slot 3 {| Slot.h := 7; Slot.m := 30 |} task_at_0730 45);
    reflexivity.
Defined.

(** ** Sessions of the timer *)

Section TimerSessions.
Variable LocalTZA : Z.

Lemma toggleTimer_start now g st :
  (∀ timer, activeTimer st = Some timer → goalId timer ≠ g) →
  toggleTimer now g st
  = setTimerDisplay 0
      (setActiveTimer
         (Some {| goalId := g; startTime := now; accumulated := 0;
                  isRunning := true |}) st).
Proof.
  intros Hg. unfold toggleTimer.
  destruct (activeTimer st) as [timer|] eqn:Ht; [|done].
  rewrite bool_decide_eq_false_2; [done|]. by apply Hg.
Qed.

Lemma tasks_toggleTimer now g st : tasks (toggleTimer now g st) = tasks st.
Proof.
  unfold toggleTimer. destruct (activeTimer st) as [timer|]; [|done].
  destruct (bool_decide _); [|done]. by destruct (isRunning timer).
Qed.

Lemma getHours_range d : 0 ≤ getHours LocalTZA d ≤ 23.
Proof. unfold getHours, HourFromTime. Z.to_euclidean_division_equations. lia. Qed.

Lemma getCurrentDayIndex_range d : 0 ≤ getCurrentDayIndex LocalTZA d ≤ 6.
Proof.
  unfold getCurrentDayIndex.
  pose proof (getDay_range LocalTZA d).
  rewrite Z.rem_mod_nonneg by lia. Z.to_euclidean_division_equations. lia.
Qed.

Lemma timeSlots_at (h : Z) (half : bool) :
  START_HOUR ≤ h ≤ END_HOUR →
  timeSlots !! Z.to_nat (2 * (h - START_HOUR) + (if half then 1 else 0))
  = Some {| Slot.h := h; Slot.m := if half then 30 else 0 |}.
Proof.
  unfold START_HOUR, END_HOUR. intros Hh.
  apply timeSlots_lookup. split; [destruct half; lia|].
  rewrite Z2Nat.id by (destruct half; lia).
  unfold START_HOUR. f_equal; destruct half; Z.to_euclidean_division_equations; lia.
Qed.

Lemma timeString_half (h : Z) (b : bool) :
  padStart 2 "0" (toString h) +:+ ":" +:+ (if b then "00" else "30")
  = timeString h (if b then 0 else 30).
Proof. by destruct b. Qed.

(** X4. A whole session of the timer.  From a state with no timer on
    goal [g]: starting at [t0], pausing at [t1], resuming at [t2] and
    stopping at [t3] leaves the timer idle and logs the whole seconds of
    the two running intervals, [(t1 - t0) / 1000 + (t3 - t2) / 1000]; the
    time between pause and resume is not counted.  When that total is
    positive exactly one completed task is appended, of the rounded
    duration; otherwise the tasks are unchanged.  Since each interval is
    cut to whole seconds on its own, the logged total can fall one second
    short of the whole seconds of the two intervals together, and never
    more. *)
Theorem timer_session_total (t0 t1 t2 t3 now today : Z) (newId g : string)
    (st : AppState) :
  (∀ timer, activeTimer st = Some timer → goalId timer ≠ g) →
  let started := toggleTimer t0 g st in
  let paused := toggleTimer t1 g started in
  let resumed := toggleTimer t2 g paused in
  let stopped := stopTimer LocalTZA t3 now today newId g resumed in
  let total := (t1 - t0) / 1000 + (t3 - t2) / 1000 in
  activeTimer paused
  = Some {| goalId := g; startTime := t0; accumulated := (t1 - t0) / 1000;
            isRunning := false |}
  ∧ activeTimer resumed
    = Some {| goalId := g; startTime := t2; accumulated := (t1 - t0) / 1000;
              isRunning := true |}
  ∧ activeTimer stopped = None
  ∧ (total ≤ 0 → tasks stopped = tasks st)
  ∧ (0 < total →
     ∃ task : Task,
       tasks stopped = tasks st ++ [task]
       ∧ prop task "duration" = VNum (roundedMinutes total)
       ∧ prop task "isCompleted" = VBool true)
  ∧ total ≤ ((t1 - t0) + (t3 - t2)) / 1000 ≤ total + 1.
Proof.
  intros Hg started paused resumed stopped total.
  assert (Epaused : activeTimer paused
                    = Some {| goalId := g; startTime := t0;
                              accumulated := (t1 - t0) / 1000;
                              isRunning := false |}).
  { unfold paused, started. rewrite (toggleTimer_start _ _ _ Hg).
    unfold toggleTimer. cbn [activeTimer setTimerDisplay setActiveTimer goalId isRunning].
    rewrite bool_decide_eq_true_2 by done.
    cbn [activeTimer setActiveTimer startTime accumulated].
    change 1000%Q with (inject_Z 1000). rewrite Math_floor_div by lia.
    by rewrite Z.add_0_l. }
  assert (Eresumed : activeTimer resumed
                     = Some {| goalId := g; startTime := t2;
                               accumulated := (t1 - t0) / 1000;
                               isRunning := true |}).
  { unfold resumed, toggleTimer. rewrite Epaused.
    cbn [goalId isRunning]. rewrite bool_decide_eq_true_2 by done.
    reflexivity. }
  assert (Etasks : tasks resumed = tasks st).
  { unfold resumed, paused, started. by rewrite !tasks_toggleTimer. }
  pose proof (stopTimer_active LocalTZA t3 now today newId resumed _ Eresumed) as Estop.
  cbn [goalId] in Estop. fold stopped in Estop.
  assert (Etotal : totalSecondsAt t3 {| goalId := g; startTime := t2;
                                        accumulated := (t1 - t0) / 1000;
                                        isRunning := true |} = total) by reflexivity.
  rewrite Etotal in Estop. cbv zeta in Estop.
  split; [exact Epaused|]. split; [exact Eresumed|].
  destruct (Z.ltb_spec 0 total) as [Hpos|Hle].
  - rewrite Estop. split; [reflexivity|]. split; [lia|]. split.
    + intros _. eexists. split.
      { unfold createTaskFromGoal. cbn [tasks setTasks setTimerDisplay setActiveTimer].
        rewrite Etasks. reflexivity. }
      split; reflexivity.
    + unfold total. Z.to_euclidean_division_equations. lia.
  - rewrite Estop. split; [reflexivity|]. split.
    + intros _. cbn [tasks setTimerDisplay setActiveTimer]. exact Etasks.
    + split; [lia|]. unfold total. Z.to_euclidean_division_equations. lia.
Qed.

(** X5. While a timer runs, the seconds shown by the one-second tick
    at instant [n] are the accumulated seconds plus the whole seconds
    since the last start; they never decrease as the clock advances; and
    they are exactly the total that stopping at the same instant logs:
    when positive, stop appends one task of the duration rounded from the
    shown seconds. *)
Theorem timerInterval_shows_logged_total (n now today : Z) (newId : string)
    (st : AppState) (timer : TimerState) :
  activeTimer st = Some timer → isRunning timer = true →
  let shown := timerDisplay (timerInterval n st) in
  shown = accumulated timer + (n - startTime timer) / 1000
  ∧ (∀ n', n ≤ n' → shown ≤ timerDisplay (timerInterval n' st))
  ∧ (0 < shown →
     ∃ task : Task,
       tasks (stopTimer LocalTZA n now today newId (goalId timer)
                (timerInterval n st))
       = tasks st ++ [task]
       ∧ prop task "duration" = VNum (roundedMinutes shown)).
Proof.
  intros Ht Hrun shown.
  assert (Eshown : ∀ k, timerDisplay (timerInterval k st)
                        = accumulated timer + (k - startTime timer) / 1000).
  { intros k. unfold timerInterval. rewrite Ht, Hrun.
    change 1000%Q with (inject_Z 1000). by rewrite Math_floor_div by lia. }
  assert (Etimer : activeTimer (timerInterval n st) = Some timer).
  { unfold timerInterval. by rewrite Ht, Hrun. }
  assert (Etasks : tasks (timerInterval n st) = tasks st).
  { unfold timerInterval. by rewrite Ht, Hrun. }
  split; [apply Eshown|]. split.
  - intros n' Hn. unfold shown. rewrite !Eshown.
    Z.to_euclidean_division_equations. lia.
  - intros Hpos.
    rewrite (stopTimer_active LocalTZA _ _ _ _ _ _ Etimer). cbv zeta.
    assert (Etotal : totalSecondsAt n timer = shown).
    { unfold shown. rewrite Eshown. unfold totalSecondsAt. by rewrite Hrun. }
    rewrite Etotal.
    destruct (Z.ltb_spec 0 shown) as [_|]; [|lia].
    eexists. split.
    { unfold createTaskFromGoal. cbn [tasks setTasks setTimerDisplay setActiveTimer].
      rewrite Etasks. reflexivity. }
    reflexivity.
Qed.

(** X6. The task logged by stopping a timer always lies on the grid:
    whenever a positive total is logged, the start time of the new task
    is the text of one of the time slots of the grid (also when the
    session began before [START_HOUR]), and its day index is a column of
    the grid. *)
Theorem stopTimer_task_on_grid (nowMs now today : Z) (newId : string)
    (st : AppState) (timer : TimerState) :
  activeTimer st = Some timer →
  0 < totalSecondsAt nowMs timer →
  ∃ (task : Task) (i : nat) (s : Slot.t) (dayIndex : Z),
    tasks (stopTimer LocalTZA nowMs now today newId (goalId timer) st)
    = tasks st ++ [task]
    ∧ timeSlots !! i = Some s
    ∧ prop task "startTime" = VStr (timeString (Slot.h s) (Slot.m s))
    ∧ prop task "dayIndex" = VNum dayIndex
    ∧ 0 ≤ dayIndex < Z.of_nat (length DAYS_OF_WEEK).
Proof.
  intros Ht Hpos.
  rewrite (stopTimer_active LocalTZA _ _ _ _ _ _ Ht). cbv zeta.
  destruct (Z.ltb_spec 0 (totalSecondsAt nowMs timer)) as [_|]; [|lia].
  set (start := now - totalSecondsAt nowMs timer * 1000).
  pose proof (getHours_range start) as Hh.
  pose proof (getCurrentDayIndex_range today) as Hd.
  set (half := negb (getMinutes LocalTZA start <? 30)).
  assert (Hslot := timeSlots_at (Z.max START_HOUR (getHours LocalTZA start)) half
                     ltac:(unfold START_HOUR, END_HOUR; lia)).
  eexists _, _, _, _. split; [reflexivity|].
  split; [exact Hslot|]. cbn [Slot.h Slot.m].
  split; [|split; [reflexivity|]].
  - unfold prop, createTaskFromGoal. cbn [tasks setTasks].
    unfold half. destruct (getMinutes LocalTZA start <? 30); reflexivity.
  - change (Z.of_nat (length DAYS_OF_WEEK)) with 7. lia.
Qed.

(** X7. [addTaskToToday] appends one task for the goal, thirty minutes
    long and not completed, on a column of the grid and on one of its
    time slots, and closes the side bar.  The slot is never in the last
    hour of the grid: before [START_HOUR], and from [END_HOUR] on, the
    task is placed in the hour [START_HOUR]. *)
Theorem addTaskToToday_on_grid (today now : Z) (newId : string)
    (goal : Goal.t) (st : AppState) :
  let st' := addTaskToToday LocalTZA today now newId goal st in
  ∃ (task : Task) (i : nat) (s : Slot.t) (dayIndex : Z),
    tasks st' = tasks st ++ [task]
    ∧ isSidebarOpen st' = false
    ∧ timeSlots !! i = Some s
    ∧ prop task "startTime" = VStr (timeString (Slot.h s) (Slot.m s))
    ∧ Slot.h s < END_HOUR
    ∧ (getHours LocalTZA now < START_HOUR ∨ END_HOUR ≤ getHours LocalTZA now →
       Slot.h s = START_HOUR)
    ∧ (START_HOUR ≤ getHours LocalTZA now < END_HOUR →
       Slot.h s = getHours LocalTZA now)
    ∧ prop task "dayIndex" = VNum dayIndex
    ∧ 0 ≤ dayIndex < Z.of_nat (length DAYS_OF_WEEK)
    ∧ prop task "title" = VStr (Goal.text goal)
    ∧ prop task "color" = VStr (Goal.color goal)
    ∧ prop task "duration" = VNum 30
    ∧ prop task "isCompleted" = VBool false.
Proof.
  cbv zeta. unfold addTaskToToday. cbv zeta.
  pose proof (getHours_range now) as Hh.
  pose proof (getCurrentDayIndex_range today) as Hd.
  set (h1 := if getHours LocalTZA now <? START_HOUR then START_HOUR
             else getHours LocalTZA now).
  set (h2 := if END_HOUR <=? h1 then START_HOUR else h1).
  assert (Hh2 : START_HOUR ≤ h2 < END_HOUR
                ∧ (getHours LocalTZA now < START_HOUR ∨ END_HOUR ≤ getHours LocalTZA now →
                   h2 = START_HOUR)
                ∧ (START_HOUR ≤ getHours LocalTZA now < END_HOUR →
                   h2 = getHours LocalTZA now)).
  { unfold h2, h1, START_HOUR, END_HOUR.
    destruct (Z.ltb_spec (getHours LocalTZA now) 6);
      repeat match goal with |- context [Z.leb ?a ?b] => destruct (Z.leb_spec a b) end;
      lia. }
  destruct Hh2 as (Hr & Hout & Hin).
  set (half := negb (getMinutes LocalTZA now <? 30)).
  assert (Hslot := timeSlots_at h2 half ltac:(lia)).
  eexists _, _, _, _. split; [reflexivity|]. split; [reflexivity|].
  split; [exact Hslot|]. cbn [Slot.h Slot.m].
  split.
  { unfold prop, createTaskFromGoal. cbn [tasks setTasks].
    unfold half. destruct (getMinutes LocalTZA now <? 30); reflexivity. }
  split; [lia|]. split; [exact Hout|]. split; [exact Hin|].
  split; [reflexivity|].
  split; [change (Z.of_nat (length DAYS_OF_WEEK)) with 7; lia|].
  repeat split; reflexivity.
Qed.

End TimerSessions.

Lemma timer_session_total_witness :
  (∀ timer, activeTimer state_goal_g1 = Some timer → goalId timer ≠ "g1")
  ∧ ∃ task : Task,
      tasks (stopTimer 0 40000 40000 40000 "t1" "g1"
               (toggleTimer 20000 "g1"
                  (toggleTimer 10000 "g1" (toggleTimer 0 "g1" state_goal_g1))))
      = tasks state_goal_g1 ++ [task]
      ∧ prop task "duration" = VNum (roundedMinutes (10 + 20)).
Proof.
  assert (H : ∀ timer, activeTimer state_goal_g1 = Some timer → goalId timer ≠ "g1")
    by (intros timer; discriminate).
  split; [exact H|].
  destruct (timer_session_total 0 0 10000 20000 40000 40000 40000 "t1" "g1"
              state_goal_g1 H) as (_ & _ & _ & _ & Hpos & _).
  destruct (Hpos ltac:(reflexivity)) as (task & E1 & E2 & _).
  exists task. split; [exact E1 | exact E2].
Defined.

Lemma timerInterval_shows_logged_total_witness :
  activeTimer state_timing_g1 = Some timer_g1
  ∧ isRunning timer_g1 = true
  ∧ timerDisplay (timerInterval 95500 state_timing_g1)
    = accumulated timer_g1 + (95500 - startTime timer_g1) / 1000.
Proof.
  split; [reflexivity|]. split; [reflexivity|].
  exact (proj1 (timerInterval_shows_logged_total 0 95500 95500 95500 "t1"
                  state_timing_g1 timer_g1 eq_refl eq_refl)).
Defined.

Lemma stopTimer_task_on_grid_witness :
  activeTimer state_timing_g1 = Some timer_g1
  ∧ 0 < totalSecondsAt 90000 timer_g1
  ∧ ∃ (task : Task) (i : nat) (s : Slot.t) (dayIndex : Z),
      tasks (stopTimer 0 90000 90000 90000 "t1" (goalId timer_g1) state_timing_g1)
      = tasks state_timing_g1 ++ [task]
      ∧ timeSlots !! i = Some s
      ∧ prop task "startTime" = VStr (timeString (Slot.h s) (Slot.m s))
      ∧ prop task "dayIndex" = VNum dayIndex
      ∧ 0 ≤ dayIndex < Z.of_nat (length DAYS_OF_WEEK).
Proof.
  split; [reflexivity|]. split; [reflexivity|].
  apply (stopTimer_task_on_grid 0 90000 90000 90000 "t1" state_timing_g1 timer_g1);
    reflexivity.
Defined.

(** ** Drag and drop, deletion and the task dialog *)

Section TaskHandlers.

Lemma strictEq_true a b : strictEq a b = true ↔ a = b.
Proof. unfold strictEq. apply bool_decide_eq_true. Qed.

Lemma strictEq_false a b : strictEq a b = false ↔ a ≠ b.
Proof. unfold strictEq. apply bool_decide_eq_false. Qed.

(** X8. Dropping a dragged task on a grid cell moves that task and
    nothing else: the positions and the number of the tasks are kept, a
    task with another id is unchanged, and a task with the dragged id
    gets the cell's day index and time text while all its other
    properties are kept.  The goals are unchanged, the drag reference is
    cleared and the side bar is closed. *)
Theorem handleDropOnGrid_moves_task (newId : string)
    (dayIndex hour minute : Z) (taskId : JSVal) (st : AppState) :
  let r := handleDropOnGrid newId dayIndex hour minute
             (st, handleTaskDragStart taskId) in
  r.2 = None
  ∧ isSidebarOpen r.1 = false
  ∧ goals r.1 = goals st
  ∧ length (tasks r.1) = length (tasks st)
  ∧ ∀ (k : nat) (t : Task), tasks st !! k = Some t →
      ∃ t' : Task,
        tasks r.1 !! k = Some t'
        ∧ (prop t "id" ≠ taskId → t' = t)
        ∧ (prop t "id" = taskId →
           prop t' "dayIndex" = VNum dayIndex
           ∧ prop t' "startTime" = VStr (timeString hour minute)
           ∧ ∀ key, key ≠ "dayIndex" → key ≠ "startTime" →
                    t' !! key = t !! key).
Proof.
  cbv zeta. unfold handleDropOnGrid, handleTaskDragStart.
  cbn [DragItem.type DragItem.id fst snd tasks goals isSidebarOpen
       setIsSidebarOpen setTasks].
  split; [done|]. split; [done|]. split; [done|].
  split; [by rewrite length_map|].
  intros k t Hk. rewrite list_lookup_fmap, Hk. cbn [fmap option_fmap option_map].
  eexists. split; [reflexivity|].
  destruct (strictEq (prop t "id") taskId) eqn:E.
  - apply strictEq_true in E. split; [done|]. intros _.
    unfold prop. split; [|split].
    + rewrite lookup_insert_ne by done. by rewrite lookup_insert_eq.
    + by rewrite lookup_insert_eq.
    + intros key H1 H2. by rewrite !lookup_insert_ne.
  - apply strictEq_false in E. split; [done|]. intros ?. done.
Qed.

Lemma find_first {A} (f : A → bool) (l : list A) (k : nat) (x : A) :
  l !! k = Some x → f x = true →
  (∀ j y, (j < k)%nat → l !! j = Some y → f y = false) →
  List.find f l = Some x.
Proof.
  revert k. induction l as [|a l IH]; intros k Hk Hx Hfirst; [done|].
  destruct k as [|k].
  - injection Hk as ->. cbn. by rewrite Hx.
  - cbn. rewrite (Hfirst 0%nat a) by (done || lia).
    apply (IH k); [done|done|].
    intros j y Hj Hy. apply (Hfirst (S j)); [lia|done].
Qed.

Lemma find_none {A} (f : A → bool) (l : list A) :
  (∀ x, x ∈ l → f x = false) → List.find f l = None.
Proof.
  induction l as [|a l IH]; intros H; [done|].
  cbn. rewrite (H a) by left. apply IH. intros x Hx. apply H. by right.
Qed.

(** X9. Dropping a dragged goal on a grid cell copies it: the first
    goal with the dragged id gives one new task at the end of the list,
    with the generated id, the goal's text and colour, the cell's day
    index and time text, a duration of 30 minutes and not completed; the
    goal itself stays in the list.  When no goal has the dragged id the
    tasks are unchanged.  In both cases the drag reference is cleared and
    the side bar closed; a drop while nothing is dragged changes
    nothing. *)
Theorem handleDropOnGrid_copies_goal (newId : string)
    (dayIndex hour minute : Z) (goalId' : string) (st : AppState) :
  let r := handleDropOnGrid newId dayIndex hour minute
             (st, handleGoalDragStart goalId') in
  r.2 = None
  ∧ isSidebarOpen r.1 = false
  ∧ goals r.1 = goals st
  ∧ ((∀ g, g ∈ goals st → Goal.id g ≠ goalId') → tasks r.1 = tasks st)
  ∧ (∀ (k : nat) (goal : Goal.t),
       goals st !! k = Some goal → Goal.id goal = goalId' →
       (∀ j g, (j < k)%nat → goals st !! j = Some g → Goal.id g ≠ goalId') →
       ∃ task : Task,
         tasks r.1 = tasks st ++ [task]
         ∧ prop task "id" = VStr newId
         ∧ prop task "title" = VStr (Goal.text goal)
         ∧ prop task "color" = VStr (Goal.color goal)
         ∧ prop task "dayIndex" = VNum dayIndex
         ∧ prop task "startTime" = VStr (timeString hour minute)
         ∧ prop task "duration" = VNum 30
         ∧ prop task "isCompleted" = VBool false)
  ∧ handleDropOnGrid newId dayIndex hour minute (st, None) = (st, None).
Proof.
  cbv zeta. unfold handleDropOnGrid, handleGoalDragStart.
  cbn [DragItem.type DragItem.id fst snd].
  split; [done|]. split; [done|].
  split.
  { destruct (List.find _ (goals st)); reflexivity. }
  split; [|split; [|done]].
  - intros Hno. rewrite find_none; [done|].
    intros g Hg. apply strictEq_false. intros [= E]. by apply (Hno g).
  - intros k goal Hk Hid Hfirst.
    rewrite (find_first _ _ k goal Hk).
    + eexists. split; [reflexivity|]. repeat split; reflexivity.
    + apply strictEq_true. by rewrite Hid.
    + intros j g Hj Hg. apply strictEq_false. intros [= E]. by apply (Hfirst j g).
Qed.

Lemma filter_filter_bool {A} (f : A → bool) (l : list A) :
  List.filter f (List.filter f l) = List.filter f l.
Proof.
  induction l as [|a l IH]; [done|].
  cbn. destruct (f a) eqn:E; [|done]. cbn. by rewrite E, IH.
Qed.

Lemma filter_bool_all {A} (f : A → bool) (l : list A) :
  (∀ x, x ∈ l → f x = true) → List.filter f l = l.
Proof.
  induction l as [|a l IH]; intros H; [done|].
  cbn. rewrite (H a) by left. f_equal. apply IH. intros x Hx. apply H. by right.
Qed.

Lemma filter_bool_sublist {A} (f : A → bool) (l : list A) :
  List.filter f l `sublist_of` l.
Proof.
  induction l as [|a l IH]; [done|].
  cbn. destruct (f a); [by apply sublist_skip|by apply sublist_cons].
Qed.

(** X10. Deleting a task removes exactly the tasks that have the given
    id: the tasks that remain are those with another id, in their former
    order; when no task has the id the list is unchanged; the delete
    button of a task card does the same.  In particular, a task that was
    just saved as new under a fresh id is removed again by deleting that
    id, which restores the former list. *)
Theorem handleDeleteTask_removes_exactly (taskId : JSVal) (st : AppState) :
  let st' := handleDeleteTask taskId st in
  (∀ t, t ∈ tasks st' ↔ t ∈ tasks st ∧ prop t "id" ≠ taskId)
  ∧ tasks st' `sublist_of` tasks st
  ∧ ((∀ t, t ∈ tasks st → prop t "id" ≠ taskId) → tasks st' = tasks st)
  ∧ onDelete taskId st = st'
  ∧ (∀ (newId : string) (taskData : Task),
       taskId = VStr newId →
       truthy (prop taskData "id") = false →
       (∀ t, t ∈ tasks st → prop t "id" ≠ VStr newId) →
       tasks (handleDeleteTask taskId (handleSaveTask newId taskData st))
       = tasks st).
Proof.
  cbv zeta. unfold handleDeleteTask, onDelete. cbn [tasks setTasks].
  split; [|split; [|split; [|split; [done|]]]].
  - intros t. rewrite list_elem_of_In, filter_In, <- list_elem_of_In.
    rewrite negb_true_iff, strictEq_false. done.
  - apply filter_bool_sublist.
  - intros Hno. apply filter_bool_all. intros t Ht.
    apply negb_true_iff, strictEq_false. by apply Hno.
  - intros newId taskData -> Hid Hfresh.
    unfold handleSaveTask. rewrite Hid. cbn [tasks setTasks].
    rewrite List.filter_app. cbn [List.filter].
    replace (negb (strictEq (prop (<["isCompleted":=VBool false]> (<["id":=VStr newId]> taskData)) "id") (VStr newId)))
      with false.
    + rewrite app_nil_r. apply filter_bool_all. intros t Ht.
      apply negb_true_iff, strictEq_false. by apply Hfresh.
    + symmetry. apply negb_false_iff, strictEq_true. unfold prop.
      rewrite lookup_insert_ne by done. by rewrite lookup_insert_eq.
Qed.

Lemma insert_present (t : Task) (k : string) :
  prop t k ≠ VUndefined → <[k := prop t k]> t = t.
Proof.
  unfold prop. intros H. apply insert_id.
  destruct (t !! k); [done|]. by destruct H.
Qed.

Lemma jsOr_truthy a b : truthy a = true → jsOr a b = a.
Proof. unfold jsOr. by intros ->. Qed.

Lemma truthy_defined v : truthy v = true → v ≠ VUndefined.
Proof. by intros H ->. Qed.

Lemma openEffect_superset (pick : Z) (initialData formData : Task) (key : string) :
  TaskModal.openEffect pick true (Some initialData) formData !! key = None →
  initialData !! key = None.
Proof.
  unfold TaskModal.openEffect.
  intros H.
  apply lookup_insert_None in H as [H _].
  apply lookup_insert_None in H as [H _].
  by apply lookup_insert_None in H as [H _].
Qed.

(** X11. Opening a task in the dialog and saving it.  The form starts
    from the task with three defaults filled in: a missing (or empty)
    colour becomes a palette colour, a missing (or zero) duration becomes
    30, and a missing (or null) day index becomes 0.  When the task's id
    is truthy and no other task shares it, saving the untouched form
    replaces the task by exactly that form and leaves every other task
    as it is; so a task that has a colour, a duration and a day index is
    unchanged by opening and saving it, and the dialog is closed. *)
Theorem edit_and_save_unchanged (pick : Z) (newId : string) (k : nat)
    (task : Task) (st : AppState) :
  tasks st !! k = Some task →
  truthy (prop task "id") = true →
  (∀ j t, tasks st !! j = Some t → prop t "id" = prop task "id" → j = k) →
  let opened := handleTaskClick task st in
  let form := TaskModal.openEffect pick (isTaskModalOpen opened)
                (editingTask opened) TaskModal.initialFormData in
  let saved := TaskModal.handleSubmit newId form opened in
  TaskModal.isNew opened = false
  ∧ isTaskModalOpen saved = false
  ∧ tasks saved = <[k := form]> (tasks st)
  ∧ prop form "color" = jsOr (prop task "color") (colorAt pick)
  ∧ prop form "duration" = jsOr (prop task "duration") (VNum 30)
  ∧ (∀ key, key ≠ "color" → key ≠ "duration" → key ≠ "dayIndex" →
            form !! key = task !! key)
  ∧ (truthy (prop task "color") = true →
     truthy (prop task "duration") = true →
     prop task "dayIndex" ≠ VNull → prop task "dayIndex" ≠ VUndefined →
     tasks saved = tasks st).
Proof.
  intros Hk Hid Huniq opened form saved.
  assert (Eform : form = TaskModal.openEffect pick true (Some task)
                           TaskModal.initialFormData) by reflexivity.
  assert (Hformid : prop form "id" = prop task "id").
  { rewrite Eform. unfold TaskModal.openEffect, prop.
    by rewrite !lookup_insert_ne. }
  assert (Etasks : tasks saved = <[k := form]> (tasks st)).
  { unfold saved, TaskModal.handleSubmit, handleSaveTask.
    rewrite Hformid, Hid. cbn [tasks setTasks setIsTaskModalOpen].
    change (tasks opened) with (tasks st).
    apply list_eq. intros j. rewrite list_lookup_fmap.
    destruct (decide (j = k)) as [->|Hj].
    - rewrite Hk. cbn [fmap option_fmap option_map].
      rewrite list_lookup_insert_eq by (by apply lookup_lt_Some in Hk).
      unfold strictEq. rewrite bool_decide_eq_true_2 by done.
      f_equal. apply map_eq. intros key. rewrite spread_lookup.
      destruct (form !! key) eqn:E; [done|].
      rewrite Eform in E. by apply openEffect_superset in E.
    - rewrite list_lookup_insert_ne by done.
      destruct (tasks st !! j) as [t|] eqn:Ht; [|done].
      cbn [fmap option_fmap option_map]. unfold strictEq.
      rewrite bool_decide_eq_false_2; [done|].
      intros E. apply Hj. by apply (Huniq j t). }
  split.
  { change (TaskModal.isNew opened) with (negb (truthy (prop task "id"))).
    by rewrite Hid. }
  split; [done|]. split; [exact Etasks|].
  split.
  { rewrite Eform. unfold TaskModal.openEffect, prop at 1.
    rewrite !lookup_insert_ne by done. by rewrite lookup_insert_eq. }
  split.
  { rewrite Eform. unfold TaskModal.openEffect, prop at 1.
    rewrite lookup_insert_ne by done. by rewrite lookup_insert_eq. }
  split.
  { intros key H1 H2 H3. rewrite Eform. unfold TaskModal.openEffect.
    by rewrite !lookup_insert_ne. }
  intros Hc Hd Hn Hu. rewrite Etasks.
  assert (E : form = task).
  { rewrite Eform. unfold TaskModal.openEffect.
    rewrite !jsOr_truthy by done.
    unfold strictEq. rewrite !bool_decide_eq_false_2 by done.
    cbn [negb andb].
    rewrite (insert_present task "color") by by apply truthy_defined.
    rewrite (insert_present task "duration") by by apply truthy_defined.
    by rewrite (insert_present task "dayIndex"). }
  rewrite E. by apply list_insert_id.
Qed.

(** X12. Creating a task from the grid.  Double-clicking a cell opens
    the dialog for a new task; after the title is typed and the form is
    saved, exactly one task is appended to the list: it has the generated
    id, the typed title, the cell's day index and time text, a duration
    of 30 minutes, a colour, and is not completed; the existing tasks are
    unchanged and the dialog is closed. *)
Theorem grid_click_then_save_creates_task (pick pick' : Z)
    (dayIndex hour minute : Z) (title newId : string) (st : AppState) :
  let opened := handleGridClick pick dayIndex hour minute st in
  let form := TaskModal.openEffect pick' (isTaskModalOpen opened)
                (editingTask opened) TaskModal.initialFormData in
  let typed := TaskModal.handleChange "title" (VStr title) form in
  let saved := TaskModal.handleSubmit newId typed opened in
  isTaskModalOpen opened = true
  ∧ TaskModal.isNew opened = true
  ∧ isTaskModalOpen saved = false
  ∧ ∃ task : Task,
      tasks saved = tasks st ++ [task]
      ∧ prop task "id" = VStr newId
      ∧ prop task "title" = VStr title
      ∧ prop task "dayIndex" = VNum dayIndex
      ∧ prop task "startTime" = VStr (timeString hour minute)
      ∧ prop task "duration" = VNum 30
      ∧ prop task "isCompleted" = VBool false
      ∧ prop task "color" = jsOr (colorAt pick) (colorAt pick').
Proof.
  cbv zeta. split; [done|]. split; [done|]. split; [done|].
  unfold TaskModal.handleSubmit, handleSaveTask.
  replace (truthy (prop _ "id")) with false by reflexivity.
  eexists. split; [reflexivity|].
  repeat split; try reflexivity.
Qed.

(** X13. The completion toggles undo themselves.  Toggling a goal
    twice restores the list of goals.  Toggling the tasks of an id twice
    restores the task list, provided each task of that id carries a
    boolean completion flag. *)
Theorem completion_toggles_twice (id' : JSVal) (goalId' : string)
    (st : AppState) :
  (∀ t, t ∈ tasks st → prop t "id" = id' →
        ∃ b : bool, t !! "isCompleted" = Some (VBool b)) →
  tasks (onToggleComplete id' (onToggleComplete id' st)) = tasks st
  ∧ goals (toggleGoal goalId' (toggleGoal goalId' st)) = goals st
  ∧ goals (onToggleComplete id' st) = goals st
  ∧ tasks (toggleGoal goalId' st) = tasks st.
Proof.
  intros Hbool. split; [|split; [|done]].
  - unfold onToggleComplete. cbn [tasks setTasks].
    rewrite map_map. rewrite <- (map_id (tasks st)) at 2.
    apply map_ext_in. intros t Ht%list_elem_of_In.
    destruct (strictEq (prop t "id") id') eqn:E.
    + assert (E' : strictEq (prop (<["isCompleted" := VBool (negb (truthy (prop t "isCompleted")))]> t) "id") id' = true).
      { unfold prop at 1. by rewrite lookup_insert_ne. }
      rewrite E'. apply strictEq_true in E.
      destruct (Hbool t Ht E) as (b & Hb).
      unfold prop. rewrite lookup_insert_eq, Hb. cbn [default id truthy].
      rewrite insert_insert_eq, negb_involutive. by apply insert_id.
    + by rewrite E.
  - unfold toggleGoal. cbn [goals setGoals].
    rewrite map_map. rewrite <- (map_id (goals st)) at 2.
    apply map_ext. intros g.
    destruct (String.eqb (Goal.id g) goalId') eqn:E; cbn [Goal.id].
    + rewrite E. destruct g as [i t c col]. cbn. by rewrite negb_involutive.
    + by rewrite E.
Qed.


End TaskHandlers.

Lemma edit_and_save_unchanged_witness :
  tasks state_two_tasks !! 1%nat = Some task_b
  ∧ tasks (TaskModal.handleSubmit "n1"
             (TaskModal.openEffect 3 true (Some task_b) TaskModal.initialFormData)
             (handleTaskClick task_b state_two_tasks))
    = <[1%nat := TaskModal.openEffect 3 true (Some task_b) TaskModal.initialFormData]>
        (tasks state_two_tasks).
Proof.
  split; [reflexivity|].
  assert (Huniq : ∀ j t, tasks state_two_tasks !! j = Some t →
                         prop t "id" = prop task_b "id" → j = 1%nat).
  { intros [|[|j]] t Hj; [| |done].
    - injection Hj as <-. vm_compute. discriminate.
    - done. }
  exact (proj1 (proj2 (proj2
    (edit_and_save_unchanged 3 "n1" 1 task_b state_two_tasks
       eq_refl eq_refl Huniq)))).
Defined.

Lemma completion_toggles_twice_witness :
  (∀ t, t ∈ tasks state_two_tasks → prop t "id" = VStr "a" →
        ∃ b : bool, t !! "isCompleted" = Some (VBool b))
  ∧ tasks (onToggleComplete (VStr "a") (onToggleComplete (VStr "a") state_two_tasks))
    = tasks state_two_tasks.
Proof.
  assert (H : ∀ t, t ∈ tasks state_two_tasks → prop t "id" = VStr "a" →
                   ∃ b : bool, t !! "isCompleted" = Some (VBool b)).
  { intros t Ht _. change (tasks state_two_tasks) with [task_a; task_b] in Ht.
    apply elem_of_cons in Ht as [->|Ht]; [by exists true|].
    apply elem_of_cons in Ht as [->|Ht]; [by exists false|].
    by apply elem_of_nil in Ht. }
  split; [exact H|].
  exact (proj1 (completion_toggles_twice (VStr "a") "g1" state_two_tasks H)).
Defined.


(** ** Week keys and week arrows *)

Section WeekKeys.
Variable LocalTZA : Z.
Variable parseDate : string → Z.

Lemma fields_of_Day (t1 t2 : Z) :
  Day t1 = Day t2 →
  YearFromTime t1 = YearFromTime t2
  ∧ MonthFromTime t1 = MonthFromTime t2
  ∧ DateFromTime t1 = DateFromTime t2.
Proof.
  intros H.
  unfold DateFromTime, MonthFromTime, InLeapYear, DayWithinYear, YearFromTime.
  by rewrite H.
Qed.

Lemma formatDate_localDay (tz1 tz2 d1 d2 : Z) :
  localDay tz1 d1 = localDay tz2 d2 → formatDate tz1 d1 = formatDate tz2 d2.
Proof.
  intros H. unfold formatDate, getFullYear, getMonth, getDate. cbv zeta.
  destruct (fields_of_Day (LocalTime tz1 d1) (LocalTime tz2 d2) H) as (-> & -> & ->).
  done.
Qed.

Lemma localDay_setHours_0 d :
  localDay LocalTZA (setHours LocalTZA d 0 0 0 0) = localDay LocalTZA d.
Proof.
  unfold localDay, setHours, LocalTime, UTC, MakeTime, MakeDate. cbv zeta.
  replace (Day (d + LocalTZA) * msPerDay
           + (0 * msPerHour + 0 * msPerMinute + 0 * msPerSecond + 0)
           - LocalTZA + LocalTZA)
    with (0 + Day (d + LocalTZA) * msPerDay) by lia.
  by rewrite Day_add_days.
Qed.

Lemma append_char (c : ascii) (s : string) : String c "" +:+ s = String c s.
Proof. reflexivity. Qed.

Lemma splitHead_app_avoid (c : ascii) (a b : string) :
  splitHead c a = a → splitHead c (a +:+ b) = a +:+ splitHead c b.
Proof.
  induction a as [|x a IH]; [done|].
  simpl. destruct (Ascii.eqb x c); [done|].
  intros [= E]. by rewrite IH.
Qed.

Lemma splitHead_digits (c : ascii) (a : string) :
  isDigit c = false → allDigits a = true → splitHead c a = a.
Proof.
  intros Hc. induction a as [|x a IH]; [done|].
  simpl. intros [Hx Ha]%andb_true_iff.
  destruct (Ascii.eqb_spec x c) as [->|_]; [congruence|].
  by rewrite IH.
Qed.

Lemma toString_no_T (z : Z) : splitHead "T" (toString z) = toString z.
Proof.
  destruct (Z.le_gt_cases 0 z) as [Hz|Hz].
  - apply splitHead_digits; [done|by apply allDigits_toString].
  - destruct z as [|p|p]; try lia.
    change (toString (Z.neg p)) with ("-" +:+ toString (Z.pos p)).
    rewrite (splitHead_app_avoid "T" "-") by done.
    f_equal. apply splitHead_digits; [done|]. by apply allDigits_toString.
Qed.

Lemma pad2_no_T (z : Z) :
  0 ≤ z → splitHead "T" (padStart 2 "0" (toString z)) = padStart 2 "0" (toString z).
Proof.
  intros Hz. apply splitHead_digits; [done|].
  by apply allDigits_padStart, allDigits_toString.
Qed.

Lemma getMonth_range d : 0 ≤ getMonth LocalTZA d ≤ 11.
Proof. apply MonthFromTime_range. Qed.

Lemma getDate_range d : 1 ≤ getDate LocalTZA d ≤ 31.
Proof. apply DateFromTime_range. Qed.

Lemma formatDate_no_T (d : Z) :
  splitHead "T" (formatDate LocalTZA d) = formatDate LocalTZA d.
Proof.
  pose proof (getMonth_range d). pose proof (getDate_range d).
  unfold formatDate. cbv zeta.
  rewrite splitHead_app_avoid by apply toString_no_T.
  rewrite (splitHead_app_avoid "T" "-") by done.
  rewrite splitHead_app_avoid by (apply pad2_no_T; lia).
  rewrite (splitHead_app_avoid "T" "-") by done.
  by rewrite pad2_no_T by lia.
Qed.

Lemma formatDate_parse (x : Z) :
  100 ≤ getFullYear LocalTZA x →
  getLocalDateFromStr LocalTZA (formatDate LocalTZA x)
  = Some (setHours LocalTZA x 0 0 0 0).
Proof.
  intros Hy.
  pose proof (getMonth_range x) as Hm. pose proof (getDate_range x) as Hd.
  unfold getLocalDateFromStr, formatDate. cbv zeta.
  rewrite !append_char.
  rewrite splitOn_digits_app; [|done|apply allDigits_toString; lia].
  rewrite splitOn_digits_app;
    [|done|apply allDigits_padStart, allDigits_toString; lia].
  rewrite splitOn_digits;
    [|done|apply allDigits_padStart, allDigits_toString; lia].
  cbn [fmap list_fmap].
  rewrite StringToNumber_toString by lia.
  rewrite !StringToNumber_padStart by lia.
  f_equal. unfold newDate, setHours. cbv zeta. do 2 f_equal.
  unfold MakeFullYear.
  replace ((0 <=? getFullYear LocalTZA x) && (getFullYear LocalTZA x <=? 99))
    with false by (symmetry; apply andb_false_iff; right; apply Z.leb_gt; lia).
  replace (getMonth LocalTZA x + 1 - 1) with (getMonth LocalTZA x) by lia.
  unfold getFullYear, getMonth, getDate.
  pose proof (MakeDay_fields (LocalTime LocalTZA x) 0) as E.
  rewrite !Z.add_0_r in E. exact E.
Qed.

(** X15. A week key can be read back.  For a date of the year 100 or
    later, parsing the text that [formatDate] writes for it with
    [getLocalDateFromStr] gives the local midnight of the same day; so
    two such dates get the same key exactly when they fall on the same
    local day. *)
Theorem getLocalDateFromStr_formatDate (d : Z) :
  100 ≤ getFullYear LocalTZA d →
  getLocalDateFromStr LocalTZA (formatDate LocalTZA d)
  = Some (setHours LocalTZA d 0 0 0 0)
  ∧ ∀ d', 100 ≤ getFullYear LocalTZA d' →
          (formatDate LocalTZA d = formatDate LocalTZA d'
           ↔ localDay LocalTZA d = localDay LocalTZA d').
Proof.
  intros Hy. split; [by apply formatDate_parse|].
  intros d' Hy'. split.
  - intros E. pose proof (formatDate_parse d Hy) as H1.
    pose proof (formatDate_parse d' Hy') as H2.
    rewrite E, H2 in H1. injection H1 as H1.
    rewrite <- (localDay_setHours_0 d), <- (localDay_setHours_0 d'). by rewrite H1.
  - apply formatDate_localDay.
Qed.

Lemma localDay_shift d k :
  localDay LocalTZA (setHours LocalTZA d 0 0 0 0 + k * msPerDay)
  = localDay LocalTZA d + k.
Proof. by rewrite localDay_add_days, localDay_setHours_0. Qed.

Lemma handleWeekChange_run direction d st :
  currentWeekStartDate st = formatDate LocalTZA d →
  100 ≤ getFullYear LocalTZA d →
  handleWeekChange LocalTZA parseDate direction st
  = Some (handleSelectWeek LocalTZA parseDate
            (formatDate LocalTZA
               (setHours LocalTZA d 0 0 0 0
                + (match direction with
                   | Direction.next => 7 | Direction.prev => -7 end) * msPerDay))
            st).
Proof.
  intros Hcur Hy. unfold handleWeekChange.
  rewrite Hcur.
  rewrite (formatDate_parse d Hy).
  cbn [mbind option_bind]. by rewrite setDate_getDate_add.
Qed.

Lemma currentWeekStartDate_handleSelectWeek startDate st :
  currentWeekStartDate (handleSelectWeek LocalTZA parseDate startDate st)
  = splitHead "T" startDate.
Proof.
  unfold handleSelectWeek.
  destruct (List.find _ (archives st)) as [a|]; [|done].
  by destruct (Archive.dailyThoughts a) as [|[]|].
Qed.

(** X16. The week arrows move the view by exactly seven days and undo
    each other.  When the active week key is the key of a date [d] (of
    the year 100 or later), an arrow selects the week whose key is that
    of the day seven days after (or before) [d], which falls on the same
    day of the week; and, the year staying 100 or later, the opposite
    arrow then brings back the former key. *)
Theorem handleWeekChange_moves_a_week (direction : Direction.t) (d : Z)
    (st : AppState) :
  currentWeekStartDate st = formatDate LocalTZA d →
  100 ≤ getFullYear LocalTZA d →
  let offset := match direction with
                | Direction.next => 7 | Direction.prev => -7 end in
  let back := match direction with
              | Direction.next => Direction.prev
              | Direction.prev => Direction.next end in
  let target := setHours LocalTZA d 0 0 0 0 + offset * msPerDay in
  ∃ st' : AppState,
    handleWeekChange LocalTZA parseDate direction st = Some st'
    ∧ st' = handleSelectWeek LocalTZA parseDate (formatDate LocalTZA target) st
    ∧ currentWeekStartDate st' = formatDate LocalTZA target
    ∧ localDay LocalTZA target = localDay LocalTZA d + offset
    ∧ getDay LocalTZA target = getDay LocalTZA d
    ∧ (100 ≤ getFullYear LocalTZA target →
       ∃ st'' : AppState,
         handleWeekChange LocalTZA parseDate back st' = Some st''
         ∧ currentWeekStartDate st'' = currentWeekStartDate st).
Proof.
  intros Hcur Hy offset back target.
  eexists. split; [by apply handleWeekChange_run|].
  split; [reflexivity|].
  assert (Hkey : currentWeekStartDate
                   (handleSelectWeek LocalTZA parseDate (formatDate LocalTZA target) st)
                 = formatDate LocalTZA target).
  { by rewrite currentWeekStartDate_handleSelectWeek, formatDate_no_T. }
  split; [exact Hkey|].
  split; [apply localDay_shift|].
  split.
  { rewrite !getDay_localDay. unfold target. rewrite localDay_shift.
    unfold offset. destruct direction; Z.to_euclidean_division_equations; lia. }
  intros Hy'. eexists. split; [by apply handleWeekChange_run|].
  rewrite currentWeekStartDate_handleSelectWeek, formatDate_no_T, Hcur.
  apply formatDate_localDay.
  rewrite localDay_shift. unfold target. rewrite localDay_shift.
  unfold offset, back. destruct direction; lia.
Qed.

End WeekKeys.

Lemma getLocalDateFromStr_formatDate_witness :
  100 ≤ getFullYear 0 (newDate 0 2025 11 29)
  ∧ getLocalDateFromStr 0 (formatDate 0 (newDate 0 2025 11 29))
    = Some (setHours 0 (newDate 0 2025 11 29) 0 0 0 0).
Proof.
  assert (H : 100 ≤ getFullYear 0 (newDate 0 2025 11 29)) by (vm_compute; discriminate).
  split; [exact H|].
  exact (proj1 (getLocalDateFromStr_formatDate 0 (newDate 0 2025 11 29) H)).
Defined.

Lemma handleWeekChange_moves_a_week_witness :
  currentWeekStartDate state_week_2026_01_05 = formatDate 0 (newDate 0 2026 0 5)
  ∧ 100 ≤ getFullYear 0 (newDate 0 2026 0 5)
  ∧ ∃ st' : AppState,
      handleWeekChange 0 parseDateOnly Direction.prev state_week_2026_01_05 = Some st'
      ∧ currentWeekStartDate st'
        = formatDate 0 (setHours 0 (newDate 0 2026 0 5) 0 0 0 0 + -7 * msPerDay).
Proof.
  assert (H1 : currentWeekStartDate state_week_2026_01_05
               = formatDate 0 (newDate 0 2026 0 5)) by (vm_compute; reflexivity).
  assert (H2 : 100 ≤ getFullYear 0 (newDate 0 2026 0 5)) by (vm_compute; discriminate).
  split; [exact H1|]. split; [exact H2|].
  destruct (handleWeekChange_moves_a_week 0 parseDateOnly Direction.prev
              (newDate 0 2026 0 5) state_week_2026_01_05 H1 H2)
    as (st' & E1 & _ & E2 & _).
  exists st'. split; [exact E1 | exact E2].
Defined.

(** ** Storage and the archive *)

Section Persistence.
Variable LocalTZA : Z.
Variable parseDate : string → Z.

(** X17. What is saved is what is loaded.  Once the data are loaded,
    the record written by the persistence effect (and by the save
    button, which writes the same record) is read back by the loading
    effect with the same tasks, goals and notes, under any former state;
    a week start date that is not empty is restored as well.  The stored
    week label is not read back: the label is generated again from the
    stored date.  The archive list is the stored history, and before the
    data are loaded nothing is written. *)
Theorem persist_then_load_restores (now now' : Z) (st st0 : AppState)
    (sto : Storage) :
  isLoaded st = true →
  let st' := loadEffect LocalTZA parseDate now now' (persistEffect st sto) st0 in
  tasks st' = tasks st
  ∧ goals st' = goals st
  ∧ dailyThoughts st' = dailyThoughts st
  ∧ archives st' = default [] (weekly_planner_history_v1 sto)
  ∧ isLoaded st' = true
  ∧ (currentWeekStartDate st ≠ "" →
     currentWeekStartDate st' = currentWeekStartDate st
     ∧ currentWeekLabel st'
       = generateWeekLabel LocalTZA (parseDate (currentWeekStartDate st)))
  ∧ (currentWeekStartDate st = "" →
     currentWeekStartDate st' = formatDate LocalTZA (getMonday LocalTZA now'))
  ∧ handleManualSave st sto = persistEffect st sto
  ∧ (isLoaded st0 = false → persistEffect st0 sto = sto).
Proof.
  intros Hl. cbv zeta. unfold persistEffect, handleManualSave, loadEffect.
  rewrite Hl. cbn [negb weekly_planner_data_v1 weekly_planner_history_v1
                   saved_tasks saved_goals saved_dailyThoughts
                   saved_currentWeekStartDate].
  destruct (currentWeekStartDate st) as [|c s] eqn:Hc.
  - repeat split; try done. intros ->. done.
  - repeat split; try done. intros ->. done.
Qed.

End Persistence.

Section ArchiveSync.
Variable LocalTZA : Z.
Variable parseDate : string → Z.

Lemma prefix_same_length (p s : string) :
  String.prefix p s = true → String.length p = String.length s → p = s.
Proof.
  revert s. induction p as [|a p IH]; intros [|b s]; simpl; try done.
  destruct (Ascii.ascii_dec a b) as [->|]; [|done].
  intros Hp [= Hlen]. f_equal. by apply IH.
Qed.

Lemma prefix_refl (s : string) : String.prefix s s = true.
Proof.
  induction s as [|a s IH]; [done|].
  simpl. by destruct (Ascii.ascii_dec a a).
Qed.

Lemma find_ext_in {A} (f g : A → bool) (l : list A) :
  (∀ x, x ∈ l → f x = g x) → List.find f l = List.find g l.
Proof.
  induction l as [|a l IH]; intros H; [done|].
  cbn. rewrite (H a) by left. destruct (g a); [done|].
  apply IH. intros x Hx. apply H. by right.
Qed.

(** Among keys of one length, an entry matches a key exactly when its week
    start date is that key. *)
Lemma find_week_by_key (key : string) (l : list Archive.t) :
  (∀ a, a ∈ l → String.length (Archive.weekStartDate a) = String.length key) →
  List.find (λ a, startsWith (Archive.weekStartDate a) key) l
  = List.find (λ a, bool_decide (Archive.weekStartDate a = key)) l.
Proof.
  intros Hlen. apply find_ext_in. intros a Ha. unfold startsWith.
  destruct (decide (Archive.weekStartDate a = key)) as [E|E].
  - rewrite bool_decide_eq_true_2 by done. rewrite E. apply prefix_refl.
  - rewrite bool_decide_eq_false_2 by done.
    destruct (String.prefix key (Archive.weekStartDate a)) eqn:Hp; [|done].
    destruct E. symmetry. apply prefix_same_length; [done|].
    symmetry. by apply Hlen.
Qed.

Lemma find_delete_irrelevant {A} (f : A → bool) (l : list A) i a :
  l !! i = Some a → f a = false → List.find f (delete i l) = List.find f l.
Proof.
  revert i. induction l as [|b l IH]; intros i Hi Ha; [done|].
  destruct i as [|i]; cbn in *.
  - injection Hi as ->. by rewrite Ha.
  - destruct (f b); [done|]. by apply IH.
Qed.

Lemma find_insert_irrelevant {A} (f : A → bool) (l : list A) i a b :
  l !! i = Some a → f a = false → f b = false →
  List.find f (<[i := b]> l) = List.find f l.
Proof.
  revert i. induction l as [|c l IH]; intros i Hi Ha Hb; [done|].
  destruct i as [|i]; cbn in *.
  - injection Hi as ->. by rewrite Ha, Hb.
  - destruct (f c); [done|]. by apply IH.
Qed.

Lemma find_insert_first {A} (f : A → bool) (l : list A) i b :
  (i < length l)%nat → f b = true →
  (∀ j y, l !! j = Some y → (j < i)%nat → f y = false) →
  List.find f (<[i := b]> l) = Some b.
Proof.
  revert i. induction l as [|c l IH]; intros i Hi Hb Hfirst; [cbn in Hi; lia|].
  destruct i as [|i]; cbn in *.
  - by rewrite Hb.
  - rewrite (Hfirst 0%nat c) by (done || lia).
    apply IH; [lia|done|]. intros j y Hj Hlt. apply (Hfirst (S j)); [done|lia].
Qed.

(** The entries of the other weeks, as the synchronisation leaves them. *)
Lemma syncArchives_other_week newId st prev key :
  key ≠ currentWeekStartDate st →
  List.find (λ a, bool_decide (Archive.weekStartDate a = key))
            (syncArchives newId st prev).1
  = List.find (λ a, bool_decide (Archive.weekStartDate a = key)) prev.
Proof.
  intros Hkey. unfold syncArchives.
  destruct (list_find _ prev) as [[i a]|] eqn:Hf.
  - apply list_find_Some in Hf as (Hi & Ha & _).
    destruct (hasContent st); cbn [negb fst].
    + apply (find_insert_irrelevant _ _ _ a); [done| |].
      * apply bool_decide_eq_false_2. congruence.
      * apply bool_decide_eq_false_2. cbn. congruence.
    + apply (find_delete_irrelevant _ _ _ a); [done|].
      apply bool_decide_eq_false_2. congruence.
  - destruct (hasContent st); cbn [negb fst]; [|done].
    cbn [List.find Archive.weekStartDate].
    by rewrite bool_decide_eq_false_2 by congruence.
Qed.

(** The entry of the active week after a synchronisation with content. *)
Lemma syncArchives_this_week newId st prev :
  hasContent st = true →
  ∃ id', List.find (λ a, bool_decide (Archive.weekStartDate a
                                       = currentWeekStartDate st))
                   (syncArchives newId st prev).1
         = Some (snapshot id' st).
Proof.
  intros Hc. unfold syncArchives. rewrite Hc. cbn [negb].
  destruct (list_find _ prev) as [[i a]|] eqn:Hf; cbn [fst].
  - apply list_find_Some in Hf as (Hi & Ha & Hfirst).
    exists (Archive.id a). apply find_insert_first.
    + by apply lookup_lt_Some in Hi.
    + by apply bool_decide_eq_true_2.
    + intros j y Hj Hlt. apply bool_decide_eq_false_2. by apply (Hfirst j).
  - exists newId. cbn [List.find Archive.weekStartDate].
    by rewrite bool_decide_eq_true_2.
Qed.

Lemma syncArchives_keys newId st prev a :
  a ∈ (syncArchives newId st prev).1 →
  a ∈ prev ∨ Archive.weekStartDate a = currentWeekStartDate st.
Proof.
  unfold syncArchives.
  destruct (list_find _ prev) as [[i b]|] eqn:Hf;
    destruct (hasContent st); cbn [negb fst]; intros Ha.
  - apply list_elem_of_lookup in Ha as (j & Hj).
    destruct (decide (i = j)) as [->|Hne].
    + apply list_find_Some in Hf as (Hi & _).
      rewrite list_lookup_insert_eq in Hj by (by apply lookup_lt_Some in Hi).
      injection Hj as <-. by right.
    + rewrite list_lookup_insert_ne in Hj by done.
      left. by apply list_elem_of_lookup_2 in Hj.
  - left. by apply list_elem_of_delete_inv in Ha.
  - apply elem_of_cons in Ha as [->|Ha]; [by right|by left].
  - by left.
Qed.

Lemma isLoaded_handleSelectWeek startDate st :
  isLoaded (handleSelectWeek LocalTZA parseDate startDate st) = isLoaded st.
Proof.
  rewrite handleSelectWeek_unfold. cbv zeta. by destruct (List.find _ _).
Qed.

Lemma view_of_snapshot startDate id' st st2 :
  List.find (λ a, startsWith (Archive.weekStartDate a) (splitHead "T" startDate))
            (archives st2) = Some (snapshot id' st) →
  let st3 := handleSelectWeek LocalTZA parseDate startDate st2 in
  tasks st3 = tasks st ∧ goals st3 = goals st
  ∧ dailyThoughts st3 = dailyThoughts st
  ∧ currentWeekLabel st3 = currentWeekLabel st
  ∧ currentWeekStartDate st3 = splitHead "T" startDate.
Proof.
  intros Hf. cbv zeta. rewrite handleSelectWeek_unfold. cbv zeta.
  rewrite Hf. done.
Qed.

Lemma syncArchives_again newId newId' st prev :
  uniqueWeeks prev →
  syncArchives newId' st (syncArchives newId st prev).1
  = ((syncArchives newId st prev).1,
     if hasContent st then Some (syncArchives newId st prev).1 else None).
Proof.
  intros Hu.
  destruct (hasContent st) eqn:Hcont;
    destruct (list_find (λ a, Archive.weekStartDate a = currentWeekStartDate st) prev)
      as [[i a]|] eqn:Hf.
  - pose proof Hf as (Hi & Ha & Hfirst)%list_find_Some.
    assert (E1 : (syncArchives newId st prev).1
                 = <[i := snapshot (Archive.id a) st]> prev).
    { unfold syncArchives. by rewrite Hcont, Hf. }
    rewrite E1.
    assert (Hf1 : list_find (λ a, Archive.weekStartDate a = currentWeekStartDate st)
                            (<[i := snapshot (Archive.id a) st]> prev)
                  = Some (i, snapshot (Archive.id a) st)).
    { apply list_find_Some.
      split; [apply list_lookup_insert_eq; by apply lookup_lt_Some in Hi|].
      split; [done|]. intros j y Hj Hlt.
      rewrite list_lookup_insert_ne in Hj by lia. by apply (Hfirst j). }
    unfold syncArchives. rewrite Hcont, Hf1. cbn [negb Archive.id snapshot].
    by rewrite list_insert_insert_eq.
  - assert (E1 : (syncArchives newId st prev).1 = snapshot newId st :: prev).
    { unfold syncArchives. by rewrite Hcont, Hf. }
    rewrite E1.
    assert (Hf1 : list_find (λ a, Archive.weekStartDate a = currentWeekStartDate st)
                            (snapshot newId st :: prev)
                  = Some (0%nat, snapshot newId st)).
    { apply list_find_Some. split; [done|]. split; [done|]. intros j y _ Hlt. lia. }
    unfold syncArchives. rewrite Hcont, Hf1. done.
  - pose proof Hf as (Hi & Ha & _)%list_find_Some.
    assert (E1 : (syncArchives newId st prev).1 = delete i prev).
    { unfold syncArchives. by rewrite Hcont, Hf. }
    rewrite E1.
    assert (Hf1 : list_find (λ a, Archive.weekStartDate a = currentWeekStartDate st)
                            (delete i prev) = None).
    { apply list_find_None. rewrite (delete_unique_key _ _ _ Hu Hi).
      apply Forall_forall. intros b Hb%list_elem_of_filter. rewrite <- Ha.
      by destruct Hb. }
    unfold syncArchives. by rewrite Hcont, Hf1.
  - assert (E1 : (syncArchives newId st prev).1 = prev).
    { unfold syncArchives. by rewrite Hcont, Hf. }
    rewrite E1. unfold syncArchives. by rewrite Hcont, Hf.
Qed.

(** X18. The synchronisation with the archive touches the entry of the
    active week only, and doing it again changes nothing.  For loaded
    data and a week start date that is not empty: the first entry stored
    under any other week start date is the same before and after; the
    view (tasks, goals, notes) is unchanged; and when at most one entry is
    stored for each week, a second synchronisation of the same view
    leaves both the state and the store as the first one left them. *)
Theorem autoSync_frame_idempotent (newId newId' : string) (st : AppState)
    (sto : Storage) :
  isLoaded st = true → currentWeekStartDate st ≠ "" →
  uniqueWeeks (archives st) →
  let w := autoSyncEffect newId (st, sto) in
  (∀ key, key ≠ currentWeekStartDate st →
     List.find (λ a, bool_decide (Archive.weekStartDate a = key)) (archives w.1)
     = List.find (λ a, bool_decide (Archive.weekStartDate a = key)) (archives st))
  ∧ tasks w.1 = tasks st ∧ goals w.1 = goals st
  ∧ dailyThoughts w.1 = dailyThoughts st
  ∧ weekly_planner_data_v1 w.2 = weekly_planner_data_v1 sto
  ∧ autoSyncEffect newId' w = w.
Proof.
  intros Hl Hc Hu w.
  assert (Ew : w = autoSyncEffect newId (st, sto)) by reflexivity.
  rewrite (autoSyncEffect_unfold _ _ _ Hl Hc) in Ew.
  split.
  { intros key Hkey. rewrite Ew. cbn [fst archives setArchives].
    by apply syncArchives_other_week. }
  rewrite Ew. cbn [fst snd tasks goals dailyThoughts setArchives].
  split; [done|]. split; [done|]. split; [done|].
  split.
  { by destruct ((syncArchives newId st (archives st)).2). }
  rewrite autoSyncEffect_unfold by done.
  cbn [archives setArchives].
  assert (Hsync : ∀ prev, syncArchives newId' (setArchives prev st)
                          = syncArchives newId' st).
  { done. }
  pose proof (syncArchives_again newId newId' st (archives st) Hu) as Hagain.
  rewrite Hsync, Hagain. cbn [fst snd].
  f_equal.
  destruct (hasContent st) eqn:Hcont.
  - destruct (syncArchives_written newId st (archives st)) as [->|[E _]].
    + done.
    + exfalso. revert E. unfold syncArchives. rewrite Hcont. cbn.
      by destruct (list_find _ _) as [[? ?]|].
  - by destruct ((syncArchives newId st (archives st)).2).
Qed.


End ArchiveSync.

Lemma persist_then_load_restores_witness :
  isLoaded state_loaded_two_tasks = true
  ∧ tasks (loadEffect 0 parseDateOnly 0 0
             (persistEffect state_loaded_two_tasks storage_empty)
             (initialState 0 0))
    = tasks state_loaded_two_tasks.
Proof.
  split; [reflexivity|].
  exact (proj1 (persist_then_load_restores 0 parseDateOnly 0 0
                  state_loaded_two_tasks (initialState 0 0) storage_empty eq_refl)).
Defined.

Lemma autoSync_frame_idempotent_witness :
  isLoaded state_loaded_two_tasks = true
  ∧ currentWeekStartDate state_loaded_two_tasks ≠ ""
  ∧ uniqueWeeks (archives state_loaded_two_tasks)
  ∧ autoSyncEffect "w8" (autoSyncEffect "w7" (state_loaded_two_tasks, storage_empty))
    = autoSyncEffect "w7" (state_loaded_two_tasks, storage_empty).
Proof.
  assert (H2 : currentWeekStartDate state_loaded_two_tasks ≠ "") by discriminate.
  assert (H3 : uniqueWeeks (archives state_loaded_two_tasks)) by apply NoDup_nil_2.
  split; [reflexivity|]. split; [exact H2|]. split; [exact H3|].
  destruct (autoSync_frame_idempotent "w7" "w8" state_loaded_two_tasks storage_empty
              eq_refl H2 H3) as (_ & _ & _ & _ & _ & H).
  exact H.
Defined.


(** ** The clock line and the keys of the history browser *)

Section ClockAndKeys.
Variable LocalTZA : Z.
Variable parseDate : string → Z.

Lemma getMonday_midnight now :
  TimeWithinDay (LocalTime LocalTZA (getMonday LocalTZA now)) = 0.
Proof.
  rewrite getMonday_unfold. unfold LocalTime, UTC, TimeWithinDay, msPerDay.
  Z.to_euclidean_division_equations. lia.
Qed.

Lemma getMinutes_range d : 0 ≤ getMinutes LocalTZA d ≤ 59.
Proof. unfold getMinutes, MinFromTime. Z.to_euclidean_division_equations. lia. Qed.

(** X20. The week on view is compared with the current week by the
    instants of two dates: the one parsed from the week key and the local
    midnight that [getMonday] returns.  When the key parses to a midnight
    of universal time (as a date-only key does) and the local time is not
    offset from universal time by whole days, the two instants are never
    equal: whatever the clock reads, the clock effect clears the time
    line, no column is marked as today and no time line is drawn. *)
Theorem time_line_only_without_offset (today now i : Z) (st : AppState) :
  TimeWithinDay (parseDate (currentWeekStartDate st)) = 0 →
  LocalTZA mod msPerDay ≠ 0 →
  currentTimeLineTop (updateTime LocalTZA parseDate now st) = None
  ∧ isToday LocalTZA parseDate today now i st = false
  ∧ timeLineShown LocalTZA parseDate today now i
      (updateTime LocalTZA parseDate now st) = false.
Proof.
  intros Hutc Htz.
  assert (Hne : parseDate (currentWeekStartDate st) ≠ getMonday LocalTZA now).
  { intros E. pose proof (getMonday_midnight now) as Hm. rewrite <- E in Hm.
    revert Hutc Hm Htz. unfold TimeWithinDay, LocalTime, msPerDay.
    generalize (parseDate (currentWeekStartDate st)). intros v.
    Z.to_euclidean_division_equations. lia. }
  assert (E1 : currentTimeLineTop (updateTime LocalTZA parseDate now st) = None).
  { unfold updateTime, getTime. cbv zeta.
    by rewrite (proj2 (Z.eqb_neq _ _) Hne). }
  assert (E2 : isToday LocalTZA parseDate today now i st = false).
  { unfold isToday, getTime.
    rewrite (proj2 (Z.eqb_neq (getMonday LocalTZA now) _)) by congruence.
    apply andb_false_r. }
  split; [exact E1|]. split; [exact E2|].
  unfold timeLineShown. rewrite E1. apply andb_false_r.
Qed.

(** X21. When the week on view is the current week, the time line is
    set exactly during the hours of the grid, [START_HOUR] to [END_HOUR]
    included, and then lies within the grid: its offset is not negative
    and is less than the height of all the time slots, [SLOT_HEIGHT_PX]
    each.  At any other hour it is cleared. *)
Theorem time_line_within_grid (now : Z) (st : AppState) :
  parseDate (currentWeekStartDate st) = getMonday LocalTZA now →
  let top := currentTimeLineTop (updateTime LocalTZA parseDate now st) in
  (START_HOUR ≤ getHours LocalTZA now ≤ END_HOUR →
   ∃ px : Q,
     top = Some px
     ∧ (0 <= px)%Q
     ∧ (px < inject_Z (Z.of_nat (length timeSlots) * SLOT_HEIGHT_PX))%Q
     ∧ (px * 30 == inject_Z (((getHours LocalTZA now - START_HOUR) * 60
                              + getMinutes LocalTZA now) * SLOT_HEIGHT_PX))%Q)
  ∧ (¬ (START_HOUR ≤ getHours LocalTZA now ≤ END_HOUR) → top = None).
Proof.
  intros Hview. cbv zeta. unfold updateTime, getTime. cbv zeta.
  rewrite Hview, Z.eqb_refl. cbn [negb].
  pose proof (getMinutes_range now) as Hm.
  split.
  - intros [H1 H2].
    rewrite (proj2 (Z.leb_le _ _) H1), (proj2 (Z.leb_le _ _) H2). cbn [andb].
    eexists. split; [reflexivity|].
    change (Z.of_nat (length timeSlots)) with 36.
    revert H1 H2 Hm. unfold START_HOUR, END_HOUR, SLOT_HEIGHT_PX.
    generalize (getHours LocalTZA now) (getMinutes LocalTZA now). intros h m H1 H2 Hm.
    unfold Qle, Qlt, Qeq, Qdiv, Qmult, Qinv, inject_Z; cbn [Qnum Qden].
    repeat split; lia.
  - intros Hout.
    destruct (Z.leb_spec START_HOUR (getHours LocalTZA now));
      destruct (Z.leb_spec (getHours LocalTZA now) END_HOUR); cbn [andb]; try done.
    destruct Hout. lia.
Qed.

Lemma append_nil_r (s : string) : s +:+ "" = s.
Proof.
  induction s as [|a s IH]; [done|].
  change (String a s +:+ "") with (String a (s +:+ "")). by rewrite IH.
Qed.

Lemma splitHead_cons (c x : ascii) (b : string) :
  Ascii.eqb x c = false → splitHead c (String x b) = String x (splitHead c b).
Proof. intros H. cbn [splitHead]. by rewrite H. Qed.

Lemma splitHead_stop (c : ascii) (b : string) : splitHead c (String c b) = "".
Proof. cbn [splitHead]. by rewrite Ascii.eqb_refl. Qed.

Lemma isoYear_four_digits (y : Z) : 1000 ≤ y ≤ 9999 → isoYear y = toString y.
Proof.
  intros Hy. unfold isoYear.
  rewrite (proj2 (Z.leb_le 0 y)) by lia. rewrite (proj2 (Z.leb_le y 9999)) by lia.
  cbn [andb]. unfold padStart.
  pose proof (toString_length_ge y 3 ltac:(change (10 ^ Z.of_nat 3) with 1000; lia)).
  by replace (4 - String.length (toString y))%nat with 0%nat by lia.
Qed.

(** The date part of [toISOString] is the key of the universal-time day. *)
Lemma isoDate_key (w x tz : Z) :
  1000 ≤ YearFromTime w ≤ 9999 →
  Day w = Day (LocalTime tz x) →
  splitHead "T" (toISOString w) = formatDate tz x.
Proof.
  intros Hy Hday.
  pose proof (MonthFromTime_range w) as Hm.
  pose proof (DateFromTime_range w) as Hd.
  unfold toISOString. rewrite isoYear_four_digits by done.
  rewrite !append_char.
  rewrite splitHead_app_avoid by apply toString_no_T.
  rewrite (splitHead_cons "T" "-") by done.
  rewrite splitHead_app_avoid by (apply pad2_no_T; lia).
  rewrite (splitHead_cons "T" "-") by done.
  rewrite splitHead_app_avoid by (apply pad2_no_T; lia).
  rewrite splitHead_stop, append_nil_r.
  unfold formatDate, getFullYear, getMonth, getDate. cbv zeta.
  destruct (fields_of_Day w (LocalTime tz x) Hday) as (-> & -> & ->).
  done.
Qed.

Lemma formatDate_inj_day (d d' : Z) :
  100 ≤ getFullYear LocalTZA d → 100 ≤ getFullYear LocalTZA d' →
  formatDate LocalTZA d = formatDate LocalTZA d' →
  localDay LocalTZA d = localDay LocalTZA d'.
Proof.
  intros Hy Hy' E.
  pose proof (formatDate_parse LocalTZA d Hy) as H1.
  pose proof (formatDate_parse LocalTZA d' Hy') as H2.
  rewrite E, H2 in H1. injection H1 as H1.
  rewrite <- (localDay_setHours_0 LocalTZA d), <- (localDay_setHours_0 LocalTZA d').
  by rewrite H1.
Qed.

(** X22. The key under which the history browser looks up and selects
    a week.  For a week entry at local midnight [w] (of a four-digit
    year) the browser cuts the key from [toISOString], which prints the
    day of universal time.  When local time is universal time or behind
    it, that key is the local date of [w], the key under which the week
    is stored.  When local time is ahead of universal time, the key is
    the date of the day before [w]: selecting the entry makes that day
    the week start date, and archives are looked up under it, so a key
    that differs from the key of [w] itself. *)
Theorem history_week_key (w : Z) (st : AppState) (archives' : list Archive.t) :
  TimeWithinDay (LocalTime LocalTZA w) = 0 →
  1000 ≤ YearFromTime w ≤ 9999 →
  - msPerDay < LocalTZA ≤ msPerDay →
  let key := formatDate LocalTZA (if 0 <? LocalTZA then w - msPerDay else w) in
  currentWeekStartDate (handleSelectWeek LocalTZA parseDate (toISOString w) st)
  = key
  ∧ findArchive archives' w
    = List.find (λ a, startsWith (Archive.weekStartDate a) key) archives'
  ∧ (0 < LocalTZA → key ≠ formatDate LocalTZA w).
Proof.
  intros Hmid Hy Htz key.
  assert (Hday : Day w = Day (LocalTime LocalTZA
                                (if 0 <? LocalTZA then w - msPerDay else w))).
  { revert Hmid Htz. unfold Day, TimeWithinDay, LocalTime, msPerDay.
    destruct (Z.ltb_spec 0 LocalTZA); intros Hmid Htz;
      Z.to_euclidean_division_equations; lia. }
  assert (Ekey : splitHead "T" (toISOString w) = key).
  { by apply isoDate_key. }
  split; [by rewrite currentWeekStartDate_handleSelectWeek|].
  split; [unfold findArchive; by rewrite Ekey|].
  intros Hpos Heq. unfold key in Heq.
  rewrite (proj2 (Z.ltb_lt 0 LocalTZA) Hpos) in Heq, Hday.
  assert (Hy1 : getFullYear LocalTZA (w - msPerDay) = YearFromTime w).
  { unfold getFullYear, YearFromTime. by rewrite Hday. }
  assert (Hy2 : YearFromTime w ≤ getFullYear LocalTZA w).
  { unfold getFullYear, YearFromTime. apply YearFromDay_mono.
    unfold Day, LocalTime, msPerDay. Z.to_euclidean_division_equations. lia. }
  apply formatDate_inj_day in Heq; [|lia|lia].
  replace (w - msPerDay) with (w + (-1) * msPerDay) in Heq by lia.
  rewrite localDay_add_days in Heq. lia.
Qed.

End ClockAndKeys.

Lemma time_line_only_without_offset_witness :
  TimeWithinDay (parseDateOnly (currentWeekStartDate state_week_2026_01_05)) = 0
  ∧ 28800000 mod msPerDay ≠ 0
  ∧ currentTimeLineTop
      (updateTime 28800000 parseDateOnly (newDate 28800000 2026 0 7)
         state_week_2026_01_05) = None.
Proof.
  assert (H2 : 28800000 mod msPerDay ≠ 0) by (vm_compute; discriminate).
  split; [reflexivity|]. split; [exact H2|].
  exact (proj1 (time_line_only_without_offset 28800000 parseDateOnly 0
                  (newDate 28800000 2026 0 7) 0 state_week_2026_01_05 eq_refl H2)).
Defined.

Lemma time_line_within_grid_witness :
  parseDateOnly (currentWeekStartDate state_week_2026_01_05)
  = getMonday 0 (newDate 0 2026 0 7 + 8 * msPerHour)
  ∧ ∃ px : Q,
      currentTimeLineTop
        (updateTime 0 parseDateOnly (newDate 0 2026 0 7 + 8 * msPerHour)
           state_week_2026_01_05) = Some px
      ∧ (0 <= px)%Q.
Proof.
  assert (H1 : parseDateOnly (currentWeekStartDate state_week_2026_01_05)
               = getMonday 0 (newDate 0 2026 0 7 + 8 * msPerHour))
    by (vm_compute; reflexivity).
  split; [exact H1|].
  destruct (time_line_within_grid 0 parseDateOnly (newDate 0 2026 0 7 + 8 * msPerHour)
              state_week_2026_01_05 H1) as [H _].
  destruct H as (px & E & Hle & _); [vm_compute; split; discriminate|].
  exists px. split; [exact E | exact Hle].
Defined.

Lemma history_week_key_witness :
  TimeWithinDay (LocalTime 28800000 (newDate 28800000 2026 0 5)) = 0
  ∧ 1000 ≤ YearFromTime (newDate 28800000 2026 0 5) ≤ 9999
  ∧ - msPerDay < 28800000 ≤ msPerDay
  ∧ currentWeekStartDate
      (handleSelectWeek 28800000 parseDateOnly
         (toISOString (newDate 28800000 2026 0 5)) state_two_tasks)
    = formatDate 28800000 (newDate 28800000 2026 0 5 - msPerDay).
Proof.
  assert (H2 : 1000 ≤ YearFromTime (newDate 28800000 2026 0 5) ≤ 9999)
    by (vm_compute; split; discriminate).
  assert (H3 : - msPerDay < 28800000 ≤ msPerDay) by (vm_compute; split; [reflexivity|discriminate]).
  split; [reflexivity|]. split; [exact H2|]. split; [exact H3|].
  exact (proj1 (history_week_key 28800000 parseDateOnly (newDate 28800000 2026 0 5)
                  state_two_tasks [] eq_refl H2 H3)).
Defined.

(** ** The history browser: default year and the older grid *)

Section BrowserYears.
Variable LocalTZA : Z.
Variable parseDate : string → Z.

(** What any returned grid is made of. *)
Lemma calendarData_returned fuel archives cal :
  calendarData LocalTZA parseDate fuel archives = Returns cal →
  years cal
  = uniqueSorted
      (requestedRange
       ++ map (λ a, year (getMajorityMonthInfo LocalTZA
                            (parseDate (Archive.weekStartDate a)))) archives)
  ∧ ∀ y, (y ∈ years cal →
          ∃ months, data cal !! y = Some months
                    ∧ isYearGrid LocalTZA archives y months)
         ∧ (y ∉ years cal → data cal !! y = None).
Proof.
  intros Hr.
  set (ys := uniqueSorted
               (requestedRange
                ++ map (λ a, year (getMajorityMonthInfo LocalTZA
                                     (parseDate (Archive.weekStartDate a))))
                       archives)).
  destruct (buildYears_run LocalTZA archives 56 ys ∅ (le_n _)) as (data' & Hrun & Hspec).
  assert (Hcal : calendarData LocalTZA parseDate 56 archives
                 = Returns {| years := ys; data := data' |}).
  { unfold calendarData. cbv zeta. fold ys. by rewrite Hrun. }
  pose proof (calendarData_mono _ _ _ _ (Nat.max fuel 56) _ Hr (Nat.le_max_l _ _)) as H1.
  pose proof (calendarData_mono _ _ _ _ (Nat.max fuel 56) _ Hcal (Nat.le_max_r _ _)) as H2.
  rewrite H1 in H2. injection H2 as ->. cbn [years data].
  split; [done|]. intros y. split; [apply Hspec|].
  intros Hy. by rewrite (proj2 (Hspec y) Hy).
Qed.

Lemma calendarData_runs fuel archives :
  (56 ≤ fuel)%nat →
  ∃ cal, calendarData LocalTZA parseDate fuel archives = Returns cal.
Proof.
  intros Hfuel. unfold calendarData. cbv zeta.
  destruct (buildYears_run LocalTZA archives fuel
              (uniqueSorted
                 (requestedRange
                  ++ map (λ a, year (getMajorityMonthInfo LocalTZA
                                       (parseDate (Archive.weekStartDate a))))
                         archives)) ∅ Hfuel) as (data' & -> & _).
  by eexists.
Qed.

Lemma sorted_head_least (x : Z) (l : list Z) :
  StronglySorted Z.lt (x :: l) → ∀ y, y ∈ x :: l → x ≤ y.
Proof.
  intros [_ Hall]%StronglySorted_inv y [->|Hy]%elem_of_cons; [lia|].
  rewrite Forall_forall in Hall. specialize (Hall y Hy). lia.
Qed.

(** X23. The year the history browser opens on always has a grid.
    For the years and the data of any returned grid: the default year
    is defined, it is one of the listed years (the current year when it is
    listed, otherwise the earliest listed year), and each of its twelve
    months shows exactly the week entries assigned to that month; the
    fallback to an empty list is never taken for it. *)
Theorem defaultYear_has_grid (now : Z) (fuel : nat)
    (archives : list Archive.t) (cal : CalendarData) :
  calendarData LocalTZA parseDate fuel archives = Returns cal →
  ∃ y : Z,
    defaultYear LocalTZA now (years cal) = Some y
    ∧ y ∈ years cal
    ∧ (getFullYear LocalTZA now ∈ years cal → y = getFullYear LocalTZA now)
    ∧ (getFullYear LocalTZA now ∉ years cal →
       ∀ y', y' ∈ years cal → y ≤ y')
    ∧ ∀ m, 0 ≤ m ≤ 11 →
           monthWeeks cal y m
           = weekBlock LocalTZA archives <$> weeksIn LocalTZA y m.
Proof.
  intros Hr.
  destruct (calendarData_returned _ _ _ Hr) as (Hyears & Hdata).
  destruct (uniqueSorted_spec
              (requestedRange
               ++ map (λ a, year (getMajorityMonthInfo LocalTZA
                                    (parseDate (Archive.weekStartDate a))))
                      archives)) as [Hsorted Helem].
  rewrite <- Hyears in Hsorted, Helem.
  assert (H2025 : 2025 ∈ years cal).
  { apply Helem, elem_of_app. left. apply list_elem_of_here. }
  assert (Hmonths : ∀ y, y ∈ years cal → ∀ m, 0 ≤ m ≤ 11 →
            monthWeeks cal y m
            = weekBlock LocalTZA archives <$> weeksIn LocalTZA y m).
  { intros y Hy m Hm. unfold monthWeeks.
    destruct (proj1 (Hdata y) Hy) as (months & -> & Hg).
    rewrite Hg. by rewrite decide_True. }
  unfold defaultYear. cbv zeta.
  destruct (decide (getFullYear LocalTZA now ∈ years cal)) as [Hin|Hout].
  - rewrite bool_decide_eq_true_2 by done.
    eexists. split; [reflexivity|]. split; [done|]. split; [done|].
    split; [done|]. by apply Hmonths.
  - rewrite bool_decide_eq_false_2 by done.
    destruct (years cal) as [|y0 ys] eqn:Eys; [by apply elem_of_nil in H2025|].
    exists y0. split; [reflexivity|].
    assert (Hy0 : y0 ∈ y0 :: ys) by apply list_elem_of_here.
    split; [done|]. split; [done|].
    split; [intros _; by apply sorted_head_least|].
    intros m Hm. by apply Hmonths.
Qed.

Lemma uniqueSortedDesc_spec xs :
  StronglySorted (flip Z.lt) (uniqueSortedDesc xs)
  ∧ ∀ y, y ∈ uniqueSortedDesc xs ↔ y ∈ xs.
Proof.
  unfold uniqueSortedDesc.
  pose proof (merge_sort_Permutation (flip Z.le) (remove_dups xs)) as Hp.
  assert (Hnd : NoDup (merge_sort (flip Z.le) (remove_dups xs))).
  { rewrite Hp. apply NoDup_remove_dups. }
  assert (Htotal : Total (flip Z.le)).
  { intros x y. unfold flip. lia. }
  assert (Hs : StronglySorted (flip Z.le) (merge_sort (flip Z.le) (remove_dups xs))).
  { apply StronglySorted_merge_sort; apply _. }
  split.
  - revert Hnd Hs. generalize (merge_sort (flip Z.le) (remove_dups xs)).
    induction l as [|x l IH]; intros Hnd Hs; [constructor|].
    apply NoDup_cons in Hnd as [Hx Hnd].
    apply StronglySorted_inv in Hs as [Hs Hall].
    constructor; [by apply IH|].
    rewrite Forall_forall in Hall. apply Forall_forall. intros z Hz.
    specialize (Hall z Hz). assert (x ≠ z) by (by intros ->).
    unfold flip in *. lia.
  - intros y. rewrite Hp. apply elem_of_remove_dups.
Qed.

Lemma calendarData_currentYear_mono now archives fuel fuel' r :
  calendarData_currentYear LocalTZA parseDate now fuel archives = Returns r →
  (fuel ≤ fuel')%nat →
  calendarData_currentYear LocalTZA parseDate now fuel' archives = Returns r.
Proof.
  unfold calendarData_currentYear. cbv zeta. intros Hr Hle.
  destruct (foldl _ (Returns ∅) _) as [data'| |] eqn:Hf;
    cbn [mbind Outcome_bind] in Hr; [|done|done].
  by rewrite (buildYears_mono _ _ _ _ _ _ _ Hf Hle).
Qed.

Lemma isYearGrid_unique archives y months months' :
  isYearGrid LocalTZA archives y months →
  isYearGrid LocalTZA archives y months' → months = months'.
Proof. intros H H'. apply map_eq. intros m. by rewrite H, H'. Qed.


End BrowserYears.

Lemma defaultYear_has_grid_witness :
  ∃ cal : CalendarData,
    calendarData 0 parseDateOnly 60 [archive_2031] = Returns cal
    ∧ ∃ y : Z,
        defaultYear 0 (newDate 0 2031 5 1) (years cal) = Some y
        ∧ y ∈ years cal.
Proof.
  destruct (calendarData_runs 0 parseDateOnly 60 [archive_2031]) as (cal & Hcal);
    [repeat constructor|].
  exists cal. split; [exact Hcal|].
  destruct (defaultYear_has_grid 0 parseDateOnly (newDate 0 2031 5 1) 60
              [archive_2031] cal Hcal) as (y & E & Hy & _).
  exists y. split; [exact E | exact Hy].
Defined.

(** ** The header of the grid, the first run and the notes *)

Section HeaderAndNotes.
Variable LocalTZA : Z.
Variable parseDate : string → Z.

Lemma setHours_midnight d :
  TimeWithinDay (LocalTime LocalTZA d) = 0 → setHours LocalTZA d 0 0 0 0 = d.
Proof.
  intros H. rewrite (local_midnight LocalTZA d H) at 2.
  unfold setHours, MakeDate, MakeTime, localDay. cbv zeta. f_equal. lia.
Qed.

Lemma getCurrentDayIndex_mod d :
  getCurrentDayIndex LocalTZA d = (getDay LocalTZA d + 6) mod 7.
Proof.
  unfold getCurrentDayIndex. pose proof (getDay_range LocalTZA d).
  apply Z.rem_mod_nonneg; lia.
Qed.

Lemma columnDate_run d i st :
  currentWeekStartDate st = formatDate LocalTZA d →
  100 ≤ getFullYear LocalTZA d →
  columnDate LocalTZA i st = Some (setHours LocalTZA d 0 0 0 0 + i * msPerDay).
Proof.
  intros Hcur Hy. unfold columnDate, weekStart.
  rewrite Hcur, (formatDate_parse LocalTZA d Hy). cbn [mbind option_bind].
  by rewrite setDate_getDate_add.
Qed.

(** X25. The dates in the header of the grid.  When the week key is
    the key of a date [d] (of the year 100 or later), column [i] shows the
    month and day of the [i]-th day after [d].  When [d] is a Monday, the
    date of each of the seven columns falls on the day of the week of its
    own index, and for every instant of that week the column of the
    current day index, where the timer and the add-to-today button put
    their tasks, is the column that shows the date of that instant. *)
Theorem column_dates_follow_week (d i : Z) (st : AppState) :
  currentWeekStartDate st = formatDate LocalTZA d →
  100 ≤ getFullYear LocalTZA d →
  ∃ colDate : Z,
    columnDate LocalTZA i st = Some colDate
    ∧ localDay LocalTZA colDate = localDay LocalTZA d + i
    ∧ TimeWithinDay (LocalTime LocalTZA colDate) = 0
    ∧ columnDateStr LocalTZA i st
      = Some (toString (getMonth LocalTZA colDate + 1) +:+ "."
              +:+ toString (getDate LocalTZA colDate))
    ∧ (getDay LocalTZA d = 1 → 0 ≤ i ≤ 6 →
       getCurrentDayIndex LocalTZA colDate = i)
    ∧ (getDay LocalTZA d = 1 →
       ∀ today,
         localDay LocalTZA d ≤ localDay LocalTZA today < localDay LocalTZA d + 7 →
         ∃ todayCol,
           columnDate LocalTZA (getCurrentDayIndex LocalTZA today) st = Some todayCol
           ∧ localDay LocalTZA todayCol = localDay LocalTZA today).
Proof.
  intros Hcur Hy.
  exists (setHours LocalTZA d 0 0 0 0 + i * msPerDay).
  split; [by apply columnDate_run|].
  split; [apply localDay_shift|].
  split.
  { unfold setHours, LocalTime, UTC, MakeDate, MakeTime, TimeWithinDay, msPerDay.
    cbv zeta. Z.to_euclidean_division_equations. lia. }
  split.
  { unfold columnDateStr. by rewrite (columnDate_run d i st Hcur Hy). }
  split.
  { intros Hmon Hi. rewrite getCurrentDayIndex_mod, getDay_localDay, localDay_shift.
    rewrite getDay_localDay in Hmon. Z.to_euclidean_division_equations. lia. }
  intros Hmon today Hweek. eexists. split; [by apply columnDate_run|].
  rewrite localDay_shift, getCurrentDayIndex_mod, getDay_localDay.
  rewrite getDay_localDay in Hmon. Z.to_euclidean_division_equations. lia.
Qed.

(** X26. The first run opens on the current week.  When nothing is
    stored, the loading effect keeps the view as it is, marks the data as
    loaded, and sets the week key to the key of the Monday of the current
    week, with the label generated for that Monday; read back, the key is
    that Monday itself; the column of the current day index shows the
    current date; and the notes open on the current day of the week. *)
Theorem first_run_opens_current_week (now now' : Z) (st0 : AppState)
    (sto : Storage) :
  weekly_planner_data_v1 sto = None →
  100 ≤ getFullYear LocalTZA (getMonday LocalTZA now') →
  let st := loadEffect LocalTZA parseDate now now' sto st0 in
  let monday := getMonday LocalTZA now' in
  currentWeekStartDate st = formatDate LocalTZA monday
  ∧ currentWeekLabel st = generateWeekLabel LocalTZA monday
  ∧ weekStart LocalTZA st = Some monday
  ∧ columnDate LocalTZA (getCurrentDayIndex LocalTZA now') st
    = Some (setHours LocalTZA now' 0 0 0 0)
  ∧ tasks st = tasks st0 ∧ goals st = goals st0
  ∧ dailyThoughts st = dailyThoughts st0
  ∧ isLoaded st = true
  ∧ ∃ day, expandedDay st = Some day
           ∧ DAYS_OF_WEEK !! Z.to_nat (getCurrentDayIndex LocalTZA now) = Some day.
Proof.
  intros Hsto Hy st monday.
  assert (Ekey : currentWeekStartDate st = formatDate LocalTZA monday).
  { unfold st, loadEffect. by rewrite Hsto. }
  assert (Emid : setHours LocalTZA monday 0 0 0 0 = monday).
  { apply setHours_midnight, getMonday_midnight. }
  split; [exact Ekey|].
  split; [unfold st, loadEffect; by rewrite Hsto|].
  split.
  { unfold weekStart. rewrite Ekey, (formatDate_parse LocalTZA monday Hy).
    by rewrite Emid. }
  split.
  { rewrite (columnDate_run monday _ st Ekey Hy), Emid. f_equal.
    unfold monday. rewrite getMonday_unfold, getCurrentDayIndex_mod.
    unfold setHours, UTC, MakeDate, MakeTime, localDay. cbv zeta.
    unfold msPerDay. lia. }
  split; [unfold st, loadEffect; by rewrite Hsto|].
  split; [unfold st, loadEffect; by rewrite Hsto|].
  split; [unfold st, loadEffect; by rewrite Hsto|].
  split; [unfold st, loadEffect; by rewrite Hsto|].
  destruct (todayLabel_defined LocalTZA now) as (label & Hl & _).
  exists label. split; [|exact Hl].
  unfold st, loadEffect. rewrite Hsto. cbv zeta.
  cbn [expandedDay setIsLoaded setArchives setCurrentWeekLabel
       setCurrentWeekStartDate setExpandedDay]. exact Hl.
Qed.


End HeaderAndNotes.

Lemma column_dates_follow_week_witness :
  currentWeekStartDate state_week_2026_01_05 = formatDate 0 (newDate 0 2026 0 5)
  ∧ 100 ≤ getFullYear 0 (newDate 0 2026 0 5)
  ∧ ∃ colDate : Z,
      columnDate 0 3 state_week_2026_01_05 = Some colDate
      ∧ localDay 0 colDate = localDay 0 (newDate 0 2026 0 5) + 3.
Proof.
  assert (H1 : currentWeekStartDate state_week_2026_01_05
               = formatDate 0 (newDate 0 2026 0 5)) by (vm_compute; reflexivity).
  assert (H2 : 100 ≤ getFullYear 0 (newDate 0 2026 0 5)) by (vm_compute; discriminate).
  split; [exact H1|]. split; [exact H2|].
  destruct (column_dates_follow_week 0 (newDate 0 2026 0 5) 3
              state_week_2026_01_05 H1 H2) as (colDate & E1 & E2 & _).
  exists colDate. split; [exact E1 | exact E2].
Defined.

Lemma first_run_opens_current_week_witness :
  weekly_planner_data_v1 storage_empty = None
  ∧ 100 ≤ getFullYear 0 (getMonday 0 (newDate 0 2026 0 7))
  ∧ currentWeekStartDate
      (loadEffect 0 parseDateOnly (newDate 0 2026 0 7) (newDate 0 2026 0 7)
         storage_empty (initialState 0 (newDate 0 2026 0 7)))
    = formatDate 0 (getMonday 0 (newDate 0 2026 0 7)).
Proof.
  assert (H2 : 100 ≤ getFullYear 0 (getMonday 0 (newDate 0 2026 0 7)))
    by (vm_compute; discriminate).
  split; [reflexivity|]. split; [exact H2|].
  exact (proj1 (first_run_opens_current_week 0 parseDateOnly
                  (newDate 0 2026 0 7) (newDate 0 2026 0 7)
                  (initialState 0 (newDate 0 2026 0 7)) storage_empty eq_refl H2)).
Defined.

